(** * Payment transaction safety of the SSC transparency dashboard

    A shallow embedding of the Apps Script backend (Code.gs): the payment
    validators, the lock helper, [handleRecordPayment], the dry run
    [handleValidatePaymentData] and [validateSession], with the spreadsheet,
    the script lock and the clock made explicit; and of the amount validator
    of the client (api.js).

    Modelling conventions.
    - A finite JavaScript number is a rational ([Q]); comparison and [%]
      are exact on doubles, sums are taken exactly.  The amounts the
      recorder writes are multiples of 5 up to 10000, whose sums are exact
      in doubles below 2^53; [parseFloat] of a text keeps the decimal it
      reads, where the code rounds to the nearest double.
    - A [Date] is [Some ms] (milliseconds since the epoch) or [None] for
      an Invalid Date.
    - A spreadsheet cell holding text is a [string]; [String(a) === String(b)]
      is [String.eqb].  Strings are byte strings: [trim] strips the ASCII
      white space and [toUpperCase] maps a-z, as the methods of the code do
      on ASCII texts; statements that need the two to agree with the code
      on every input are made for ASCII texts ([asciiText]).
    - The values the platform alone decides (calendar of the script time
      zone, text of a number) are the fields of [Platform]; what the outer
      world decides per request (session, clock, random draws, lock
      contention, I/O faults) are the fields of [Env]. *)

From Stdlib Require Import ZArith QArith Qround List String Ascii Bool Lia Lra.
From Stdlib Require Import DecimalString Sorted.
Import ListNotations.

Open Scope string_scope.
Open Scope Z_scope.

(* ================================================================== *)
(** ** JavaScript values *)

Module Js.

(** The result of [parseFloat]: a number, possibly [NaN] or infinite. *)
Inductive Number : Type :=
| NaN
| Infinity (negative : bool)
| Finite (q : Q).

(** A [Date] object; [None] is the Invalid Date. *)
Definition Date : Type := option Z.

(** [String(n)] of an integer. *)
Definition showZ (z : Z) : string := NilEmpty.string_of_int (Z.to_int z).

Definition Qlt_bool (x y : Q) : bool := negb (Qle_bool y x).

(** Truncation toward zero, as in the quotient of [%]. *)
Definition Qtrunc (q : Q) : Z := Z.quot (Qnum q) (Zpos (Qden q)).

(** [x % m] on finite numbers: the remainder has the sign of [x]. *)
Definition rem (x m : Q) : Q := (x - m * inject_Z (Qtrunc (x / m)))%Q.

(** [!s] on a string. *)
Definition blank (s : string) : bool :=
  match s with EmptyString => true | _ => false end.

(** The white space [trim] strips, among the ASCII characters: space, tab,
    line feed, vertical tab, form feed, carriage return. *)
Definition isSpace (c : ascii) : bool :=
  let n := nat_of_ascii c in
  ((n =? 32) || (n =? 9) || (n =? 10) || (n =? 11) || (n =? 12) || (n =? 13))%nat.

Fixpoint trimStart (s : string) : string :=
  match s with
  | EmptyString => EmptyString
  | String c s' => if isSpace c then trimStart s' else s
  end.

Fixpoint trimEnd (s : string) : string :=
  match s with
  | EmptyString => EmptyString
  | String c s' =>
      match trimEnd s' with
      | EmptyString => if isSpace c then EmptyString else String c EmptyString
      | t => String c t
      end
  end.

Definition trim (s : string) : string := trimEnd (trimStart s).

(** [toUpperCase] on the ASCII characters: a-z to A-Z.  Texts are ASCII
    where a statement depends on [trim] or [toUpperCase] agreeing with the
    Unicode-aware methods (see [asciiText]). *)
Definition upperChar (c : ascii) : ascii :=
  let n := nat_of_ascii c in
  if ((97 <=? n) && (n <=? 122))%nat then ascii_of_nat (n - 32) else c.

Fixpoint toUpperCase (s : string) : string :=
  match s with
  | EmptyString => EmptyString
  | String c s' => String (upperChar c) (toUpperCase s')
  end.

Fixpoint repeat (c : ascii) (n : nat) : string :=
  match n with
  | O => EmptyString
  | S n' => String c (repeat c n')
  end.

(** [s.padStart(width, '0')]. *)
Definition padStart (width : nat) (s : string) : string :=
  repeat "0"%char (width - String.length s) ++ s.

(** The double-quote character of the template literals. *)
Definition dquote : string := String (ascii_of_nat 34) EmptyString.

(** [s.replace(pattern, replacement)] with a string pattern: the first
    occurrence only. *)
Fixpoint replace (pattern replacement s : string) : string :=
  if String.prefix pattern s
  then replacement ++ String.substring (String.length pattern)
                        (String.length s - String.length pattern) s
  else match s with
       | EmptyString => EmptyString
       | String c s' => String c (replace pattern replacement s')
       end.

(** A dynamically typed value: a spreadsheet cell or a field of the JSON
    payload.  The empty cell is [Text EmptyString]. *)
Inductive Value : Type :=
| Undefined
| Text (s : string)
| Num (q : Q)
| Bool (b : bool)
| DateValue (d : Date).

Definition truthy (v : Value) : bool :=
  match v with
  | Undefined => false
  | Text s => negb (blank s)
  | Num q => negb (Qeq_bool q 0)
  | Bool b => b
  | DateValue _ => true
  end.

(** [v || 0] *)
Definition orZero (v : Value) : Value := if truthy v then v else Num 0.

Definition digitOf (c : ascii) : option Z :=
  let n := nat_of_ascii c in
  if ((48 <=? n) && (n <=? 57))%nat then Some (Z.of_nat (n - 48)) else None.

(** The leading decimal digits of [s]: their value, how many, the rest. *)
Fixpoint readDigits (s : string) (acc : Z) (count : nat) : Z * nat * string :=
  match s with
  | EmptyString => (acc, count, s)
  | String c s' =>
      match digitOf c with
      | Some d => readDigits s' (10 * acc + d) (S count)
      | None => (acc, count, s)
      end
  end.

Definition readSign (s : string) : bool * string :=
  match s with
  | String "-" r => (true, r)
  | String "+" r => (false, r)
  | _ => (false, s)
  end.

(** [parseFloat] of a string: the longest prefix that is a decimal
    literal, after leading white space; [NaN] when there is none. *)
Definition parseFloatText (s : string) : Number :=
  let '(negative, s1) := readSign (trimStart s) in
  if String.prefix "Infinity" s1 then Infinity negative
  else
    let '(ip, ni, s2) := readDigits s1 0 0 in
    let '(fp, nf, s3) :=
      match s2 with
      | String "." r => readDigits r 0 0
      | _ => (0, 0%nat, s2)
      end in
    if (ni + nf =? 0)%nat then NaN
    else
      let mantissa :=
        (inject_Z ip + inject_Z fp / inject_Z (10 ^ Z.of_nat nf))%Q in
      let exponent :=
        match s3 with
        | String c r =>
            if (Ascii.eqb c "e" || Ascii.eqb c "E")%bool then
              let '(eneg, r1) := readSign r in
              let '(ev, ne, _) := readDigits r1 0 0 in
              if (ne =? 0)%nat then 0 else if eneg then - ev else ev
            else 0
        | EmptyString => 0
        end in
      let magnitude := (mantissa * Qpower 10 exponent)%Q in
      Finite (if negative then (- magnitude)%Q else magnitude).

(** [parseFloat(v)]: the argument is first converted to a string; the
    text of a boolean or of a date starts with a letter. *)
Definition parseFloat (v : Value) : Number :=
  match v with
  | Undefined => NaN
  | Text s => parseFloatText s
  | Num q => Finite q
  | Bool _ => NaN
  | DateValue _ => NaN
  end.

(** The local calendar fields of an instant. *)
Record Fields : Type := mkFields {
  getFullYear : Z;
  getMonth : Z;          (* 0 .. 11 *)
  getDate : Z;
  getHours : Z;
  getMinutes : Z;
  getSeconds : Z
}.

End Js.

(* ================================================================== *)
(** ** The platform *)

(** What Apps Script decides: the calendar of the script time zone and the
    text of a number in a template literal. *)
Record Platform : Type := mkPlatform {
  localFields : Z -> Js.Fields;
  numberToString : Js.Number -> string
}.

(** The proleptic Gregorian calendar in UTC, the instance used to run the
    model. *)
Definition civilFromDays (days : Z) : Z * Z * Z :=
  let z := days + 719468 in
  let era := z / 146097 in
  let doe := z - era * 146097 in
  let yoe := (doe - doe / 1460 + doe / 36524 - doe / 146096) / 365 in
  let doy := doe - (365 * yoe + yoe / 4 - yoe / 100) in
  let mp := (5 * doy + 2) / 153 in
  let d := doy - (153 * mp + 2) / 5 + 1 in
  let m := if mp <? 10 then mp + 3 else mp - 9 in
  let y := yoe + era * 400 in
  (if m <=? 2 then y + 1 else y, m, d).

Definition utcFields (ms : Z) : Js.Fields :=
  let secs := ms / 1000 in
  let '(y, m, d) := civilFromDays (secs / 86400) in
  let sod := secs mod 86400 in
  Js.mkFields y (m - 1) d (sod / 3600) ((sod mod 3600) / 60) (sod mod 60).

Definition showNumber (n : Js.Number) : string :=
  match n with
  | Js.NaN => "NaN"
  | Js.Infinity negative => if negative then "-Infinity" else "Infinity"
  | Js.Finite q =>
      (* whole numbers print as their decimal digits; a fraction is shown
         as a quotient, which stands in for the decimal expansion *)
      if (Zpos (Qden (Qred q)) =? 1)
      then Js.showZ (Qnum (Qred q))
      else Js.showZ (Qnum (Qred q)) ++ "/" ++ Js.showZ (Zpos (Qden (Qred q)))
  end.

Definition utcPlatform : Platform := mkPlatform utcFields showNumber.


(* ================================================================== *)
(** ** Configuration (the [CONFIG] object) *)

Module CONFIG.
Definition LOCK_TIMEOUT_SECONDS : Z := 30.
Definition PAYMENT_AMOUNT_MIN : Z := 5.
Definition PAYMENT_AMOUNT_MULTIPLE : Z := 5.
Definition MAX_PAYMENT_AMOUNT : Z := 10000.
Definition IDEMPOTENCY_RETENTION_HOURS : Z := 24.
Definition RECEIPT_NUMBER_PREFIX : string := "R-".
Definition PAYMENT_ID_PREFIX : string := "P".
End CONFIG.

(* ================================================================== *)
(** ** Validator results: the [{valid, message, ...}] objects *)

Record Validation : Type := mkValidation {
  valid : bool;
  message : string;
  existingPaymentId : option string
}.

Definition invalid (msg : string) : Validation := mkValidation false msg None.
Definition ok (msg : string) : Validation := mkValidation true msg None.

(* ================================================================== *)
(** ** validatePaymentAmount (Code.gs, lines 59-83) *)

Definition msgNotNumber : string := "Amount must be a valid number".
Definition msgNotPositive : string := "Amount must be greater than zero".
Definition msgMinimum : string :=
  "Minimum amount is " ++ Js.showZ CONFIG.PAYMENT_AMOUNT_MIN.
Definition msgMaximum : string :=
  "Maximum amount is " ++ Js.showZ CONFIG.MAX_PAYMENT_AMOUNT.
Definition msgMultiple : string :=
  "Amount must be a multiple of " ++ Js.showZ CONFIG.PAYMENT_AMOUNT_MULTIPLE.

Definition validatePaymentAmount (amount : Js.Number) : Validation :=
  match amount with
  | Js.NaN => invalid msgNotNumber
  | Js.Infinity negative =>
      (* -Infinity <= 0; +Infinity passes the minimum and fails the maximum *)
      if negative then invalid msgNotPositive else invalid msgMaximum
  | Js.Finite numAmount =>
      if Qeq_bool numAmount 0 then invalid msgNotNumber            (* !amount *)
      else if Qle_bool numAmount 0 then invalid msgNotPositive
      else if Js.Qlt_bool numAmount (inject_Z CONFIG.PAYMENT_AMOUNT_MIN)
      then invalid msgMinimum
      else if Js.Qlt_bool (inject_Z CONFIG.MAX_PAYMENT_AMOUNT) numAmount
      then invalid msgMaximum
      else if negb (Qeq_bool
                      (Js.rem numAmount (inject_Z CONFIG.PAYMENT_AMOUNT_MULTIPLE)) 0)
      then invalid msgMultiple
      else ok "Valid amount"
  end.

(** The amounts the business rule admits. *)
Definition amountInBounds (amount : Js.Number) : Prop :=
  exists q : Q,
    amount = Js.Finite q /\
    (inject_Z CONFIG.PAYMENT_AMOUNT_MIN <= q)%Q /\
    (q <= inject_Z CONFIG.MAX_PAYMENT_AMOUNT)%Q /\
    exists k : Z, (q == inject_Z CONFIG.PAYMENT_AMOUNT_MULTIPLE * inject_Z k)%Q.

(** The reason owed to an amount outside the rule, by the kinds of failure
    in the order the specification lists them: not a number, not greater
    than zero, below the minimum, above the maximum, not a multiple of the
    unit.  Zero is a number that is not greater than zero. *)
Definition expectedReason (amount : Js.Number) : string :=
  match amount with
  | Js.NaN => msgNotNumber
  | Js.Infinity true => msgNotPositive
  | Js.Infinity false => msgMaximum
  | Js.Finite q =>
      if Qle_bool q 0 then msgNotPositive
      else if Js.Qlt_bool q 5 then msgMinimum
      else if Js.Qlt_bool 10000 q then msgMaximum
      else msgMultiple
  end.

(** The number zero. *)
Definition isZero (amount : Js.Number) : Prop :=
  match amount with
  | Js.Finite q => (q == 0)%Q
  | _ => False
  end.


(* ================================================================== *)
(** ** The spreadsheet *)

(** A row of the Payments sheet, columns 0 to 12 in the order
    [appendRow] writes them.  The readers use the same indices. *)
Record PaymentRow : Type := mkPaymentRow {
  PaymentID : string;            (* 0 *)
  StudentID : string;            (* 1 *)
  SectionID : string;            (* 2 *)
  Amount : Q;                    (* 3 *)
  PaymentDate : Js.Date;         (* 4 *)
  EnteredBy : string;            (* 5 *)
  CreatedAt : Js.Date;           (* 6 *)
  PhysicalReceiptNo : string;    (* 7 *)
  ReceiptUrl : string;           (* 8 *)
  IdempotencyKey : string;       (* 9 *)
  IsVoided : bool;               (* 10 *)
  CollectionDayID : string;      (* 11 *)
  Notes : string                 (* 12 *)
}.

(** A row of the Students sheet, columns 0 to 6 under the headers of
    [setupDatabase]: StudentID, StudentNo, FullName, SectionID, Status,
    CreatedAt, ExpectedAmount.  The last three are kept as raw cells. *)
Module StudentRow.
Record t : Type := mk {
  StudentID : string;          (* 0 *)
  StudentNo : string;          (* 1 *)
  FullName : string;           (* 2 *)
  SectionID : string;          (* 3 *)
  Status : Js.Value;           (* 4 *)
  CreatedAt : Js.Value;        (* 5 *)
  ExpectedAmount : Js.Value    (* 6 *)
}.
End StudentRow.

(** The [details] object of a PAYMENT_RECORD audit entry. *)
Module Details.
Record t : Type := mk {
  studentId : string;
  studentName : string;
  amount : Q;
  physicalReceiptNo : string;
  systemReceiptNo : string;
  paymentDate : Z;             (* toISOString of a valid date *)
  previousTotal : Q;
  newTotal : Q;
  idempotencyKey : string
}.
End Details.

Module AuditRow.
Record t : Type := mk {
  LogID : string;
  User : string;
  ActionType : string;
  Table : string;
  RecordID : string;
  Details : Details.t;
  ActionTime : Z;
  IPAddress : string
}.
End AuditRow.

(** The session object [validateSession] returns. *)
Module Session.
Record t : Type := mk {
  user : string;
  role : string;
  department : string;
  section : string;
  token : string
}.
End Session.

(** The state the handlers act on.  A sheet that does not exist is [None];
    a sheet is the list of its data rows (from row 2 on, which is what
    [getDataRows(sheet, 2, n)] returns). *)
Record World : Type := mkWorld {
  Payments : option (list PaymentRow);
  Students : option (list StudentRow.t);
  AuditLog : option (list AuditRow.t);
  scriptLock : option nat;       (* the execution holding the script lock *)
  slept : list Z                 (* Utilities.sleep calls, oldest first *)
}.

Definition setPayments (rows : list PaymentRow) (w : World) : World :=
  mkWorld (Some rows) (Students w) (AuditLog w) (scriptLock w) (slept w).
Definition setAuditLog (rows : list AuditRow.t) (w : World) : World :=
  mkWorld (Payments w) (Students w) (Some rows) (scriptLock w) (slept w).
Definition setScriptLock (holder : option nat) (w : World) : World :=
  mkWorld (Payments w) (Students w) (AuditLog w) holder (slept w).
Definition addSleep (ms : Z) (w : World) : World :=
  mkWorld (Payments w) (Students w) (AuditLog w) (scriptLock w) (slept w ++ [ms]).

Definition getDataRows {A : Type} (sheet : list A) : list A := sheet.

(** The places inside the critical section where a platform call may
    throw. *)
Inductive FaultPoint : Type :=
| AtEligibility        (* sheet access in validateStudentPaymentEligibility *)
| AtOpenPayments       (* getActiveSpreadsheet / getSheetByName *)
| AtReadPayments       (* getDataRows *)
| AtGenerateReceipt    (* sheet access in generateUniqueReceiptNumber *)
| AtAppendRow          (* paySheet.appendRow *)
| AtAuditAppend.       (* auditSheet.appendRow, inside logAction's own try *)

(** What the outer world decides during one request. *)
Record Env : Type := mkEnv {
  executionId : nat;                   (* this execution, for the lock *)
  session : option Session.t;          (* validateSession(payload.token) *)
  uuid : string;                       (* Utilities.getUuid() *)
  requestTime : Z;                     (* new Date() for a missing paymentDate *)
  idempotencyTime : Z;                 (* Date.now() in validateIdempotencyKey *)
  commitTime : Z;                      (* now = new Date() at step 9 *)
  fallbackTime : Z;                    (* Date.now() in the receipt fallback *)
  auditTime : Z;                       (* new Date() in logAction *)
  randomPaymentSuffix : Z;             (* floor(random * 1000), payment id *)
  randomSequence : nat -> Z;           (* floor(random * 1000), per attempt *)
  randomLogSuffix : Z;                 (* floor(random * 1000), log id *)
  activeUserEmail : string;            (* Session.getActiveUser().getEmail() *)
  lockFreed : nat -> bool;             (* the holder lets go during wait i *)
  faults : FaultPoint -> bool
}.

(* ================================================================== *)
(** ** validateUniqueReceiptNumber (lines 88-124) *)

Definition excluded (excludePaymentId : option string) (paymentId : string) : bool :=
  match excludePaymentId with
  | Some e => negb (Js.blank e) && String.eqb paymentId e
  | None => false
  end.

Definition receiptInUse (cleanReceiptNo : string) (excludePaymentId : option string)
  (row : PaymentRow) : bool :=
  negb (IsVoided row || excluded excludePaymentId (PaymentID row))
  && String.eqb (Js.toUpperCase (Js.trim (PhysicalReceiptNo row))) cleanReceiptNo.

Definition receiptUsedMessage (receiptNo paymentId : string) : string :=
  "Receipt number " ++ Js.dquote ++ receiptNo ++ Js.dquote
    ++ " already used in payment " ++ paymentId.

Definition validateUniqueReceiptNumber (w : World) (receiptNo : string)
  (excludePaymentId : option string) : Validation :=
  if Js.blank receiptNo || Js.blank (Js.trim receiptNo)
  then invalid "Physical receipt number is required"
  else
    let cleanReceiptNo := Js.toUpperCase (Js.trim receiptNo) in
    match Payments w with
    | None => invalid "Payments sheet not found"
    | Some paySheet =>
        match find (receiptInUse cleanReceiptNo excludePaymentId) (getDataRows paySheet) with
        | Some row => invalid (receiptUsedMessage receiptNo (PaymentID row))
        | None => ok "Receipt number is unique"
        end
    end.

(* ================================================================== *)
(** ** validateIdempotencyKey (lines 129-161) *)

(** [date > cutoff]; a comparison with the Invalid Date is false. *)
Definition dateAfter (date : Js.Date) (cutoff : Z) : bool :=
  match date with
  | Some ms => cutoff <? ms
  | None => false
  end.

Definition cutoffTime (now : Z) : Z :=
  now - CONFIG.IDEMPOTENCY_RETENTION_HOURS * 60 * 60 * 1000.

Definition keyInUse (cutoff : Z) (idempotencyKey : string) (row : PaymentRow) : bool :=
  negb (IsVoided row) && dateAfter (CreatedAt row) cutoff
  && String.eqb (IdempotencyKey row) idempotencyKey.

Definition validateIdempotencyKey (w : World) (now : Z) (idempotencyKey : string)
  : Validation :=
  if Js.blank idempotencyKey || Js.blank (Js.trim idempotencyKey)
  then invalid "Idempotency key is required"
  else
    match Payments w with
    | None => invalid "Payments sheet not found"
    | Some paySheet =>
        match find (keyInUse (cutoffTime now) idempotencyKey) (getDataRows paySheet) with
        | Some row =>
            mkValidation false "Duplicate request detected" (Some (PaymentID row))
        | None => ok "Idempotency key is unique"
        end
    end.

(* ================================================================== *)
(** ** validateStudentPaymentEligibility (lines 166-238) *)

(** The [student] object built from the matching row: the source takes
    [expectedAmount] from column 4 and [isActive] from column 5. *)
Module Student.
Record t : Type := mk {
  studentId : string;
  studentNo : string;
  fullName : string;
  sectionId : string;
  expectedAmount : Js.Value;
  isActive : Js.Value
}.
End Student.

Definition studentOfRow (row : StudentRow.t) : Student.t :=
  Student.mk (StudentRow.StudentID row) (StudentRow.StudentNo row)
    (StudentRow.FullName row) (StudentRow.SectionID row)
    (Js.orZero (StudentRow.Status row))        (* stuRows[i][4] || 0 *)
    (StudentRow.CreatedAt row).                (* stuRows[i][5] *)

(** The result object: [valid:false] with a message, or [valid:true] with
    the student and the running totals. *)
Inductive Eligibility : Type :=
| Ineligible (message : string)
| Eligible (student : Student.t) (totalPaid newTotal : Q).

Definition paidBy (studentId : string) (row : PaymentRow) : bool :=
  String.eqb (StudentID row) studentId && negb (IsVoided row).

(** The loop [totalPaid += parseFloat(payAmount)] over the rows of the
    student that are not voided, from [totalPaid = 0]. *)
Definition totalPaidOf (studentId : string) (payRows : list PaymentRow) : Q :=
  fold_left
    (fun totalPaid row =>
       if paidBy studentId row then (totalPaid + Amount row)%Q else totalPaid)
    payRows 0%Q.

(** [expectedAmount > 0 && newTotal > expectedAmount]; a comparison with
    [NaN] is false, and nothing exceeds [+Infinity]. *)
Definition exceedsExpected (expectedAmount : Js.Number) (newTotal : Q) : bool :=
  match expectedAmount with
  | Js.Finite e => Js.Qlt_bool 0 e && Js.Qlt_bool e newTotal
  | _ => false
  end.

Definition exceedsMessage (P : Platform) (expectedAmount : Js.Number)
  (totalPaid newTotal : Q) : string :=
  "Payment would exceed expected amount. Expected: "
    ++ numberToString P expectedAmount
    ++ ", Already paid: " ++ numberToString P (Js.Finite totalPaid)
    ++ ", New total: " ++ numberToString P (Js.Finite newTotal).

Definition validateStudentPaymentEligibility (P : Platform) (w : World)
  (studentId : string) (amount : Q) (session : Session.t) : Eligibility :=
  match Students w, Payments w with
  | Some stuSheet, Some paySheet =>
      match find (fun r => String.eqb (StudentRow.StudentID r) studentId)
                 (getDataRows stuSheet) with
      | None => Ineligible "Student not found"
      | Some row =>
          let student := studentOfRow row in
          if negb (Js.truthy (Student.isActive student))
          then Ineligible "Student is inactive"
          else if String.eqb (Session.role session) "Treasurer"
                  && negb (String.eqb (Student.sectionId student) (Session.section session))
          then Ineligible "Student not in your section"
          else
            let totalPaid := totalPaidOf studentId (getDataRows paySheet) in
            let newTotal := (totalPaid + amount)%Q in
            let expectedAmount := Js.parseFloat (Student.expectedAmount student) in
            if exceedsExpected expectedAmount newTotal
            then Ineligible (exceedsMessage P expectedAmount totalPaid newTotal)
            else Eligible student totalPaid newTotal
      end
  | _, _ => Ineligible "Required sheets not found"
  end.

(* ================================================================== *)
(** ** formatDate (lines 2522-2539) and the calendar day *)

(** [String(n).padStart(2, '0')] of a calendar field; the fields of the
    Invalid Date are [NaN]. *)
Definition field2 (P : Platform) (d : Js.Date) (get : Js.Fields -> Z) : string :=
  match d with
  | Some ms => Js.padStart 2 (Js.showZ (get (localFields P ms)))
  | None => "NaN"
  end.

Definition formatDate (P : Platform) (d : Js.Date) (format : string) : string :=
  let year :=
    match d with
    | Some ms => Js.showZ (Js.getFullYear (localFields P ms))
    | None => "NaN"
    end in
  let month :=
    match d with
    | Some ms => Js.padStart 2 (Js.showZ (Js.getMonth (localFields P ms) + 1))
    | None => "NaN"
    end in
  let day := field2 P d Js.getDate in
  let hours := field2 P d Js.getHours in
  let minutes := field2 P d Js.getMinutes in
  let seconds := field2 P d Js.getSeconds in
  Js.replace "YYYYMMDD" (year ++ month ++ day)
    (Js.replace "ss" seconds
       (Js.replace "mm" minutes
          (Js.replace "HH" hours
             (Js.replace "DD" day
                (Js.replace "MM" month
                   (Js.replace "YYYY" year format)))))).

(** [d.toDateString()], up to the spelling: the text names the local year,
    month and day (the weekday follows from them), so two of them are equal
    exactly when these three agree; the Invalid Date prints the same text
    every time and is [None]. *)
Definition toDateString (P : Platform) (d : Js.Date) : option (Z * Z * Z) :=
  match d with
  | Some ms =>
      let f := localFields P ms in
      Some (Js.getFullYear f, Js.getMonth f, Js.getDate f)
  | None => None
  end.

Definition sameDateString (a b : option (Z * Z * Z)) : bool :=
  match a, b with
  | Some (y1, m1, d1), Some (y2, m2, d2) => (y1 =? y2) && (m1 =? m2) && (d1 =? d2)
  | None, None => true
  | _, _ => false
  end.

(* ================================================================== *)
(** ** generateUniqueReceiptNumber (lines 243-260) *)

Fixpoint receiptAttempts (w : World) (env : Env) (dateStr : string)
  (attempt remaining : nat) : option string :=
  match remaining with
  | O => None
  | S remaining' =>
      let sequence := Js.padStart 3 (Js.showZ (randomSequence env attempt)) in
      let receiptNo := CONFIG.RECEIPT_NUMBER_PREFIX ++ dateStr ++ "-" ++ sequence in
      if valid (validateUniqueReceiptNumber w receiptNo None)
      then Some receiptNo
      else receiptAttempts w env dateStr (S attempt) remaining'
  end.

Definition generateUniqueReceiptNumber (P : Platform) (w : World) (env : Env)
  (paymentDate : Js.Date) : string :=
  let dateStr := formatDate P paymentDate "YYYYMMDD" in
  let maxAttempts := 100%nat in
  match receiptAttempts w env dateStr 0 maxAttempts with
  | Some receiptNo => receiptNo
  | None =>
      let timestamp := fallbackTime env / 1000 in
      CONFIG.RECEIPT_NUMBER_PREFIX ++ dateStr ++ "-" ++ Js.showZ timestamp
  end.

(* ================================================================== *)
(** ** acquireLockWithRetry (lines 265-286) *)

(** The handle [LockService.getScriptLock()] returns: there is one script
    lock, whatever the key. *)
Inductive Lock : Type := ScriptLock.

(** [lock.waitLock(timeout)] at a given attempt: it succeeds when no other
    execution holds the script lock, or when the holder lets go during the
    wait; otherwise it throws. *)
Definition waitLock (env : Env) (attempt : nat) (w : World) : bool :=
  match scriptLock w with
  | None => true
  | Some holder => (holder =? executionId env)%nat || lockFreed env attempt
  end.

(** The loop [for (attempt = 0; attempt < maxAttempts; attempt++)];
    [remaining] is [maxAttempts - attempt]. *)
Fixpoint lockAttempts (env : Env) (maxAttempts attempt remaining : nat) (w : World)
  : option Lock * World :=
  match remaining with
  | O => (None, w)
  | S remaining' =>
      if waitLock env attempt w
      then (Some ScriptLock, setScriptLock (Some (executionId env)) w)
      else if (attempt =? maxAttempts - 1)%nat
      then (None, w)
      else lockAttempts env maxAttempts (S attempt) remaining'
             (addSleep (100 * (Z.of_nat attempt + 1)) w)
  end.

Definition acquireLockWithRetry (env : Env) (lockKey : string) (maxAttempts : nat)
  (w : World) : option Lock * World :=
  let maxAttempts := if (maxAttempts =? 0)%nat then 3%nat else maxAttempts in
  lockAttempts env maxAttempts 0 maxAttempts w.

(** [lock.releaseLock()]. *)
Definition releaseLock (env : Env) (w : World) : World :=
  match scriptLock w with
  | Some holder =>
      if (holder =? executionId env)%nat then setScriptLock None w else w
  | None => w
  end.

(* ================================================================== *)
(** ** Requests and responses *)

(** The JSON payload of a recordPayment request.  A text field that is
    missing is the empty string; [paymentDate] is [None] when the field is
    missing or empty and [Some (new Date(field))] otherwise. *)
Module Payload.
Record t : Type := mk {
  studentId : string;
  amount : Js.Value;
  physicalReceiptNo : string;
  idempotencyKey : string;
  paymentDate : option Js.Date;
  notes : string
}.
End Payload.

(** The data of the response to a committed payment. *)
Module Receipt.
Record t : Type := mk {
  paymentId : string;
  receiptNo : string;            (* the system receipt reference *)
  physicalReceiptNo : string;
  studentName : string;
  amount : Q;
  paymentDate : Z;               (* toISOString of a valid date *)
  previousTotal : Q;
  newTotal : Q;
  message : string
}.
End Receipt.

Inductive ResponseData : Type :=
| Recorded (receipt : Receipt.t)
| Duplicate (paymentId : string) (message : string).   (* duplicate: true *)

(** The body of the response; the envelope (JSON text, time stamp, CORS
    headers) is left out. *)
Inductive Response : Type :=
| createSuccessResponse (data : ResponseData)
| createErrorResponse (message : string).

(* ================================================================== *)
(** ** Code that may throw *)

Inductive Outcome (A : Type) : Type :=
| Returned (a : A)
| Thrown.
Arguments Returned {A} a.
Arguments Thrown {A}.

Definition Script (A : Type) : Type := World -> Outcome A * World.

Definition ret {A : Type} (a : A) : Script A := fun w => (Returned a, w).

Definition bind {A B : Type} (m : Script A) (k : A -> Script B) : Script B :=
  fun w =>
    match m w with
    | (Returned a, w') => k a w'
    | (Thrown, w') => (Thrown, w')
    end.

Notation "x <- m ;; k" := (bind m (fun x => k))
  (at level 61, m at next level, right associativity).
Notation "m ;;; k" := (bind m (fun _ => k))
  (at level 61, right associativity).

(** [try { body } catch (e) { handler }], with a handler that returns. *)
Definition tryCatch {A : Type} (body : Script A) (handler : World -> A * World)
  : World -> A * World :=
  fun w =>
    match body w with
    | (Returned a, w') => (a, w')
    | (Thrown, w') => handler w'
    end.

(** A block that cannot throw, inside one that can. *)
Definition lift {A : Type} (f : World -> A * World) : Script A :=
  fun w => let '(a, w') := f w in (Returned a, w').

(** A platform call that reads the state, throwing at a fault. *)
Definition reading {A : Type} (env : Env) (at_ : FaultPoint) (f : World -> A)
  : Script A :=
  fun w => if faults env at_ then (Thrown, w) else (Returned (f w), w).

Definition release (env : Env) : Script unit :=
  fun w => (Returned tt, releaseLock env w).

(** [paySheet.appendRow(row)]: atomic, it writes the row or throws. *)
Definition appendRow (env : Env) (row : PaymentRow) : Script unit :=
  fun w =>
    if faults env AtAppendRow then (Thrown, w)
    else match Payments w with
         | Some rows => (Returned tt, setPayments (rows ++ [row]) w)
         | None => (Thrown, w)
         end.

(** [date.toISOString()]: a RangeError on the Invalid Date. *)
Definition toISOString (d : Js.Date) : Script Z :=
  fun w =>
    match d with
    | Some ms => (Returned ms, w)
    | None => (Thrown, w)
    end.

(** The row logAction writes. *)
Definition auditRowOf (env : Env) (actionType user table recordId : string)
  (details : Details.t) : AuditRow.t :=
  let logId :=
    "L" ++ Js.showZ (auditTime env / 1000) ++ Js.showZ (randomLogSuffix env) in
  let email :=
    if Js.blank (activeUserEmail env) then "unknown" else activeUserEmail env in
  AuditRow.mk logId (if Js.blank user then "System" else user)
    actionType table recordId details (auditTime env) email.

(** logAction (lines 957-977): a missing sheet or a failing write is
    swallowed. *)
Definition logAction (env : Env) (actionType user table recordId : string)
  (details : Details.t) : Script unit :=
  fun w =>
    match AuditLog w with
    | None => (Returned tt, w)
    | Some rows =>
        if faults env AtAuditAppend then (Returned tt, w)
        else (Returned tt,
              setAuditLog
                (rows ++ [auditRowOf env actionType user table recordId details]) w)
    end.

(* ================================================================== *)
(** ** handleRecordPayment (lines 1307-1472) *)

(** The request after steps 1 to 4. *)
Module Request.
Record t : Type := mk {
  session : Session.t;
  studentId : string;
  amount : Q;
  physicalReceiptNo : string;      (* trimmed *)
  idempotencyKey : string;
  paymentDate : Js.Date;
  notes : string
}.
End Request.

Definition msgRequired : string :=
  "studentId, amount, and physicalReceiptNo are required".
Definition msgBusy : string :=
  "System is busy processing another payment for this student. Please wait and try again.".
Definition msgSameDay : string :=
  "A payment for this student has already been recorded today. Use a different date or contact admin to void the existing payment.".
Definition msgSaveFailed : string :=
  "Failed to save payment record. Please try again.".
Definition msgUnexpected : string :=
  "Unexpected error occurred. Please try again or contact support.".

(** [!amount] on a number. *)
Definition falsyNumber (n : Js.Number) : bool :=
  match n with
  | Js.NaN => true
  | Js.Infinity _ => false
  | Js.Finite q => Qeq_bool q 0
  end.

(** [payload.idempotencyKey || Utilities.getUuid()] *)
Definition idempotencyKeyOf (env : Env) (payload : Payload.t) : string :=
  if Js.blank (Payload.idempotencyKey payload) then uuid env
  else Payload.idempotencyKey payload.

(** [payload.paymentDate ? new Date(payload.paymentDate) : new Date()] *)
Definition paymentDateOf (env : Env) (payload : Payload.t) : Js.Date :=
  match Payload.paymentDate payload with
  | Some d => d
  | None => Some (requestTime env)
  end.

(** Steps 1 to 4, outside the lock: a response, or the checked request. *)
Definition prevalidate (env : Env) (payload : Payload.t) (w : World)
  : Response + Request.t :=
  match session env with
  | None => inl (createErrorResponse "unauthorized")
  | Some session =>
      let studentId := Payload.studentId payload in
      let amount := Js.parseFloat (Payload.amount payload) in
      let physicalReceiptNo := Js.trim (Payload.physicalReceiptNo payload) in
      let idempotencyKey := idempotencyKeyOf env payload in
      let paymentDate := paymentDateOf env payload in
      let notes := Js.trim (Payload.notes payload) in
      (* Step 1 *)
      if Js.blank studentId || falsyNumber amount || Js.blank physicalReceiptNo
      then inl (createErrorResponse msgRequired)
      else
        (* Step 2 *)
        let amountValidation := validatePaymentAmount amount in
        match amount with
        | Js.Finite numAmount =>
            if negb (valid amountValidation)
            then inl (createErrorResponse (message amountValidation))
            else
              (* Step 3 *)
              let idempotencyValidation :=
                validateIdempotencyKey w (idempotencyTime env) idempotencyKey in
              if negb (valid idempotencyValidation)
              then
                match existingPaymentId idempotencyValidation with
                | Some existing =>
                    if Js.blank existing
                    then inl (createErrorResponse (message idempotencyValidation))
                    else inl (createSuccessResponse
                                (Duplicate existing "payment already recorded"))
                | None => inl (createErrorResponse (message idempotencyValidation))
                end
              else
                (* Step 4 *)
                let receiptValidation :=
                  validateUniqueReceiptNumber w physicalReceiptNo None in
                if negb (valid receiptValidation)
                then inl (createErrorResponse (message receiptValidation))
                else inr (Request.mk session studentId numAmount physicalReceiptNo
                            idempotencyKey paymentDate notes)
        | _ =>
            (* an amount that is not finite is never valid *)
            inl (createErrorResponse (message amountValidation))
        end
  end.

Definition sameDay (P : Platform) (studentId : string) (todayStr : option (Z * Z * Z))
  (row : PaymentRow) : bool :=
  String.eqb (StudentID row) studentId
  && negb (IsVoided row)
  && sameDateString (toDateString P (PaymentDate row)) todayStr.

(** The test of the idempotency re-check in the lock (line 1379). *)
Definition keyRecheck (idempotencyKey : string) (row : PaymentRow) : bool :=
  String.eqb (IdempotencyKey row) idempotencyKey.

(** The test of the receipt re-check in the lock (lines 1391-1394). *)
Definition receiptRecheck (physicalReceiptNo : string) (row : PaymentRow) : bool :=
  negb (IsVoided row)
  && String.eqb (Js.toUpperCase (Js.trim (PhysicalReceiptNo row)))
       (Js.toUpperCase physicalReceiptNo).

Definition newPaymentId (env : Env) : string :=
  CONFIG.PAYMENT_ID_PREFIX ++ Js.showZ (commitTime env / 1000)
    ++ Js.showZ (randomPaymentSuffix env).

(** The row of step 10. *)
Definition paymentRowOf (env : Env) (req : Request.t) (student : Student.t)
  (paymentId : string) : PaymentRow :=
  mkPaymentRow paymentId (Request.studentId req) (Student.sectionId student)
    (Request.amount req) (Request.paymentDate req)
    (Session.user (Request.session req)) (Some (commitTime env))
    (Request.physicalReceiptNo req)
    EmptyString                       (* ReceiptUrl *)
    (Request.idempotencyKey req)
    false                             (* IsVoided *)
    EmptyString                       (* CollectionDayID *)
    (Request.notes req).

(** The details of the audit entry of step 11. *)
Definition detailsOf (req : Request.t) (student : Student.t) (totalPaid newTotal : Q)
  (systemReceiptNo : string) (iso : Z) : Details.t :=
  Details.mk (Request.studentId req) (Student.fullName student)
    (Request.amount req) (Request.physicalReceiptNo req) systemReceiptNo
    iso totalPaid newTotal (Request.idempotencyKey req).

(** The data of the success response. *)
Definition receiptOf (req : Request.t) (student : Student.t) (totalPaid newTotal : Q)
  (paymentId systemReceiptNo : string) (iso : Z) : Receipt.t :=
  Receipt.mk paymentId systemReceiptNo (Request.physicalReceiptNo req)
    (Student.fullName student) (Request.amount req) iso
    totalPaid newTotal "Payment recorded successfully".

(** Step 10 and 11, the inner [try]. *)
Definition commit (env : Env) (req : Request.t) (student : Student.t)
  (totalPaid newTotal : Q) (paymentId systemReceiptNo : string)
  : World -> Response * World :=
  tryCatch
    (appendRow env (paymentRowOf env req student paymentId) ;;;
     iso <- toISOString (Request.paymentDate req) ;;
     logAction env "PAYMENT_RECORD" (Session.user (Request.session req)) "Payments"
       paymentId (detailsOf req student totalPaid newTotal systemReceiptNo iso) ;;;
     release env ;;;
     ret (createSuccessResponse
            (Recorded (receiptOf req student totalPaid newTotal paymentId
                         systemReceiptNo iso))))
    (fun w => (createErrorResponse msgSaveFailed, releaseLock env w)).

(** Steps 6 to 11, the outer [try] with its [catch]: the critical
    section, entered with the lock held. *)
Definition critical (P : Platform) (env : Env) (req : Request.t)
  : World -> Response * World :=
  tryCatch
    ((* Step 6 *)
     eligibilityValidation <-
       reading env AtEligibility
         (fun w => validateStudentPaymentEligibility P w (Request.studentId req)
                     (Request.amount req) (Request.session req)) ;;
     match eligibilityValidation with
     | Ineligible msg => release env ;;; ret (createErrorResponse msg)
     | Eligible student totalPaid newTotal =>
         (* Step 7 *)
         paySheet <- reading env AtOpenPayments Payments ;;
         match paySheet with
         | None => release env ;;; ret (createErrorResponse "Payments sheet not found")
         | Some sheet =>
             payRows <- reading env AtReadPayments (fun _ => getDataRows sheet) ;;
             match find (keyRecheck (Request.idempotencyKey req)) payRows with
             | Some row =>
                 release env ;;;
                 ret (createSuccessResponse
                        (Duplicate (PaymentID row)
                           "payment already recorded (detected in lock)"))
             | None =>
                 match find (receiptRecheck (Request.physicalReceiptNo req))
                            payRows with
                 | Some row =>
                     release env ;;;
                     ret (createErrorResponse
                            (receiptUsedMessage (Request.physicalReceiptNo req)
                               (PaymentID row)))
                 | None =>
                     (* Step 8 *)
                     let todayStr := toDateString P (Request.paymentDate req) in
                     if existsb (sameDay P (Request.studentId req) todayStr) payRows
                     then release env ;;; ret (createErrorResponse msgSameDay)
                     else
                       (* Step 9 *)
                       let paymentId := newPaymentId env in
                       systemReceiptNo <-
                         reading env AtGenerateReceipt
                           (fun w => generateUniqueReceiptNumber P w env
                                       (Request.paymentDate req)) ;;
                       lift (commit env req student totalPaid newTotal paymentId
                               systemReceiptNo)
                 end
             end
         end
     end)
    (fun w => (createErrorResponse msgUnexpected, releaseLock env w)).

Definition handleRecordPayment (P : Platform) (env : Env) (payload : Payload.t)
  (w : World) : Response * World :=
  match prevalidate env payload w with
  | inl response => (response, w)
  | inr req =>
      (* Step 5 *)
      match acquireLockWithRetry env ("recordPayment_" ++ Request.studentId req) 3 w with
      | (None, w1) => (createErrorResponse msgBusy, w1)
      | (Some lock, w1) => critical P env req w1
      end
  end.

(* ================================================================== *)
(** ** Voiding a payment *)

(** Modelled from the spec: the void operation.  [doPost] dispatches
    'voidPayment' to [handleVoidPayment], which is not part of the sources;
    by the data model a payment is immutable except for its voided flag, set
    by the void operation. *)
Definition voidRow (paymentId : string) (row : PaymentRow) : PaymentRow :=
  if String.eqb (PaymentID row) paymentId
  then mkPaymentRow (PaymentID row) (StudentID row) (SectionID row) (Amount row)
         (PaymentDate row) (EnteredBy row) (CreatedAt row) (PhysicalReceiptNo row)
         (ReceiptUrl row) (IdempotencyKey row) true (CollectionDayID row) (Notes row)
  else row.

Definition voidPayment (paymentId : string) (w : World) : World :=
  match Payments w with
  | Some rows => setPayments (map (voidRow paymentId) rows) w
  | None => w
  end.

(* ================================================================== *)
(** ** Several executions at once *)

(** Executions of [handleRecordPayment] interleave at the borders of its
    phases: the checks before the lock, each turn of the loop of
    acquireLockWithRetry, and the critical section.  Execution [i] runs in
    the environment [own envs i]: its lock identity is [i], and the script
    lock is freed only by a step of its holder. *)
Module Concurrent.

(** Where an execution of handleRecordPayment stands: not started, at its
    entry, at the head of the loop of acquireLockWithRetry with the attempt
    number, inside the critical section, or returned. *)
Inductive Phase : Type :=
| Idle
| Arrived (payload : Payload.t)
| Waiting (req : Request.t) (attempt : nat)
| Holding (req : Request.t)
| Done (response : Response).

Record System : Type := mkSystem {
  world : World;
  phase : nat -> Phase
}.

(** The environment of execution [i].  The script lock is the one of the
    shared state: a step of the loop stands for the instant at which
    [waitLock(30000)] ends, with the lock when the lock is free at that
    instant, by its timeout when another execution still holds it.  A
    release during the wait is a step of the holder that comes first, so
    the environment itself announces none. *)
Definition own (envs : nat -> Env) (i : nat) : Env :=
  let e := envs i in
  mkEnv i (session e) (uuid e) (requestTime e) (idempotencyTime e) (commitTime e)
    (fallbackTime e) (auditTime e) (randomPaymentSuffix e) (randomSequence e)
    (randomLogSuffix e) (activeUserEmail e) (fun _ => false) (faults e).

Definition update (f : nat -> Phase) (i : nat) (p : Phase) : nat -> Phase :=
  fun j => if (j =? i)%nat then p else f j.

(** [acquireLockWithRetry(lockKey)]: maxAttempts is 3. *)
Definition maxAttempts : nat := 3.

Definition afterValidate (envs : nat -> Env) (i : nat) (payload : Payload.t)
  (s : System) : System :=
  mkSystem (world s)
    (update (phase s) i
       match prevalidate (own envs i) payload (world s) with
       | inl response => Done response
       | inr req => Waiting req 0
       end).

(** One turn of the loop of acquireLockWithRetry: the wait ends with the
    lock; or it times out, and the execution sleeps and tries again, or
    gives up after the last attempt. *)
Definition afterAttempt (envs : nat -> Env) (i : nat) (req : Request.t)
  (attempt : nat) (s : System) : System :=
  if waitLock (own envs i) attempt (world s)
  then mkSystem (setScriptLock (Some (executionId (own envs i))) (world s))
         (update (phase s) i (Holding req))
  else if (attempt =? maxAttempts - 1)%nat
  then mkSystem (world s) (update (phase s) i (Done (createErrorResponse msgBusy)))
  else mkSystem (addSleep (100 * (Z.of_nat attempt + 1)) (world s))
         (update (phase s) i (Waiting req (S attempt))).

Definition afterCritical (P : Platform) (envs : nat -> Env) (i : nat)
  (req : Request.t) (s : System) : System :=
  let '(response, w1) := critical P (own envs i) req (world s) in
  mkSystem w1 (update (phase s) i (Done response)).

Inductive step (P : Platform) (envs : nat -> Env) : System -> System -> Prop :=
| step_validate (i : nat) (payload : Payload.t) (s : System) :
    phase s i = Arrived payload ->
    step P envs s (afterValidate envs i payload s)
| step_attempt (i : nat) (req : Request.t) (attempt : nat) (s : System) :
    phase s i = Waiting req attempt ->
    (attempt < maxAttempts)%nat ->
    step P envs s (afterAttempt envs i req attempt s)
| step_critical (i : nat) (req : Request.t) (s : System) :
    phase s i = Holding req ->
    step P envs s (afterCritical P envs i req s).

Inductive reachable (P : Platform) (envs : nat -> Env) (s0 : System)
  : System -> Prop :=
| reach_here : reachable P envs s0 s0
| reach_step (s s' : System) :
    reachable P envs s0 s -> step P envs s s' -> reachable P envs s0 s'.

(** Nobody is inside a critical section and the script lock is free. *)
Definition initial (s : System) : Prop :=
  scriptLock (world s) = None /\ forall i req, phase s i <> Holding req.

Definition holding (s : System) (i : nat) : Prop :=
  exists req, phase s i = Holding req.

(** Whoever is inside the critical section holds the script lock. *)
Definition holderInv (s : System) : Prop :=
  forall i, holding s i -> scriptLock (world s) = Some i.

(** The turns of the loop an execution takes when no other execution
    moves in between. *)
Fixpoint attempts (turns : nat) (envs : nat -> Env) (i : nat) (req : Request.t)
  (attempt : nat) (s : System) : System :=
  match turns with
  | O => s
  | S turns' =>
      let s' := afterAttempt envs i req attempt s in
      match phase s' i with
      | Waiting req' attempt' => attempts turns' envs i req' attempt' s'
      | _ => s'
      end
  end.

(** An execution that runs from its entry to its return with no other
    execution moving in between. *)
Definition alone (P : Platform) (envs : nat -> Env) (i : nat) (payload : Payload.t)
  (s : System) : System :=
  let s1 := afterValidate envs i payload s in
  match phase s1 i with
  | Waiting req attempt =>
      let s2 := attempts maxAttempts envs i req attempt s1 in
      match phase s2 i with
      | Holding req' => afterCritical P envs i req' s2
      | _ => s2
      end
  | _ => s1
  end.

End Concurrent.

(* ================================================================== *)
(** ** Vocabulary of the properties *)

(** The request passes steps 1 and 2, with session [s] and amount [q]. *)
Definition wellFormed (env : Env) (payload : Payload.t) (s : Session.t) (q : Q) : Prop :=
  session env = Some s
  /\ Js.blank (Payload.studentId payload) = false
  /\ Js.parseFloat (Payload.amount payload) = Js.Finite q
  /\ valid (validatePaymentAmount (Js.Finite q)) = true
  /\ Js.blank (Js.trim (Payload.physicalReceiptNo payload)) = false.

(** The checked request steps 1 to 4 hand to the lock. *)
Definition requestOf (env : Env) (payload : Payload.t) (s : Session.t) (q : Q)
  : Request.t :=
  Request.mk s (Payload.studentId payload) q
    (Js.trim (Payload.physicalReceiptNo payload))
    (idempotencyKeyOf env payload) (paymentDateOf env payload)
    (Js.trim (Payload.notes payload)).

(** The expected amount the eligibility check reads from a student row. *)
Definition expectedAmountRead (row : StudentRow.t) : Js.Number :=
  Js.parseFloat (Student.expectedAmount (studentOfRow row)).

(** The row of the student the check works with: the first with the id. *)
Definition studentRowOf (studentId : string) (stuSheet : list StudentRow.t)
  : option StudentRow.t :=
  find (fun r => String.eqb (StudentRow.StudentID r) studentId) stuSheet.

(** The same environment with other draws for the receipt reference: the
    random sequence numbers and the clock of the fallback. *)
Definition withReceiptDraws (draws : nat -> Z) (fallback : Z) (env : Env) : Env :=
  mkEnv (executionId env) (session env) (uuid env) (requestTime env)
    (idempotencyTime env) (commitTime env) fallback (auditTime env)
    (randomPaymentSuffix env) draws (randomLogSuffix env) (activeUserEmail env)
    (lockFreed env) (faults env).

(** A receipt number as the checks compare it. *)
Definition normalized (receiptNo : string) : string :=
  Js.toUpperCase (Js.trim receiptNo).

(** A text of ASCII characters only.  On such a text [trim] strips the six
    ASCII white space characters and [toUpperCase] maps a-z to A-Z, which is
    what [Js.trim] and [Js.toUpperCase] do; outside ASCII the two methods
    follow the Unicode tables. *)
Definition asciiText (s : string) : bool :=
  forallb (fun c => (nat_of_ascii c <? 128)%nat) (list_ascii_of_string s).

(** The receipt numbers of the sheet are ASCII texts. *)
Definition asciiReceipts (sheet : list PaymentRow) : Prop :=
  forall row, In row sheet -> asciiText (PhysicalReceiptNo row) = true.

(** The pauses of a run of [n] failed attempts: none after the last. *)
Definition backoff (first count : nat) : list Z :=
  map (fun attempt => 100 * (Z.of_nat attempt + 1)) (seq first count).

Definition withSleeps (pauses : list Z) (w : World) : World :=
  mkWorld (Payments w) (Students w) (AuditLog w) (scriptLock w) (slept w ++ pauses).

(** The lock is held by another execution, which keeps it during the
    first [n] waits. *)
Definition contended (env : Env) (w : World) (n : nat) : Prop :=
  (exists holder, scriptLock w = Some holder /\ holder <> executionId env)
  /\ forall attempt, (attempt < n)%nat -> lockFreed env attempt = false.

Definition effectiveAttempts (maxAttempts : nat) : nat :=
  if (maxAttempts =? 0)%nat then 3%nat else maxAttempts.



Definition isRecorded (response : Response) : bool :=
  match response with
  | createSuccessResponse (Recorded _) => true
  | _ => false
  end.

(** No platform call of the critical section throws (the write to the audit
    sheet may fail: logAction swallows it). *)
Definition callsSucceed (env : Env) : Prop :=
  faults env AtEligibility = false /\ faults env AtOpenPayments = false
  /\ faults env AtReadPayments = false /\ faults env AtGenerateReceipt = false
  /\ faults env AtAppendRow = false.

(** Steps 6 and 7 pass on the sheet [sheet]. *)
Definition passesRechecks (P : Platform) (req : Request.t) (w : World)
  (sheet : list PaymentRow) (student : Student.t) (totalPaid newTotal : Q) : Prop :=
  Payments w = Some sheet
  /\ validateStudentPaymentEligibility P w (Request.studentId req)
       (Request.amount req) (Request.session req)
     = Eligible student totalPaid newTotal
  /\ find (keyRecheck (Request.idempotencyKey req)) sheet = None
  /\ find (receiptRecheck (Request.physicalReceiptNo req)) sheet = None.

(** The checks of steps 6 to 8 all pass on the sheet [sheet]. *)
Definition passesChecks (P : Platform) (req : Request.t) (w : World)
  (sheet : list PaymentRow) (student : Student.t) (totalPaid newTotal : Q) : Prop :=
  Payments w = Some sheet
  /\ validateStudentPaymentEligibility P w (Request.studentId req)
       (Request.amount req) (Request.session req)
     = Eligible student totalPaid newTotal
  /\ find (keyRecheck (Request.idempotencyKey req)) sheet = None
  /\ find (receiptRecheck (Request.physicalReceiptNo req)) sheet = None
  /\ existsb (sameDay P (Request.studentId req)
                (toDateString P (Request.paymentDate req))) sheet = false.

(** The audit sheet after logAction. *)
Definition auditAfter (env : Env) (row : AuditRow.t) (w : World)
  : option (list AuditRow.t) :=
  match AuditLog w with
  | None => None
  | Some rows =>
      if faults env AtAuditAppend then Some rows else Some (rows ++ [row])%list
  end.

(** The receipt number is used by no payment but [paymentId]. *)
Definition onlyUsedBy (receiptNo paymentId : string) (sheet : list PaymentRow) : Prop :=
  forall other,
    In other sheet -> IsVoided other = false ->
    normalized (PhysicalReceiptNo other) = normalized receiptNo ->
    PaymentID other = paymentId.

(** The text cells of a Payments row. *)
Definition rowTexts (row : PaymentRow) : list string :=
  [PaymentID row; StudentID row; SectionID row; EnteredBy row;
   PhysicalReceiptNo row; ReceiptUrl row; IdempotencyKey row;
   CollectionDayID row; Notes row].

Definition headKept (s : string) : Prop :=
  match s with
  | EmptyString => True
  | String c _ => Js.isSpace c = false
  end.

(* ================================================================== *)
(** ** Sample data *)

(** A small spreadsheet and a few requests, to run the model on. *)
Module Sample.

Definition jan09 : Z := 1704758400000.      (* 2024-01-09T00:00:00Z *)
Definition jan10 : Z := 1704844800000.      (* 2024-01-10T00:00:00Z *)
Definition jan11 : Z := 1704931200000.      (* 2024-01-11T00:00:00Z *)
Definition noon : Z := 43200000.

Definition treasurer : Session.t :=
  Session.mk "maria" "Treasurer" "ICT" "S1" "token-1".

(** Execution [id] at instant [now]: no contention, no fault. *)
Definition envAt (id : nat) (now : Z) : Env :=
  mkEnv id (Some treasurer) "generated-uuid" now now now now now
    417 (fun attempt => Z.of_nat attempt + 7) 88 "maria@example.org"
    (fun _ => false) (fun _ => false).

(** Rows as handleCreateSection writes them: 'Active' in column 4, the
    creation time in column 5, the expected amount in column 6. *)
Definition juan : StudentRow.t :=
  StudentRow.mk "ST1" "2024-001" "Juan Cruz" "S1"
    (Js.Text "Active") (Js.DateValue (Some jan09)) (Js.Num 100).
Definition ana : StudentRow.t :=
  StudentRow.mk "ST2" "2024-002" "Ana Reyes" "S1"
    (Js.Text "Active") (Js.DateValue (Some jan09)) (Js.Num 100).

Definition payment (id studentId : string) (amount : Q) (date : Z)
  (receipt key : string) (voided : bool) : PaymentRow :=
  mkPaymentRow id studentId "S1" amount (Some date) "maria" (Some date)
    receipt EmptyString key voided EmptyString EmptyString.

Definition sheets (payments : list PaymentRow) (students : list StudentRow.t)
  : World :=
  mkWorld (Some payments) (Some students) (Some []) None [].

Definition request (studentId : string) (amount : Q) (receipt key : string)
  (date : Z) : Payload.t :=
  Payload.mk studentId (Js.Num amount) receipt key (Some (Some date)) EmptyString.

(** Two requests for two students arriving together. *)
Definition world0 : World := sheets [] [juan; ana].
Definition forJuan : Payload.t := request "ST1" 50 "OR-101" "key-a" jan10.
Definition forAna : Payload.t := request "ST2" 50 "OR-102" "key-b" jan10.
Definition checked (payload : Payload.t) : Request.t :=
  Request.mk treasurer (Payload.studentId payload) 50
    (Payload.physicalReceiptNo payload) (Payload.idempotencyKey payload)
    (Some jan10) EmptyString.
Definition envs (i : nat) : Env := envAt i (jan10 + noon).
Definition arrivals : Concurrent.System :=
  Concurrent.mkSystem world0
    (fun i => match i with
              | O => Concurrent.Arrived forJuan
              | S O => Concurrent.Arrived forAna
              | _ => Concurrent.Idle
              end).

(** One execution, at noon of 10 January 2024. *)
Definition env : Env := envAt 1 (jan10 + noon).

(** A key used by a voided payment, and by one made forty days ago. *)
Definition voidedLedger : World :=
  sheets [payment "P1" "ST1" 50 jan09 "OR-1" "key-1" true] [juan].
Definition oldLedger : World :=
  sheets [payment "P1" "ST1" 50 (jan09 - 40 * 86400000) "OR-1" "key-1" false] [juan].
Definition sameKey : Payload.t := request "ST1" 50 "OR-200" "key-1" jan10.

(** A receipt number in use. *)
Definition receiptLedger : World :=
  sheets [payment "P1" "ST2" 50 jan09 "OR-1" "key-1" false] [juan; ana].
Definition sameReceipt : Payload.t := request "ST1" 50 " or-1 " "key-2" jan10.

(** A payment dated 10 January. *)
Definition dayLedger : World :=
  sheets [payment "P1" "ST1" 20 (jan10 + 3600000) "OR-1" "key-1" false] [juan].
Definition sameDate : Payload.t := request "ST1" 50 "OR-2" "key-2" (jan10 + noon).
Definition nextDate : Payload.t := request "ST1" 50 "OR-2" "key-2" (jan11 + noon).

(** 80 paid by the student. *)
Definition paid80 (students : list StudentRow.t) (studentId : string) : World :=
  sheets [payment "P1" studentId 80 jan09 "OR-1" "key-1" false] students.
Definition pay (studentId : string) (amount : Q) : Payload.t :=
  request studentId amount "OR-2" "key-2" jan10.

(** The receipt inside a success response. *)
Definition receiptIn (response : Response) : Receipt.t :=
  match response with
  | createSuccessResponse (Recorded r) => r
  | _ => Receipt.mk EmptyString EmptyString EmptyString EmptyString 0 0 0 0
           EmptyString
  end.

(** A later execution, one minute after [env]. *)
Definition later : Env := envAt 2 (jan10 + noon + 60000).

(** The sheets of [world0] while execution 1 holds the script lock. *)
Definition lockedWorld : World := setScriptLock (Some 1%nat) world0.

(** The same execution with other draws for the receipt reference. *)
Definition otherDraws : nat -> Z := fun attempt => Z.of_nat attempt + 8.

End Sample.

(* ================================================================== *)
(** ** Further vocabulary *)

(** The sum of the pauses, in milliseconds. *)
Definition totalSleep (pauses : list Z) : Z := fold_right Z.add 0 pauses.

(** The same environment with the write to the audit sheet failing, or
    not. *)
Definition withAuditFault (fails : bool) (env : Env) : Env :=
  mkEnv (executionId env) (session env) (uuid env) (requestTime env)
    (idempotencyTime env) (commitTime env) (fallbackTime env) (auditTime env)
    (randomPaymentSuffix env) (randomSequence env) (randomLogSuffix env)
    (activeUserEmail env) (lockFreed env)
    (fun at_ => match at_ with AtAuditAppend => fails | _ => faults env at_ end).

(** The same spreadsheet with another AuditLog sheet, or none. *)
Definition withAuditLog (log : option (list AuditRow.t)) (w : World) : World :=
  mkWorld (Payments w) (Students w) log (scriptLock w) (slept w).

(** A payment that counts: not voided. *)
Definition live (row : PaymentRow) : bool := negb (IsVoided row).

(** The receipt numbers in use, as the checks compare them. *)
Definition liveReceipts (sheet : list PaymentRow) : list string :=
  map (fun row => normalized (PhysicalReceiptNo row)) (filter live sheet).

(** The student and calendar day of every payment that counts. *)
Definition liveDays (P : Platform) (sheet : list PaymentRow)
  : list (string * option (Z * Z * Z)) :=
  map (fun row => (StudentID row, toDateString P (PaymentDate row)))
    (filter live sheet).

(** The candidate reference of an attempt of generateUniqueReceiptNumber. *)
Definition candidateReceipt (env : Env) (dateStr : string) (attempt : nat) : string :=
  CONFIG.RECEIPT_NUMBER_PREFIX ++ dateStr ++ "-"
    ++ Js.padStart 3 (Js.showZ (randomSequence env attempt)).

(** The reference generateUniqueReceiptNumber falls back to. *)
Definition fallbackReceipt (env : Env) (dateStr : string) : string :=
  CONFIG.RECEIPT_NUMBER_PREFIX ++ dateStr ++ "-" ++ Js.showZ (fallbackTime env / 1000).

(** A student row with another cell in the ExpectedAmount column. *)
Definition setExpectedAmount (v : Js.Value) (row : StudentRow.t) : StudentRow.t :=
  StudentRow.mk (StudentRow.StudentID row) (StudentRow.StudentNo row)
    (StudentRow.FullName row) (StudentRow.SectionID row) (StudentRow.Status row)
    (StudentRow.CreatedAt row) v.

(** The same spreadsheet with other sheets of students and payments. *)
Definition withStudents (students : option (list StudentRow.t)) (w : World) : World :=
  mkWorld (Payments w) students (AuditLog w) (scriptLock w) (slept w).
Definition withPayments (payments : option (list PaymentRow)) (w : World) : World :=
  mkWorld payments (Students w) (AuditLog w) (scriptLock w) (slept w).

(** The milliseconds of the retention window of idempotency keys. *)
Definition retentionMs : Z := 24 * 60 * 60 * 1000.

(* ================================================================== *)
(** ** The client: API.validatePaymentAmount (js/api.js, lines 259-299) *)

Module API.

(** The form passes the text of the field, the quick form the parsed
    number; both go through [parseFloat] first. *)
Definition validatePaymentAmount (amount : Js.Value) : Validation :=
  match Js.parseFloat amount with
  | Js.NaN => invalid "Amount must be a valid number"
  | Js.Infinity negative =>
      if negative then invalid "Amount must be greater than zero"
      else invalid "Maximum amount is ₱10,000"
  | Js.Finite num =>
      if Qle_bool num 0 then invalid "Amount must be greater than zero"
      else if Js.Qlt_bool num 5 then invalid "Minimum amount is ₱5"
      else if Js.Qlt_bool 10000 num then invalid "Maximum amount is ₱10,000"
      else if negb (Qeq_bool (Js.rem num 5) 0)
      then invalid "Amount must be a multiple of 5"
      else ok "Valid amount"
  end.

End API.

(* ================================================================== *)
(** ** handleValidatePaymentData (Code.gs, lines 1543-1638) *)

(** The dry run of the form passes to validateStudentPaymentEligibility any
    amount that is not falsy, also one that validatePaymentAmount refuses or
    an infinite one; so here is the same function at any number.  At a finite
    amount it is [validateStudentPaymentEligibility]. *)
Definition addNumber (totalPaid : Q) (amount : Js.Number) : Js.Number :=
  match amount with
  | Js.Finite a => Js.Finite (totalPaid + a)
  | other => other
  end.

(** [expectedAmount > 0 && newTotal > expectedAmount] at any [newTotal]. *)
Definition exceedsExpectedAt (expectedAmount newTotal : Js.Number) : bool :=
  match newTotal with
  | Js.Finite t => exceedsExpected expectedAmount t
  | Js.Infinity negative =>
      match expectedAmount with
      | Js.Finite e => Js.Qlt_bool 0 e && negb negative
      | _ => false
      end
  | Js.NaN => false
  end.

Inductive EligibilityAt : Type :=
| IneligibleAt (message : string)
| EligibleAt (student : Student.t) (totalPaid : Q) (newTotal : Js.Number).

Definition validateStudentPaymentEligibilityAt (P : Platform) (w : World)
  (studentId : string) (amount : Js.Number) (session : Session.t) : EligibilityAt :=
  match Students w, Payments w with
  | Some stuSheet, Some paySheet =>
      match find (fun r => String.eqb (StudentRow.StudentID r) studentId)
                 (getDataRows stuSheet) with
      | None => IneligibleAt "Student not found"
      | Some row =>
          let student := studentOfRow row in
          if negb (Js.truthy (Student.isActive student))
          then IneligibleAt "Student is inactive"
          else if String.eqb (Session.role session) "Treasurer"
                  && negb (String.eqb (Student.sectionId student) (Session.section session))
          then IneligibleAt "Student not in your section"
          else
            let totalPaid := totalPaidOf studentId (getDataRows paySheet) in
            let newTotal := addNumber totalPaid amount in
            let expectedAmount := Js.parseFloat (Student.expectedAmount student) in
            if exceedsExpectedAt expectedAmount newTotal
            then IneligibleAt
                   ("Payment would exceed expected amount. Expected: "
                      ++ numberToString P expectedAmount
                      ++ ", Already paid: " ++ numberToString P (Js.Finite totalPaid)
                      ++ ", New total: " ++ numberToString P newTotal)
            else EligibleAt student totalPaid newTotal
      end
  | _, _ => IneligibleAt "Required sheets not found"
  end.

(** The [student] entry of the results: the object it starts with, the
    result of the eligibility check, or the object for a missing student. *)
Inductive StudentEntry : Type :=
| StudentUnchecked                      (* { valid: true, message: '' } *)
| StudentChecked (result : EligibilityAt)
| StudentMissing.                       (* 'Student selection is required' *)

Definition studentEntryValid (entry : StudentEntry) : bool :=
  match entry with
  | StudentUnchecked => true
  | StudentChecked (EligibleAt _ _ _) => true
  | StudentChecked (IneligibleAt _) => false
  | StudentMissing => false
  end.

Definition studentEntryMessage (entry : StudentEntry) : string :=
  match entry with
  | StudentUnchecked => EmptyString
  | StudentChecked (EligibleAt _ _ _) => "Student eligible for payment"
  | StudentChecked (IneligibleAt msg) => msg
  | StudentMissing => "Student selection is required"
  end.

(** The [validationResults] object. *)
Module Results.
Record t : Type := mk {
  overall : Validation;
  amount : Validation;
  receiptNumber : Validation;
  student : StudentEntry;
  duplicate : Validation
}.
End Results.

Inductive ValidationResponse : Type :=
| validationUnauthorized
| validationResponse (validation : Results.t) (canProceed : bool).

Definition msgRecordedToday : string :=
  "A payment for this student has already been recorded today".

(** [if (!part.valid && overall.valid) { overall.valid = false;
    overall.message = part.message }] *)
Definition noteFailure (partValid : bool) (partMessage : string) (overall : Validation)
  : Validation :=
  if negb partValid && valid overall then invalid partMessage else overall.

Definition handleValidatePaymentData (P : Platform) (env : Env) (payload : Payload.t)
  (w : World) : ValidationResponse :=
  match session env with
  | None => validationUnauthorized
  | Some session =>
      let studentId := Payload.studentId payload in
      let amount := Js.parseFloat (Payload.amount payload) in
      let physicalReceiptNo := Js.trim (Payload.physicalReceiptNo payload) in
      let paymentDate := paymentDateOf env payload in
      let overall0 := ok "All validations passed" in
      (* Validate amount *)
      let amountResult :=
        if falsyNumber amount then invalid "Amount is required"
        else validatePaymentAmount amount in
      let overall1 := noteFailure (valid amountResult) (message amountResult) overall0 in
      (* Validate receipt number *)
      let receiptResult :=
        if Js.blank physicalReceiptNo
        then invalid "Physical receipt number is required"
        else validateUniqueReceiptNumber w physicalReceiptNo None in
      let overall2 :=
        noteFailure (valid receiptResult) (message receiptResult) overall1 in
      (* Validate student eligibility *)
      let studentResult :=
        if negb (Js.blank studentId) && negb (falsyNumber amount)
        then StudentChecked
               (validateStudentPaymentEligibilityAt P w studentId amount session)
        else if Js.blank studentId then StudentMissing
        else StudentUnchecked in
      let overall3 :=
        noteFailure (studentEntryValid studentResult) (studentEntryMessage studentResult)
          overall2 in
      (* Check for same-day duplicates *)
      let duplicateResult :=
        if negb (Js.blank studentId)
        then match Payments w with
             | Some paySheet =>
                 if existsb (sameDay P studentId (toDateString P paymentDate))
                      (getDataRows paySheet)
                 then invalid msgRecordedToday
                 else ok EmptyString
             | None => ok EmptyString
             end
        else ok EmptyString in
      let overall4 :=
        noteFailure (valid duplicateResult) (message duplicateResult) overall3 in
      validationResponse
        (Results.mk overall4 amountResult receiptResult studentResult duplicateResult)
        (valid overall4)
  end.

(** The message of the first part of the results that failed, in the order
    the handler checks them. *)
Definition firstFailure (r : Results.t) : string :=
  if negb (valid (Results.amount r)) then message (Results.amount r)
  else if negb (valid (Results.receiptNumber r)) then message (Results.receiptNumber r)
  else if negb (studentEntryValid (Results.student r))
  then studentEntryMessage (Results.student r)
  else message (Results.duplicate r).

(** No row of the sheet carries the key. *)
Definition keyUnused (key : string) (sheet : list PaymentRow) : Prop :=
  forall row, In row sheet -> IdempotencyKey row <> key.

(* ================================================================== *)
(** ** validateSession (Code.gs, lines 896-950) *)

(** A row of the Sessions sheet, columns 0 to 8. *)
Module SessionRow.
Record t : Type := mk {
  SessionToken : string;       (* 0 *)
  User : string;               (* 1 *)
  Role : string;               (* 2 *)
  Department : string;         (* 3 *)
  Section : string;            (* 4 *)
  CreatedAt : Js.Date;         (* 5 *)
  ExpiresAt : Js.Date;         (* 6 *)
  LastActivity : Js.Date;      (* 7 *)
  IsActive : bool              (* 8 *)
}.
End SessionRow.

Definition INACTIVITY_TIMEOUT_MINUTES : Z := 10.

(** [date < instant]; a comparison with the Invalid Date is false. *)
Definition dateBefore (date : Js.Date) (instant : Z) : bool :=
  match date with
  | Some ms => ms <? instant
  | None => false
  end.

(** [sessSheet.getRange(i + 2, 9).setValue(false)] *)
Definition deactivate (row : SessionRow.t) : SessionRow.t :=
  SessionRow.mk (SessionRow.SessionToken row) (SessionRow.User row)
    (SessionRow.Role row) (SessionRow.Department row) (SessionRow.Section row)
    (SessionRow.CreatedAt row) (SessionRow.ExpiresAt row)
    (SessionRow.LastActivity row) false.

(** [sessSheet.getRange(i + 2, 8).setValue(now)] *)
Definition touch (now : Z) (row : SessionRow.t) : SessionRow.t :=
  SessionRow.mk (SessionRow.SessionToken row) (SessionRow.User row)
    (SessionRow.Role row) (SessionRow.Department row) (SessionRow.Section row)
    (SessionRow.CreatedAt row) (SessionRow.ExpiresAt row)
    (Some now) (SessionRow.IsActive row).

Definition sessionOfRow (token : string) (row : SessionRow.t) : Session.t :=
  Session.mk (SessionRow.User row) (SessionRow.Role row)
    (SessionRow.Department row) (SessionRow.Section row) token.

(** The row the loop stops at: the token matches and the row is active. *)
Definition sessionMatches (token : string) (row : SessionRow.t) : bool :=
  String.eqb (SessionRow.SessionToken row) token && SessionRow.IsActive row.

(** The loop over the rows: the session or null, and the rows after the
    write it makes. *)
Fixpoint scanSessions (now : Z) (token : string) (rows : list SessionRow.t)
  : option Session.t * list SessionRow.t :=
  match rows with
  | [] => (None, [])
  | row :: rest =>
      if sessionMatches token row
      then
        if dateBefore (SessionRow.ExpiresAt row) now          (* now > expiresAt *)
        then (None, deactivate row :: rest)
        else
          let inactivityLimit := now - INACTIVITY_TIMEOUT_MINUTES * 60 * 1000 in
          if dateBefore (SessionRow.LastActivity row) inactivityLimit
          then (None, deactivate row :: rest)
          else (Some (sessionOfRow token row), touch now row :: rest)
      else
        let '(result, rest') := scanSessions now token rest in
        (result, row :: rest')
  end.

(** [validateSession(token)] at the instant [now], on the Sessions sheet
    (or none). *)
Definition validateSession (now : Z) (token : string)
  (sessSheet : option (list SessionRow.t))
  : option Session.t * option (list SessionRow.t) :=
  if Js.blank token then (None, sessSheet)
  else
    match sessSheet with
    | None => (None, None)
    | Some rows =>
        let '(result, rows') := scanSessions now token (getDataRows rows) in
        (result, Some rows')
    end.

(** The milliseconds of the inactivity limit. *)
Definition inactivityMs : Z := 10 * 60 * 1000.

(** The token is in at most one active row. *)
Definition tokenUnique (token : string) (rows : list SessionRow.t) : Prop :=
  (List.length (filter (sessionMatches token) rows) <= 1)%nat.

(** Two rows that differ at most in LastActivity and IsActive. *)
Definition sameSession (a b : SessionRow.t) : Prop :=
  SessionRow.SessionToken a = SessionRow.SessionToken b
  /\ SessionRow.User a = SessionRow.User b
  /\ SessionRow.Role a = SessionRow.Role b
  /\ SessionRow.Department a = SessionRow.Department b
  /\ SessionRow.Section a = SessionRow.Section b
  /\ SessionRow.CreatedAt a = SessionRow.CreatedAt b
  /\ SessionRow.ExpiresAt a = SessionRow.ExpiresAt b.

(* ================================================================== *)
(** ** Vocabulary of the further properties *)

(** Two states that differ in the audit sheet only. *)
Definition sameButAudit (w1 w2 : World) : Prop :=
  Payments w1 = Payments w2 /\ Students w1 = Students w2
  /\ scriptLock w1 = scriptLock w2 /\ slept w1 = slept w2.

(** The rows of a sheet; none when the sheet is missing. *)
Definition rowsOf {A : Type} (sheet : option (list A)) : list A :=
  match sheet with
  | Some rows => rows
  | None => []
  end.

(** The entries inside the response of the dry run. *)
Definition validationIn (response : ValidationResponse) : Results.t :=
  match response with
  | validationResponse validation _ => validation
  | validationUnauthorized =>
      Results.mk (invalid EmptyString) (invalid EmptyString) (invalid EmptyString)
        StudentUnchecked (invalid EmptyString)
  end.

(** Further sample data. *)
Module Fixtures.

Definition minute : Z := 60 * 1000.
Definition hour : Z := 60 * minute.

(** The session of maria, created at midnight of 10 January 2024. *)
Definition maria : SessionRow.t :=
  SessionRow.mk "token-1" "maria" "Treasurer" "ICT" "S1"
    (Some Sample.jan10) (Some (Sample.jan10 + 8 * hour)) (Some Sample.jan10) true.

(** A treasurer of another section, and an administrator. *)
Definition pedro : Session.t := Session.mk "pedro" "Treasurer" "ICT" "S2" "token-2".
Definition admin : Session.t := Session.mk "root" "Admin" "ICT" "S9" "token-3".

(** A payment of each of two students. *)
Definition twoStudents : World :=
  Sample.sheets
    [Sample.payment "P1" "ST1" 20 Sample.jan09 "OR-1" "key-1" false;
     Sample.payment "P2" "ST2" 30 Sample.jan09 "OR-2" "key-2" false]
    [Sample.juan; Sample.ana].
Definition oneStudent : World :=
  Sample.sheets
    [Sample.payment "P1" "ST1" 20 Sample.jan09 "OR-1" "key-1" false]
    [Sample.juan; Sample.ana].

(** A student row edited by hand: column 4, which the eligibility check
    reads as the expected amount, holds the number [expected]. *)
Definition capped (expected : Q) : StudentRow.t :=
  StudentRow.mk "ST3" "2024-003" "Luz Santos" "S1"
    (Js.Num expected) (Js.DateValue (Some Sample.jan09)) (Js.Num expected).

(** Juan's request inside the critical section, Ana's at the head of the
    loop of acquireLockWithRetry. *)
Definition juanHolds : Concurrent.System :=
  Concurrent.afterValidate Sample.envs 1 Sample.forAna
    (Concurrent.afterAttempt Sample.envs 0 (Sample.checked Sample.forJuan) 0
       (Concurrent.afterValidate Sample.envs 0 Sample.forJuan Sample.arrivals)).

(** Three waits of Ana's request end while Juan's still holds the lock. *)
Definition anaGivesUp : Concurrent.System :=
  Concurrent.afterAttempt Sample.envs 1 (Sample.checked Sample.forAna) 2
    (Concurrent.afterAttempt Sample.envs 1 (Sample.checked Sample.forAna) 1
       (Concurrent.afterAttempt Sample.envs 1 (Sample.checked Sample.forAna) 0
          juanHolds)).

End Fixtures.
(* ================================================================== *)
(** * Properties *)

(* ------------------------------------------------------------------ *)
(** *** Facts about numbers *)

Lemma Qlt_bool_iff (x y : Q) : Js.Qlt_bool x y = true <-> (x < y)%Q.
Proof.
  unfold Js.Qlt_bool. rewrite negb_true_iff.
  split; intro H.
  - apply Qnot_le_lt. intro Hle. apply Qle_bool_iff in Hle. congruence.
  - destruct (Qle_bool y x) eqn:E; [|reflexivity].
    apply Qle_bool_iff in E. exfalso. apply (Qlt_not_le _ _ H E).
Qed.

Lemma Qlt_bool_false_iff (x y : Q) : Js.Qlt_bool x y = false <-> (y <= x)%Q.
Proof.
  unfold Js.Qlt_bool. rewrite negb_false_iff. apply Qle_bool_iff.
Qed.

Lemma Qtrunc_inject_Z (q : Q) (k : Z) : (q == inject_Z k)%Q -> Js.Qtrunc q = k.
Proof.
  unfold Qeq, Js.Qtrunc. cbn. intro H.
  rewrite Z.mul_1_r in H. rewrite H. apply Z.quot_mul. discriminate.
Qed.

Lemma rem_zero_iff (x m : Q) :
  ~ (m == 0)%Q ->
  (Js.rem x m == 0)%Q <-> exists k : Z, (x == m * inject_Z k)%Q.
Proof.
  intro Hm. unfold Js.rem. split.
  - intro H. exists (Js.Qtrunc (x / m)).
    set (t := inject_Z (Js.Qtrunc (x / m))) in *.
    setoid_replace x with ((x - m * t) + m * t)%Q by ring.
    rewrite H. ring.
  - intros [k Hk].
    assert (Hq : (x / m == inject_Z k)%Q).
    { rewrite Hk. field. exact Hm. }
    rewrite (Qtrunc_inject_Z _ _ Hq). rewrite Hk. ring.
Qed.

(* ------------------------------------------------------------------ *)
(** *** The verdict of validatePaymentAmount *)

Lemma validatePaymentAmount_valid_iff (amount : Js.Number) :
  valid (validatePaymentAmount amount) = true <-> amountInBounds amount.
Proof.
  unfold amountInBounds, validatePaymentAmount.
  destruct amount as [|neg|q].
  - cbn. split; [discriminate|]. intros (q & H & _). discriminate.
  - destruct neg; cbn; (split; [discriminate|]); intros (q & H & _); discriminate.
  - assert (H5 : ~ (inject_Z CONFIG.PAYMENT_AMOUNT_MULTIPLE == 0)%Q)
      by (intro H; vm_compute in H; discriminate).
    destruct (Qeq_bool q 0) eqn:E0.
    { cbn. split; [discriminate|]. intros (q' & Hq & Hmin & _).
      injection Hq as <-. apply Qeq_bool_iff in E0.
      unfold CONFIG.PAYMENT_AMOUNT_MIN in Hmin. rewrite E0 in Hmin.
      vm_compute in Hmin. exfalso. apply Hmin. reflexivity. }
    destruct (Qle_bool q 0) eqn:E1.
    { cbn. split; [discriminate|]. intros (q' & Hq & Hmin & _).
      injection Hq as <-. apply Qle_bool_iff in E1.
      assert (Hc : (inject_Z CONFIG.PAYMENT_AMOUNT_MIN <= 0)%Q)
        by (eapply Qle_trans; eassumption).
      vm_compute in Hc. exfalso. apply Hc. reflexivity. }
    destruct (Js.Qlt_bool q (inject_Z CONFIG.PAYMENT_AMOUNT_MIN)) eqn:E2.
    { cbn. split; [discriminate|]. intros (q' & Hq & Hmin & _).
      injection Hq as <-. apply Qlt_bool_iff in E2.
      exfalso. apply (Qlt_not_le _ _ E2 Hmin). }
    destruct (Js.Qlt_bool (inject_Z CONFIG.MAX_PAYMENT_AMOUNT) q) eqn:E3.
    { cbn. split; [discriminate|]. intros (q' & Hq & _ & Hmax & _).
      injection Hq as <-. apply Qlt_bool_iff in E3.
      exfalso. apply (Qlt_not_le _ _ E3 Hmax). }
    apply Qlt_bool_false_iff in E2, E3.
    destruct (Qeq_bool (Js.rem q (inject_Z CONFIG.PAYMENT_AMOUNT_MULTIPLE)) 0) eqn:E4.
    + cbn. split; [intros _|reflexivity].
      exists q. repeat split; try assumption.
      apply rem_zero_iff; [exact H5|]. apply Qeq_bool_iff. exact E4.
    + cbn. split; [discriminate|]. intros (q' & Hq & _ & _ & Hk).
      injection Hq as <-. apply (rem_zero_iff _ _ H5) in Hk.
      apply Qeq_bool_iff in Hk. congruence.
Qed.

Lemma validatePaymentAmount_reason (amount : Js.Number) :
  ~ isZero amount ->
  valid (validatePaymentAmount amount) = false ->
  message (validatePaymentAmount amount) = expectedReason amount.
Proof.
  unfold validatePaymentAmount, expectedReason, isZero.
  destruct amount as [|neg|q]; [reflexivity|destruct neg; reflexivity|].
  intros Hnz.
  destruct (Qeq_bool q 0) eqn:E0.
  { exfalso. apply Hnz. apply Qeq_bool_iff. exact E0. }
  destruct (Qle_bool q 0) eqn:E1; [reflexivity|].
  change (inject_Z CONFIG.PAYMENT_AMOUNT_MIN) with (5 : Q).
  change (inject_Z CONFIG.MAX_PAYMENT_AMOUNT) with (10000 : Q).
  destruct (Js.Qlt_bool q 5); [reflexivity|].
  destruct (Js.Qlt_bool 10000 q); [reflexivity|].
  destruct (negb _); [reflexivity|discriminate].
Qed.

Lemma validatePaymentAmount_zero (q : Q) :
  (q == 0)%Q ->
  validatePaymentAmount (Js.Finite q) = invalid "Amount must be a valid number".
Proof.
  intro H. unfold validatePaymentAmount.
  apply Qeq_bool_iff in H. rewrite H. reflexivity.
Qed.

Lemma expectedReason_zero (q : Q) :
  (q == 0)%Q -> expectedReason (Js.Finite q) = "Amount must be greater than zero".
Proof.
  intro H. unfold expectedReason.
  assert (Hle : Qle_bool q 0 = true).
  { apply Qle_bool_iff. rewrite H. apply Qle_refl. }
  rewrite Hle. reflexivity.
Qed.

Lemma validatePaymentAmount_negative (q : Q) :
  (q < 0)%Q ->
  validatePaymentAmount (Js.Finite q) = invalid "Amount must be greater than zero".
Proof.
  intro H. unfold validatePaymentAmount.
  assert (H0 : Qeq_bool q 0 = false).
  { destruct (Qeq_bool q 0) eqn:E; [|reflexivity].
    apply Qeq_bool_iff in E. rewrite E in H. exfalso. exact (Qlt_irrefl 0 H). }
  assert (H1 : Qle_bool q 0 = true).
  { apply Qle_bool_iff. apply Qlt_le_weak. exact H. }
  rewrite H0, H1. reflexivity.
Qed.

Lemma amount_reasons_distinct :
  NoDup [msgNotNumber; msgNotPositive; msgMinimum; msgMaximum; msgMultiple].
Proof.
  repeat constructor; cbn; intro H;
    repeat (destruct H as [H|H]; [vm_compute in H; discriminate|]); exact H.
Qed.

(** C8. validatePaymentAmount is valid exactly on the finite amounts in
    [5, 10000] that are a multiple of 5, and every other amount but zero is
    invalid with the reason of its kind of failure (not a number, not
    greater than zero, below 5, above 10000, not a multiple of 5), five
    pairwise different texts; 3, 17 and 10005 are invalid (minimum,
    multiple, maximum) and 50 is valid.  At zero the function diverges from
    the specification: zero is a number that is not greater than zero, and
    it gets 'Amount must be a valid number', the reason of what is not a
    number, instead of 'Amount must be greater than zero', the reason every
    negative number gets: the test [!amount] holds for 0 and comes first. *)
Theorem C8_zero_gets_the_reason_of_a_non_number :
  (forall amount, valid (validatePaymentAmount amount) = true <-> amountInBounds amount)
  /\ (forall amount, ~ amountInBounds amount -> ~ isZero amount ->
        valid (validatePaymentAmount amount) = false /\
        message (validatePaymentAmount amount) = expectedReason amount /\
        In (expectedReason amount)
           [msgNotNumber; msgNotPositive; msgMinimum; msgMaximum; msgMultiple])
  /\ NoDup [msgNotNumber; msgNotPositive; msgMinimum; msgMaximum; msgMultiple]
  /\ (forall q, (q == 0)%Q ->
        ~ amountInBounds (Js.Finite q)
        /\ validatePaymentAmount (Js.Finite q) = invalid "Amount must be a valid number"
        /\ validatePaymentAmount (Js.Finite q) = validatePaymentAmount Js.NaN
        /\ expectedReason (Js.Finite q) = "Amount must be greater than zero"
        /\ message (validatePaymentAmount (Js.Finite q)) <> expectedReason (Js.Finite q))
  /\ (forall q, (q < 0)%Q ->
        validatePaymentAmount (Js.Finite q) = invalid "Amount must be greater than zero")
  /\ validatePaymentAmount (Js.Finite 3) = invalid "Minimum amount is 5"
  /\ validatePaymentAmount (Js.Finite 17) = invalid "Amount must be a multiple of 5"
  /\ validatePaymentAmount (Js.Finite 10005) = invalid "Maximum amount is 10000"
  /\ validatePaymentAmount (Js.Finite 50) = ok "Valid amount".
Proof.
  split; [exact validatePaymentAmount_valid_iff|].
  split.
  { intros amount Hout Hnz.
    assert (Hv : valid (validatePaymentAmount amount) = false).
    { destruct (valid (validatePaymentAmount amount)) eqn:E; [|reflexivity].
      exfalso. apply Hout. apply validatePaymentAmount_valid_iff. exact E. }
    split; [exact Hv|].
    split; [apply validatePaymentAmount_reason; assumption|].
    unfold expectedReason. destruct amount as [|[|]|q]; cbn; auto.
    destruct (Qle_bool q 0); [auto|].
    destruct (Js.Qlt_bool q 5); [auto|].
    destruct (Js.Qlt_bool 10000 q); auto 6. }
  split; [exact amount_reasons_distinct|].
  split.
  { intros q Hq.
    pose proof (validatePaymentAmount_zero q Hq) as Hz.
    pose proof (expectedReason_zero q Hq) as He.
    split.
    { intro Hin. apply validatePaymentAmount_valid_iff in Hin.
      rewrite Hz in Hin. discriminate. }
    split; [exact Hz|]. split; [rewrite Hz; reflexivity|].
    split; [exact He|].
    rewrite Hz, He. cbn. discriminate. }
  split; [exact validatePaymentAmount_negative|].
  repeat split; reflexivity.
Qed.

(* ================================================================== *)
(** ** The lock helper *)

Lemma withSleeps_nil (w : World) : withSleeps [] w = w.
Proof. destruct w. unfold withSleeps. cbn. rewrite app_nil_r. reflexivity. Qed.

Lemma withSleeps_cons (ms : Z) (pauses : list Z) (w : World) :
  withSleeps pauses (addSleep ms w) = withSleeps (ms :: pauses) w.
Proof.
  unfold withSleeps, addSleep. cbn. rewrite <- app_assoc. reflexivity.
Qed.

Lemma waitLock_contended (env : Env) (w : World) (n attempt : nat) :
  contended env w n -> (attempt < n)%nat -> waitLock env attempt w = false.
Proof.
  intros [(holder & Hh & Hne) Hfree] Hlt. unfold waitLock. rewrite Hh.
  rewrite (Hfree _ Hlt). apply Nat.eqb_neq in Hne. rewrite Hne. reflexivity.
Qed.

Lemma lockAttempts_exhausted (env : Env) (n : nat) :
  forall remaining attempt w,
    (attempt + remaining = n)%nat ->
    contended env w n ->
    lockAttempts env n attempt remaining w
    = (None, withSleeps (backoff attempt (remaining - 1)) w).
Proof.
  induction remaining as [|remaining IH]; intros attempt w Hsum Hc.
  - cbn. rewrite withSleeps_nil. reflexivity.
  - cbn [lockAttempts].
    rewrite (waitLock_contended env w n attempt Hc) by lia.
    destruct (attempt =? n - 1)%nat eqn:Elast.
    + apply Nat.eqb_eq in Elast.
      replace (S remaining - 1)%nat with 0%nat by lia.
      cbn. rewrite withSleeps_nil. reflexivity.
    + apply Nat.eqb_neq in Elast.
      rewrite IH; [|lia|].
      * rewrite withSleeps_cons.
        replace (S remaining - 1)%nat with (S (remaining - 1)) by lia.
        reflexivity.
      * destruct Hc as [(holder & Hh & Hne) Hfree].
        split; [exists holder; split; [exact Hh|exact Hne]|exact Hfree].
Qed.

Lemma backoff_increasing (first count : nat) :
  StronglySorted Z.lt (backoff first count).
Proof.
  revert first. induction count as [|count IH]; intro first.
  - constructor.
  - change (backoff first (S count))
      with (100 * (Z.of_nat first + 1) :: backoff (S first) count).
    constructor; [apply IH|].
    apply Forall_forall. intros x Hx. unfold backoff in Hx.
    apply in_map_iff in Hx. destruct Hx as (a & <- & Ha).
    apply in_seq in Ha. lia.
Qed.

Lemma acquire_exhausted (env : Env) (lockKey : string) (maxAttempts : nat) (w : World) :
  contended env w (effectiveAttempts maxAttempts) ->
  acquireLockWithRetry env lockKey maxAttempts w
  = (None, withSleeps (backoff 0 (effectiveAttempts maxAttempts - 1)) w).
Proof.
  intro Hc. unfold acquireLockWithRetry.
  fold (effectiveAttempts maxAttempts).
  apply lockAttempts_exhausted; [lia|exact Hc].
Qed.

(** C9. While another execution keeps the script lock during all the
    attempts, acquireLockWithRetry returns the no-lock result: it sleeps
    100 ms times the attempt number between attempts (not after the last),
    these pauses increase, and nothing else changes; handleRecordPayment,
    for a request that passed the checks before the lock, then answers with
    the 'system is busy' error and leaves the sheets as they were. *)
Theorem C9_lock_exhaustion_is_busy
  (P : Platform) (env : Env) (lockKey : string) (maxAttempts : nat)
  (payload : Payload.t) (req : Request.t) (w : World) :
  contended env w (effectiveAttempts maxAttempts) ->
  contended env w 3 ->
  prevalidate env payload w = inr req ->
  acquireLockWithRetry env lockKey maxAttempts w
  = (None, withSleeps (backoff 0 (effectiveAttempts maxAttempts - 1)) w)
  /\ StronglySorted Z.lt (backoff 0 (effectiveAttempts maxAttempts - 1))
  /\ backoff 0 (3 - 1) = [100; 200]
  /\ handleRecordPayment P env payload w
     = (createErrorResponse msgBusy, withSleeps [100; 200] w).
Proof.
  intros Hc Hc3 Hpre.
  split; [apply acquire_exhausted; exact Hc|].
  split; [apply backoff_increasing|].
  split; [reflexivity|].
  unfold handleRecordPayment. rewrite Hpre.
  rewrite (acquire_exhausted env _ 3 w Hc3). reflexivity.
Qed.

(* ================================================================== *)
(** ** The critical section releases the lock *)

Lemma releaseLock_not_held (env : Env) (w : World) :
  scriptLock (releaseLock env w) <> Some (executionId env).
Proof.
  unfold releaseLock. destruct (scriptLock w) as [holder|] eqn:E.
  - destruct (holder =? executionId env)%nat eqn:Eh; cbn.
    + discriminate.
    + rewrite E. apply Nat.eqb_neq in Eh. congruence.
  - rewrite E. discriminate.
Qed.

Lemma releaseLock_held (env : Env) (w : World) :
  scriptLock w = Some (executionId env) ->
  scriptLock (releaseLock env w) = None.
Proof.
  intro H. unfold releaseLock. rewrite H, Nat.eqb_refl. reflexivity.
Qed.

(** Unfolds the script combinators in the goal. *)
Ltac script_unfold :=
  unfold tryCatch, bind, ret, lift, reading, release, appendRow, toISOString,
    logAction in *.

(** Splits the goal on the first [match] or [if] scrutinee it finds. *)
Ltac split_match :=
  match goal with
  | |- context [match ?x with _ => _ end] =>
      lazymatch x with
      | context [match _ with _ => _ end] => fail
      | _ => destruct x eqn:?
      end
  end.

Lemma commit_releases (env : Env) (req : Request.t) (student : Student.t)
  (totalPaid newTotal : Q) (paymentId systemReceiptNo : string) (w : World) :
  exists w0, snd (commit env req student totalPaid newTotal paymentId systemReceiptNo w)
             = releaseLock env w0
             /\ scriptLock w0 = scriptLock w.
Proof.
  unfold commit. script_unfold.
  repeat split_match; cbn [snd]; eexists; split; try reflexivity; reflexivity.
Qed.

Lemma critical_releases (P : Platform) (env : Env) (req : Request.t) (w : World) :
  exists w0, snd (critical P env req w) = releaseLock env w0
             /\ scriptLock w0 = scriptLock w.
Proof.
  unfold critical.
  unfold tryCatch at 1.
  unfold bind, reading, release, ret, lift.
  destruct (faults env AtEligibility); [cbn; eauto|].
  destruct (validateStudentPaymentEligibility P w (Request.studentId req)
              (Request.amount req) (Request.session req)); [cbn; eauto|].
  destruct (faults env AtOpenPayments); [cbn; eauto|].
  destruct (Payments w) as [sheet|]; [|cbn; eauto].
  destruct (faults env AtReadPayments); [cbn; eauto|].
  destruct (find _ (getDataRows sheet)); [cbn; eauto|].
  destruct (find _ (getDataRows sheet)); [cbn; eauto|].
  destruct (existsb _ (getDataRows sheet)); [cbn; eauto|].
  destruct (faults env AtGenerateReceipt); [cbn; eauto|].
  match goal with
  | |- context [commit ?e ?r ?s ?t ?n ?p ?y ?w] =>
      destruct (commit_releases e r s t n p y w) as (w0 & H0 & H1);
      destruct (commit e r s t n p y w) as [resp wf]
  end.
  cbn in *. eauto.
Qed.

Lemma lockAttempts_frame (env : Env) (n : nat) :
  forall remaining attempt w r w1,
    lockAttempts env n attempt remaining w = (r, w1) ->
    Payments w1 = Payments w /\ Students w1 = Students w
    /\ AuditLog w1 = AuditLog w
    /\ match r with
       | Some _ => scriptLock w1 = Some (executionId env)
       | None => scriptLock w1 = scriptLock w
       end.
Proof.
  induction remaining as [|remaining IH]; intros attempt w r w1 H; cbn in H.
  - injection H as <- <-. auto.
  - destruct (waitLock env attempt w).
    + injection H as <- <-. cbn. auto.
    + destruct (attempt =? n - 1)%nat.
      * injection H as <- <-. auto.
      * apply IH in H. cbn in H. exact H.
Qed.

Lemma acquire_frame (env : Env) (lockKey : string) (maxAttempts : nat)
  (w : World) (r : option Lock) (w1 : World) :
  acquireLockWithRetry env lockKey maxAttempts w = (r, w1) ->
  Payments w1 = Payments w /\ Students w1 = Students w
  /\ AuditLog w1 = AuditLog w
  /\ match r with
     | Some _ => scriptLock w1 = Some (executionId env)
     | None => scriptLock w1 = scriptLock w
     end.
Proof. unfold acquireLockWithRetry. apply lockAttempts_frame. Qed.

Lemma acquire_free (env : Env) (lockKey : string) (maxAttempts : nat) (w : World) :
  scriptLock w = None ->
  acquireLockWithRetry env lockKey maxAttempts w
  = (Some ScriptLock, setScriptLock (Some (executionId env)) w).
Proof.
  intro H. unfold acquireLockWithRetry.
  destruct maxAttempts as [|m]; cbn; unfold waitLock; rewrite H; reflexivity.
Qed.

Lemma critical_frees (P : Platform) (env : Env) (req : Request.t) (w : World) :
  scriptLock w = Some (executionId env) ->
  scriptLock (snd (critical P env req w)) = None.
Proof.
  intro H. destruct (critical_releases P env req w) as (w0 & -> & Hw0).
  apply releaseLock_held. congruence.
Qed.

Lemma handle_frees (P : Platform) (env : Env) (payload : Payload.t) (w : World) :
  scriptLock w = None ->
  scriptLock (snd (handleRecordPayment P env payload w)) = None.
Proof.
  intro H. unfold handleRecordPayment.
  destruct (prevalidate env payload w) as [response|req]; [exact H|].
  destruct (acquireLockWithRetry env _ 3 w) as [[lock|] w1] eqn:E;
    apply acquire_frame in E; destruct E as (_ & _ & _ & Hl); cbn [snd].
  - apply critical_frees. exact Hl.
  - congruence.
Qed.

(** C4. Whatever happens after the lock is acquired -- a validation
    failure (eligibility, missing sheet, idempotency or receipt re-check,
    same-day duplicate), a failing write, a platform call that throws at any
    of the fault points, or success -- the critical section ends with the
    script lock released; so after handleRecordPayment returns, started with
    the lock free, the lock is free again and the first attempt of the next
    request obtains it. *)
Theorem C4_lock_released_on_every_exit
  (P : Platform) (env next : Env) (payload : Payload.t) (req : Request.t)
  (lockKey : string) (w held : World) :
  scriptLock held = Some (executionId env) ->
  scriptLock w = None ->
  scriptLock (snd (critical P env req held)) = None
  /\ scriptLock (snd (handleRecordPayment P env payload w)) = None
  /\ acquireLockWithRetry next lockKey 3 (snd (handleRecordPayment P env payload w))
     = (Some ScriptLock,
        setScriptLock (Some (executionId next))
          (snd (handleRecordPayment P env payload w))).
Proof.
  intros Hheld Hfree.
  split; [apply critical_frees; exact Hheld|].
  split; [apply handle_frees; exact Hfree|].
  apply acquire_free. apply handle_frees. exact Hfree.
Qed.

(* ================================================================== *)
(** ** One lock for every student *)

Lemma lockAttempts_success (env : Env) (n : nat) :
  forall remaining attempt w lock w1,
    lockAttempts env n attempt remaining w = (Some lock, w1) ->
    exists a, waitLock env a w = true.
Proof.
  induction remaining as [|remaining IH]; intros attempt w lock w1 H; cbn in H.
  - discriminate.
  - destruct (waitLock env attempt w) eqn:E; [exists attempt; exact E|].
    destruct (attempt =? n - 1)%nat; [discriminate|].
    apply IH in H. destruct H as (a & Ha). exists a. exact Ha.
Qed.

Module ConcurrentFacts.
Import Concurrent.

Lemma update_same (f : nat -> Phase) (i : nat) (p : Phase) : update f i p i = p.
Proof. unfold update. rewrite Nat.eqb_refl. reflexivity. Qed.

Lemma update_other (f : nat -> Phase) (i j : nat) (p : Phase) :
  j <> i -> update f i p j = f j.
Proof. intro H. unfold update. apply Nat.eqb_neq in H. rewrite H. reflexivity. Qed.

(** A wait of execution [i] ends with the lock exactly when the lock is
    free or already its own. *)
Lemma own_waitLock (envs : nat -> Env) (i attempt : nat) (w : World) :
  waitLock (own envs i) attempt w = true
  <-> scriptLock w = None \/ scriptLock w = Some i.
Proof.
  unfold waitLock. cbn [own executionId lockFreed].
  destruct (scriptLock w) as [holder|].
  - rewrite orb_false_r, Nat.eqb_eq. split.
    + intros ->. right. reflexivity.
    + intros [H|H]; [discriminate|congruence].
  - split; [left; reflexivity|reflexivity].
Qed.

Lemma own_waitLock_held (envs : nat -> Env) (i j attempt : nat) (w : World) :
  scriptLock w = Some i -> j <> i -> waitLock (own envs j) attempt w = false.
Proof.
  intros Hl Hne. destruct (waitLock (own envs j) attempt w) eqn:E; [|reflexivity].
  apply own_waitLock in E. destruct E as [E|E]; congruence.
Qed.

Lemma own_waitLock_free (envs : nat -> Env) (j attempt : nat) (w : World) :
  scriptLock w = None -> waitLock (own envs j) attempt w = true.
Proof. intro H. apply own_waitLock. left. exact H. Qed.

(** What a turn of the loop does. *)
Lemma afterAttempt_cases (envs : nat -> Env) (i : nat) (req : Request.t)
  (attempt : nat) (s : System) :
  (waitLock (own envs i) attempt (world s) = true
   /\ afterAttempt envs i req attempt s
      = mkSystem (setScriptLock (Some i) (world s)) (update (phase s) i (Holding req)))
  \/ (waitLock (own envs i) attempt (world s) = false
      /\ attempt = (maxAttempts - 1)%nat
      /\ afterAttempt envs i req attempt s
         = mkSystem (world s)
             (update (phase s) i (Done (createErrorResponse msgBusy))))
  \/ (waitLock (own envs i) attempt (world s) = false
      /\ attempt <> (maxAttempts - 1)%nat
      /\ afterAttempt envs i req attempt s
         = mkSystem (addSleep (100 * (Z.of_nat attempt + 1)) (world s))
             (update (phase s) i (Waiting req (S attempt)))).
Proof.
  unfold afterAttempt.
  destruct (waitLock (own envs i) attempt (world s)).
  - left. split; reflexivity.
  - destruct (attempt =? maxAttempts - 1)%nat eqn:E.
    + right. left. apply Nat.eqb_eq in E. repeat split; assumption.
    + right. right. apply Nat.eqb_neq in E. repeat split; assumption.
Qed.

Lemma step_holderInv (P : Platform) (envs : nat -> Env) (s s' : System) :
  step P envs s s' -> holderInv s -> holderInv s'.
Proof.
  intros Hstep Hinv.
  destruct Hstep as [i payload s Hi|i req attempt s Hi Hlt|i req s Hi]; intros j [rj Hj].
  - (* the checks before the lock *)
    unfold afterValidate in *. cbn in *.
    destruct (Nat.eq_dec j i) as [->|Hne].
    + rewrite update_same in Hj.
      destruct (prevalidate (own envs i) payload (world s)); discriminate.
    + rewrite update_other in Hj by exact Hne. apply Hinv. exists rj. exact Hj.
  - (* a turn of the loop *)
    destruct (afterAttempt_cases envs i req attempt s)
      as [(Hw & He)|[(Hw & _ & He)|(Hw & _ & He)]];
      rewrite He in *; cbn [phase world] in *.
    + destruct (Nat.eq_dec j i) as [->|Hne]; [reflexivity|].
      rewrite update_other in Hj by exact Hne.
      assert (Hsj : scriptLock (world s) = Some j) by (apply Hinv; exists rj; exact Hj).
      apply own_waitLock in Hw. destruct Hw as [Hw|Hw]; congruence.
    + destruct (Nat.eq_dec j i) as [->|Hne].
      * rewrite update_same in Hj. discriminate.
      * rewrite update_other in Hj by exact Hne. apply Hinv. exists rj. exact Hj.
    + destruct (Nat.eq_dec j i) as [->|Hne].
      * rewrite update_same in Hj. discriminate.
      * rewrite update_other in Hj by exact Hne. apply Hinv. exists rj. exact Hj.
  - (* the critical section *)
    assert (Hsi : scriptLock (world s) = Some i) by (apply Hinv; exists req; exact Hi).
    unfold afterCritical in *.
    destruct (critical P (own envs i) req (world s)) as [response w1]. cbn in *.
    destruct (Nat.eq_dec j i) as [->|Hne].
    + rewrite update_same in Hj. discriminate.
    + rewrite update_other in Hj by exact Hne.
      assert (Hsj : scriptLock (world s) = Some j) by (apply Hinv; exists rj; exact Hj).
      congruence.
Qed.

Lemma reachable_holderInv (P : Platform) (envs : nat -> Env) (s0 s : System) :
  initial s0 -> reachable P envs s0 s -> holderInv s.
Proof.
  intros [_ Hnone] Hreach. induction Hreach as [|s s' _ IH Hstep].
  - intros i [req Hi]. exfalso. exact (Hnone i req Hi).
  - exact (step_holderInv P envs s s' Hstep IH).
Qed.

Lemma mutual_exclusion (P : Platform) (envs : nat -> Env) (s0 s : System)
  (i j : nat) :
  initial s0 -> reachable P envs s0 s ->
  holding s i -> holding s j -> i = j.
Proof.
  intros Hinit Hreach Hi Hj.
  pose proof (reachable_holderInv P envs s0 s Hinit Hreach) as Hinv.
  apply Hinv in Hi. apply Hinv in Hj. congruence.
Qed.

(** While [i] holds the lock, a turn of the loop of another execution ends
    without the lock. *)
Lemma attempt_while_held (envs : nat -> Env) (i j : nat) (req : Request.t)
  (attempt : nat) (s : System) :
  scriptLock (world s) = Some i -> j <> i ->
  afterAttempt envs j req attempt s
  = if (attempt =? maxAttempts - 1)%nat
    then mkSystem (world s) (update (phase s) j (Done (createErrorResponse msgBusy)))
    else mkSystem (addSleep (100 * (Z.of_nat attempt + 1)) (world s))
           (update (phase s) j (Waiting req (S attempt))).
Proof.
  intros Hl Hne. unfold afterAttempt.
  rewrite (own_waitLock_held envs i j attempt (world s) Hl Hne). reflexivity.
Qed.

(** The critical section of the holder ends with the lock free. *)
Lemma afterCritical_frees (P : Platform) (envs : nat -> Env) (i : nat)
  (req : Request.t) (s : System) :
  scriptLock (world s) = Some i ->
  scriptLock (world (afterCritical P envs i req s)) = None
  /\ phase (afterCritical P envs i req s)
     = update (phase s) i (Done (fst (critical P (own envs i) req (world s)))).
Proof.
  intro Hl. unfold afterCritical.
  pose proof (critical_frees P (own envs i) req (world s) Hl) as Hfree.
  destruct (critical P (own envs i) req (world s)) as [response w1].
  split; [exact Hfree|reflexivity].
Qed.

(** The turns of the loop, taken with no other execution moving, are
    acquireLockWithRetry. *)
Lemma attempts_acquireLockWithRetry (envs : nat -> Env) (i : nat) (req : Request.t)
  (lockKey : string) (s : System) :
  let run := acquireLockWithRetry (own envs i) lockKey maxAttempts (world s) in
  let s' := attempts maxAttempts envs i req 0 s in
  world s' = snd run
  /\ forall j,
       phase s' j
       = update (phase s) i
           match fst run with
           | Some _ => Holding req
           | None => Done (createErrorResponse msgBusy)
           end j.
Proof.
  cbv zeta. unfold acquireLockWithRetry, maxAttempts.
  cbn [Nat.eqb lockAttempts attempts].
  destruct (waitLock (own envs i) 0 (world s)) eqn:E0.
  - unfold afterAttempt. rewrite E0. cbn [phase world]. rewrite update_same.
    split; reflexivity.
  - assert (Hall : forall a w, scriptLock w = scriptLock (world s) ->
                                waitLock (own envs i) a w = false).
    { intros a w Hw. unfold waitLock in *. rewrite Hw.
      cbn [own executionId lockFreed] in *.
      destruct (scriptLock (world s)); [|discriminate]. exact E0. }
    unfold afterAttempt, maxAttempts. rewrite E0.
    cbn [Nat.eqb Nat.sub phase world]. rewrite update_same.
    rewrite (Hall 1%nat (addSleep (100 * (Z.of_nat 0 + 1)) (world s)) eq_refl).
    cbn [Nat.eqb Nat.sub phase world]. rewrite update_same.
    rewrite (Hall 2%nat
               (addSleep (100 * (Z.of_nat 1 + 1))
                  (addSleep (100 * (Z.of_nat 0 + 1)) (world s))) eq_refl).
    cbn [Nat.eqb Nat.sub phase world fst snd]. rewrite update_same.
    split; [reflexivity|].
    intro j. unfold update. cbn beta iota delta [phase].
    destruct (j =? i)%nat; reflexivity.
Qed.

End ConcurrentFacts.

(** An execution that runs alone is handleRecordPayment: the steps of the
    interleaving compose to the handler. *)
Lemma alone_handleRecordPayment (P : Platform) (envs : nat -> Env) (i : nat)
  (payload : Payload.t) (s : Concurrent.System) :
  Concurrent.world (Concurrent.alone P envs i payload s)
  = snd (handleRecordPayment P (Concurrent.own envs i) payload (Concurrent.world s))
  /\ Concurrent.phase (Concurrent.alone P envs i payload s) i
     = Concurrent.Done
         (fst (handleRecordPayment P (Concurrent.own envs i) payload
                 (Concurrent.world s))).
Proof.
  unfold Concurrent.alone, Concurrent.afterValidate, handleRecordPayment.
  cbn [Concurrent.phase Concurrent.world].
  rewrite ConcurrentFacts.update_same.
  destruct (prevalidate (Concurrent.own envs i) payload (Concurrent.world s))
    as [response|req].
  - cbn [Concurrent.phase Concurrent.world fst snd].
    rewrite ConcurrentFacts.update_same. split; reflexivity.
  - set (s1 := Concurrent.mkSystem (Concurrent.world s)
                 (Concurrent.update (Concurrent.phase s) i (Concurrent.Waiting req 0))).
    destruct (ConcurrentFacts.attempts_acquireLockWithRetry envs i req
                ("recordPayment_" ++ Request.studentId req) s1) as [Hw Hp].
    change (Concurrent.world s1) with (Concurrent.world s) in Hw, Hp.
    change Concurrent.maxAttempts with 3%nat in Hw, Hp |- *.
    rewrite (Hp i), ConcurrentFacts.update_same.
    destruct (acquireLockWithRetry (Concurrent.own envs i)
                ("recordPayment_" ++ Request.studentId req) 3 (Concurrent.world s))
      as [[lock|] w1]; cbn [fst snd] in *.
    + unfold Concurrent.afterCritical. rewrite Hw.
      destruct (critical P (Concurrent.own envs i) req w1) as [response w2].
      cbn [Concurrent.phase Concurrent.world fst snd].
      rewrite ConcurrentFacts.update_same. split; reflexivity.
    + rewrite Hw, (Hp i), ConcurrentFacts.update_same. split; reflexivity.
Qed.

(** C3 as stated fails: the requests of two different students do not
    proceed in parallel.  In a run of the sample system Juan's request takes
    the script lock; each of the three waits of Ana's request, for another
    student, that ends while Juan still holds the lock ends without it, and
    she gets the busy answer after pauses of 100 and 200 ms; and in no
    reachable state are the two inside the critical section together. *)
Lemma C3_counterexample :
  Request.studentId (Sample.checked Sample.forJuan)
    <> Request.studentId (Sample.checked Sample.forAna)
  /\ Concurrent.reachable utcPlatform Sample.envs Sample.arrivals Fixtures.juanHolds
  /\ Concurrent.phase Fixtures.juanHolds 0 = Concurrent.Holding (Sample.checked Sample.forJuan)
  /\ Concurrent.phase Fixtures.juanHolds 1
     = Concurrent.Waiting (Sample.checked Sample.forAna) 0
  /\ scriptLock (Concurrent.world Fixtures.juanHolds) = Some 0%nat
  /\ Concurrent.reachable utcPlatform Sample.envs Sample.arrivals Fixtures.anaGivesUp
  /\ Concurrent.phase Fixtures.anaGivesUp 0
     = Concurrent.Holding (Sample.checked Sample.forJuan)
  /\ Concurrent.phase Fixtures.anaGivesUp 1
     = Concurrent.Done
         (createErrorResponse
            "System is busy processing another payment for this student. Please wait and try again.")
  /\ slept (Concurrent.world Fixtures.anaGivesUp) = [100; 200]
  /\ Payments (Concurrent.world Fixtures.anaGivesUp) = Some []
  /\ ~ (exists s, Concurrent.reachable utcPlatform Sample.envs Sample.arrivals s
                  /\ Concurrent.holding s 0 /\ Concurrent.holding s 1).
Proof.
  assert (Hjuan : Concurrent.reachable utcPlatform Sample.envs Sample.arrivals
                    Fixtures.juanHolds).
  { unfold Fixtures.juanHolds.
    eapply Concurrent.reach_step; [eapply Concurrent.reach_step;
                                     [eapply Concurrent.reach_step;
                                        [apply Concurrent.reach_here|]|]|].
    - apply (Concurrent.step_validate utcPlatform Sample.envs 0 Sample.forJuan).
      reflexivity.
    - apply (Concurrent.step_attempt utcPlatform Sample.envs 0
               (Sample.checked Sample.forJuan) 0); [vm_compute; reflexivity|].
      unfold Concurrent.maxAttempts. lia.
    - apply (Concurrent.step_validate utcPlatform Sample.envs 1 Sample.forAna).
      vm_compute. reflexivity. }
  assert (Hana : Concurrent.reachable utcPlatform Sample.envs Sample.arrivals
                   Fixtures.anaGivesUp).
  { unfold Fixtures.anaGivesUp.
    eapply Concurrent.reach_step; [eapply Concurrent.reach_step;
                                     [eapply Concurrent.reach_step;
                                        [exact Hjuan|]|]|].
    - apply (Concurrent.step_attempt utcPlatform Sample.envs 1
               (Sample.checked Sample.forAna) 0); [vm_compute; reflexivity|].
      unfold Concurrent.maxAttempts. lia.
    - apply (Concurrent.step_attempt utcPlatform Sample.envs 1
               (Sample.checked Sample.forAna) 1); [vm_compute; reflexivity|].
      unfold Concurrent.maxAttempts. lia.
    - apply (Concurrent.step_attempt utcPlatform Sample.envs 1
               (Sample.checked Sample.forAna) 2); [vm_compute; reflexivity|].
      unfold Concurrent.maxAttempts. lia. }
  split; [cbn; discriminate|].
  split; [exact Hjuan|].
  split; [vm_compute; reflexivity|].
  split; [vm_compute; reflexivity|].
  split; [vm_compute; reflexivity|].
  split; [exact Hana|].
  split; [vm_compute; reflexivity|].
  split; [vm_compute; reflexivity|].
  split; [vm_compute; reflexivity|].
  split; [vm_compute; reflexivity|].
  intros (s & Hreach & H0 & H1).
  assert (Hinit : Concurrent.initial Sample.arrivals).
  { split; [reflexivity|]. intros [|[|i]] req; cbn; discriminate. }
  pose proof (ConcurrentFacts.mutual_exclusion _ _ _ _ _ _ Hinit Hreach H0 H1).
  discriminate.
Qed.

(** C3, amended. Executions of handleRecordPayment are serialized by the one
    script-wide lock, whatever their students.  In every state reachable
    from one where the lock is free, while an execution is inside the
    critical section no other is; a wait of another execution that ends in
    that state ends without the lock, the holder staying inside and the
    sheets untouched: the execution sleeps and tries again, and after its
    third such wait it returns the busy answer; and a wait that ends after
    the holder has left the critical section ends with the lock.  The lock
    key, which names the student, does not select the lock:
    acquireLockWithRetry does the same for every key. *)
Theorem C3_script_lock_serializes_all
  (P : Platform) (envs : nat -> Env) (s0 s : Concurrent.System) (i : nat)
  (holder : Request.t) :
  Concurrent.initial s0 ->
  Concurrent.reachable P envs s0 s ->
  Concurrent.phase s i = Concurrent.Holding holder ->
  (forall j, Concurrent.holding s j -> j = i)
  /\ (forall j req attempt,
        Concurrent.phase s j = Concurrent.Waiting req attempt ->
        let s' := Concurrent.afterAttempt envs j req attempt s in
        Concurrent.phase s' i = Concurrent.Holding holder
        /\ ~ Concurrent.holding s' j
        /\ scriptLock (Concurrent.world s') = Some i
        /\ Payments (Concurrent.world s') = Payments (Concurrent.world s)
        /\ Students (Concurrent.world s') = Students (Concurrent.world s)
        /\ AuditLog (Concurrent.world s') = AuditLog (Concurrent.world s)
        /\ (attempt <> 2%nat ->
            Concurrent.phase s' j = Concurrent.Waiting req (S attempt)
            /\ slept (Concurrent.world s')
               = (slept (Concurrent.world s) ++ [100 * (Z.of_nat attempt + 1)])%list)
        /\ (attempt = 2%nat ->
            Concurrent.phase s' j
            = Concurrent.Done
                (createErrorResponse
                   "System is busy processing another payment for this student. Please wait and try again.")))
  /\ (forall j req attempt,
        Concurrent.phase s j = Concurrent.Waiting req attempt ->
        let s' := Concurrent.afterAttempt envs j req attempt
                    (Concurrent.afterCritical P envs i holder s) in
        Concurrent.phase s' j = Concurrent.Holding req
        /\ scriptLock (Concurrent.world s') = Some j
        /\ exists response, Concurrent.phase s' i = Concurrent.Done response)
  /\ (forall env key1 key2 maxAttempts w,
        acquireLockWithRetry env key1 maxAttempts w
        = acquireLockWithRetry env key2 maxAttempts w).
Proof.
  intros Hinit Hreach Hi.
  pose proof (ConcurrentFacts.reachable_holderInv P envs s0 s Hinit Hreach) as Hinv.
  assert (Hlock : scriptLock (Concurrent.world s) = Some i).
  { apply Hinv. exists holder. exact Hi. }
  split.
  { intros j Hj. apply Hinv in Hj. congruence. }
  split.
  { intros j req attempt Hj. cbv zeta.
    assert (Hne : j <> i) by (intros ->; congruence).
    assert (Hne' : i <> j) by (intro H; apply Hne; symmetry; exact H).
    rewrite (ConcurrentFacts.attempt_while_held envs i j req attempt s Hlock Hne).
    unfold Concurrent.maxAttempts. cbn [Nat.sub].
    destruct (attempt =? 2)%nat eqn:E;
      cbn [Concurrent.phase Concurrent.world addSleep Payments Students AuditLog
             scriptLock slept];
      rewrite (ConcurrentFacts.update_other _ j i _ Hne'),
        ConcurrentFacts.update_same.
    - apply Nat.eqb_eq in E.
      split; [exact Hi|].
      split; [intros [r Hr]; cbn [Concurrent.phase] in Hr;
              rewrite ConcurrentFacts.update_same in Hr; discriminate|].
      split; [exact Hlock|].
      split; [reflexivity|]. split; [reflexivity|]. split; [reflexivity|].
      split; [intro Hn; contradiction|]. intros _. reflexivity.
    - apply Nat.eqb_neq in E.
      split; [exact Hi|].
      split; [intros [r Hr]; cbn [Concurrent.phase] in Hr;
              rewrite ConcurrentFacts.update_same in Hr; discriminate|].
      split; [exact Hlock|].
      split; [reflexivity|]. split; [reflexivity|]. split; [reflexivity|].
      split; [intros _; split; reflexivity|]. intro Hn. contradiction. }
  split.
  { intros j req attempt Hj. cbv zeta.
    assert (Hne : j <> i) by (intros ->; congruence).
    assert (Hne' : i <> j) by (intro H; apply Hne; symmetry; exact H).
    destruct (ConcurrentFacts.afterCritical_frees P envs i holder s Hlock)
      as [Hfree Hphase].
    destruct (ConcurrentFacts.afterAttempt_cases envs j req attempt
                (Concurrent.afterCritical P envs i holder s))
      as [(_ & He)|[(Hw & _)|(Hw & _)]].
    - rewrite He. cbn [Concurrent.phase Concurrent.world setScriptLock scriptLock].
      rewrite ConcurrentFacts.update_same.
      rewrite (ConcurrentFacts.update_other _ j i _ Hne'), Hphase,
        ConcurrentFacts.update_same.
      split; [reflexivity|]. split; [reflexivity|]. eexists. reflexivity.
    - rewrite (ConcurrentFacts.own_waitLock_free envs j attempt _ Hfree) in Hw.
      discriminate.
    - rewrite (ConcurrentFacts.own_waitLock_free envs j attempt _ Hfree) in Hw.
      discriminate. }
  reflexivity.
Qed.

(* ================================================================== *)
(** ** What the critical section does to the sheets *)

Lemma releaseLock_Payments (env : Env) (w : World) :
  Payments (releaseLock env w) = Payments w.
Proof.
  unfold releaseLock. destruct (scriptLock w) as [h|]; [|reflexivity].
  destruct (h =? executionId env)%nat; reflexivity.
Qed.

Lemma releaseLock_Students (env : Env) (w : World) :
  Students (releaseLock env w) = Students w.
Proof.
  unfold releaseLock. destruct (scriptLock w) as [h|]; [|reflexivity].
  destruct (h =? executionId env)%nat; reflexivity.
Qed.

Lemma releaseLock_AuditLog (env : Env) (w : World) :
  AuditLog (releaseLock env w) = AuditLog w.
Proof.
  unfold releaseLock. destruct (scriptLock w) as [h|]; [|reflexivity].
  destruct (h =? executionId env)%nat; reflexivity.
Qed.

(** Closes the branches that end without a write. *)
Ltac quiet :=
  cbn [fst snd];
  rewrite ?releaseLock_Payments, ?releaseLock_Students, ?releaseLock_AuditLog;
  repeat split; solve [reflexivity | assumption].

(** Either nothing is written, or the checks passed and the new row was
    appended; then the response is the receipt, unless the payment date is
    the Invalid Date, whose [toISOString] throws after the write. *)
Lemma critical_cases (P : Platform) (env : Env) (req : Request.t) (w : World) :
  (Payments (snd (critical P env req w)) = Payments w
   /\ Students (snd (critical P env req w)) = Students w
   /\ AuditLog (snd (critical P env req w)) = AuditLog w
   /\ isRecorded (fst (critical P env req w)) = false)
  \/ exists sheet student totalPaid newTotal,
       callsSucceed env
       /\ passesChecks P req w sheet student totalPaid newTotal
       /\ Payments (snd (critical P env req w))
          = Some (sheet ++ [paymentRowOf env req student (newPaymentId env)])%list
       /\ Students (snd (critical P env req w)) = Students w
       /\ ((exists iso,
              Request.paymentDate req = Some iso
              /\ fst (critical P env req w)
                 = createSuccessResponse
                     (Recorded (receiptOf req student totalPaid newTotal
                                  (newPaymentId env)
                                  (generateUniqueReceiptNumber P w env
                                     (Request.paymentDate req)) iso))
              /\ AuditLog (snd (critical P env req w))
                 = auditAfter env
                     (auditRowOf env "PAYMENT_RECORD"
                        (Session.user (Request.session req)) "Payments"
                        (newPaymentId env)
                        (detailsOf req student totalPaid newTotal
                           (generateUniqueReceiptNumber P w env
                              (Request.paymentDate req)) iso)) w)
           \/ (Request.paymentDate req = None
               /\ fst (critical P env req w) = createErrorResponse msgSaveFailed
               /\ AuditLog (snd (critical P env req w)) = AuditLog w)).
Proof.
  unfold critical, passesChecks, callsSucceed.
  unfold tryCatch, bind, reading, release, ret, lift.
  destruct (faults env AtEligibility) eqn:F1; [left; quiet|].
  destruct (validateStudentPaymentEligibility P w (Request.studentId req)
              (Request.amount req) (Request.session req))
    as [msg|student totalPaid newTotal] eqn:Eelig; [left; quiet|].
  destruct (faults env AtOpenPayments) eqn:F2; [left; quiet|].
  destruct (Payments w) as [sheet|] eqn:Epay; [|left; quiet].
  destruct (faults env AtReadPayments) eqn:F3; [left; quiet|].
  unfold getDataRows.
  destruct (find (keyRecheck _) sheet) eqn:Ekey; [left; quiet|].
  destruct (find (receiptRecheck _) sheet) eqn:Erec; [left; quiet|].
  destruct (existsb _ sheet) eqn:Eday; [left; quiet|].
  destruct (faults env AtGenerateReceipt) eqn:F4; [left; quiet|].
  unfold commit, tryCatch, bind, appendRow, toISOString, logAction, release, ret.
  destruct (faults env AtAppendRow) eqn:F5; [left; quiet|].
  rewrite Epay.
  right. exists sheet, student, totalPaid, newTotal.
  split; [repeat split; reflexivity|].
  split; [repeat split; assumption|].
  destruct (Request.paymentDate req) as [iso|] eqn:Edate.
  - cbn [AuditLog setPayments]. unfold auditAfter.
    destruct (AuditLog w) as [rows|] eqn:Eaudit;
      [destruct (faults env AtAuditAppend)|];
      cbn [fst snd]; rewrite ?releaseLock_Payments, ?releaseLock_Students,
        ?releaseLock_AuditLog; cbn;
      (split; [reflexivity|]); (split; [reflexivity|]);
      left; exists iso; rewrite ?Eaudit; repeat split; reflexivity.
  - cbn [fst snd]. rewrite ?releaseLock_Payments, ?releaseLock_Students,
      ?releaseLock_AuditLog. cbn.
    split; [reflexivity|]. split; [reflexivity|]. right. repeat split; reflexivity.
Qed.

Lemma critical_commits (P : Platform) (env : Env) (req : Request.t) (w : World)
  (sheet : list PaymentRow) (student : Student.t) (totalPaid newTotal : Q) (iso : Z) :
  callsSucceed env ->
  passesChecks P req w sheet student totalPaid newTotal ->
  Request.paymentDate req = Some iso ->
  fst (critical P env req w)
  = createSuccessResponse
      (Recorded (receiptOf req student totalPaid newTotal (newPaymentId env)
                   (generateUniqueReceiptNumber P w env (Request.paymentDate req))
                   iso)).
Proof.
  intros (F1 & F2 & F3 & F4 & F5) (Hpay & Helig & Hkey & Hrec & Hday) Hdate.
  unfold critical, tryCatch, bind, reading, release, ret, lift.
  rewrite F1, Helig, F2, Hpay, F3. unfold getDataRows.
  rewrite Hkey, Hrec, Hday, F4.
  unfold commit, tryCatch, bind, appendRow, toISOString, logAction, release, ret.
  rewrite F5, Hpay, Hdate. cbn [AuditLog setPayments].
  destruct (AuditLog w); [destruct (faults env AtAuditAppend)|]; reflexivity.
Qed.

(** The validators read the Payments and Students sheets only. *)
Lemma eligibility_ext (P : Platform) (w w1 : World) (studentId : string)
  (amount : Q) (session : Session.t) :
  Payments w1 = Payments w -> Students w1 = Students w ->
  validateStudentPaymentEligibility P w1 studentId amount session
  = validateStudentPaymentEligibility P w studentId amount session.
Proof.
  intros Hp Hs. unfold validateStudentPaymentEligibility. rewrite Hp, Hs. reflexivity.
Qed.

Lemma receipt_ext (w w1 : World) (receiptNo : string) (exclude : option string) :
  Payments w1 = Payments w ->
  validateUniqueReceiptNumber w1 receiptNo exclude
  = validateUniqueReceiptNumber w receiptNo exclude.
Proof. intro Hp. unfold validateUniqueReceiptNumber. rewrite Hp. reflexivity. Qed.

Lemma receiptAttempts_ext (w w1 : World) (env : Env) (dateStr : string) :
  Payments w1 = Payments w ->
  forall remaining attempt,
    receiptAttempts w1 env dateStr attempt remaining
    = receiptAttempts w env dateStr attempt remaining.
Proof.
  intro Hp. induction remaining as [|remaining IH]; intro attempt; cbn.
  - reflexivity.
  - rewrite (receipt_ext w w1 _ _ Hp), IH. reflexivity.
Qed.

Lemma generate_ext (P : Platform) (w w1 : World) (env : Env) (d : Js.Date) :
  Payments w1 = Payments w ->
  generateUniqueReceiptNumber P w1 env d = generateUniqueReceiptNumber P w env d.
Proof.
  intro Hp. unfold generateUniqueReceiptNumber.
  rewrite (receiptAttempts_ext w w1 env _ Hp). reflexivity.
Qed.

Lemma passesChecks_ext (P : Platform) (req : Request.t) (w w1 : World)
  (sheet : list PaymentRow) (student : Student.t) (totalPaid newTotal : Q) :
  Payments w1 = Payments w -> Students w1 = Students w ->
  passesChecks P req w1 sheet student totalPaid newTotal
  <-> passesChecks P req w sheet student totalPaid newTotal.
Proof.
  intros Hp Hs. unfold passesChecks.
  rewrite (eligibility_ext P w w1 _ _ _ Hp Hs), Hp. reflexivity.
Qed.

(** The same for the whole handler. *)
Lemma handle_cases (P : Platform) (env : Env) (payload : Payload.t) (w : World) :
  (Payments (snd (handleRecordPayment P env payload w)) = Payments w
   /\ Students (snd (handleRecordPayment P env payload w)) = Students w
   /\ AuditLog (snd (handleRecordPayment P env payload w)) = AuditLog w
   /\ isRecorded (fst (handleRecordPayment P env payload w)) = false)
  \/ exists req sheet student totalPaid newTotal,
       prevalidate env payload w = inr req
       /\ fst (acquireLockWithRetry env ("recordPayment_" ++ Request.studentId req)
                 3 w) = Some ScriptLock
       /\ callsSucceed env
       /\ passesChecks P req w sheet student totalPaid newTotal
       /\ Payments (snd (handleRecordPayment P env payload w))
          = Some (sheet ++ [paymentRowOf env req student (newPaymentId env)])%list
       /\ Students (snd (handleRecordPayment P env payload w)) = Students w
       /\ ((exists iso,
              Request.paymentDate req = Some iso
              /\ fst (handleRecordPayment P env payload w)
                 = createSuccessResponse
                     (Recorded (receiptOf req student totalPaid newTotal
                                  (newPaymentId env)
                                  (generateUniqueReceiptNumber P w env
                                     (Request.paymentDate req)) iso))
              /\ AuditLog (snd (handleRecordPayment P env payload w))
                 = auditAfter env
                     (auditRowOf env "PAYMENT_RECORD"
                        (Session.user (Request.session req)) "Payments"
                        (newPaymentId env)
                        (detailsOf req student totalPaid newTotal
                           (generateUniqueReceiptNumber P w env
                              (Request.paymentDate req)) iso)) w)
           \/ (Request.paymentDate req = None
               /\ fst (handleRecordPayment P env payload w)
                  = createErrorResponse msgSaveFailed)).
Proof.
  unfold handleRecordPayment.
  destruct (prevalidate env payload w) as [response|req] eqn:Epre.
  - left. cbn. repeat split; try reflexivity.
    unfold prevalidate in Epre.
    repeat match type of Epre with
           | context [match ?x with _ => _ end] => destruct x
           end; inversion Epre; reflexivity.
  - destruct (acquireLockWithRetry env _ 3 w) as [[lock|] w1] eqn:Eacq;
      destruct (acquire_frame _ _ _ _ _ _ Eacq) as (Hp & Hs & Ha & _).
    + destruct (critical_cases P env req w1)
        as [(H1 & H2 & H3 & H4)
           |(sheet & student & tp & nt & Hcalls & Hchecks & Hrows & Hstu & Hresp)].
      * left. repeat split; congruence.
      * right. exists req, sheet, student, tp, nt.
        split; [reflexivity|].
        split; [rewrite Eacq; destruct lock; reflexivity|].
        split; [exact Hcalls|].
        split; [apply (passesChecks_ext P req w w1); assumption|].
        split; [exact Hrows|]. split; [congruence|].
        rewrite (generate_ext P w w1 env _ Hp) in Hresp.
        destruct Hresp as [(iso & Hd & Hr & Haud)|(Hd & Hr & _)].
        -- left. exists iso. repeat split; try assumption.
           rewrite Haud. unfold auditAfter. rewrite Ha. reflexivity.
        -- right. split; assumption.
    + left. cbn. repeat split; assumption.
Qed.

Lemma handle_commits (P : Platform) (env : Env) (payload : Payload.t) (w : World)
  (req : Request.t) (sheet : list PaymentRow) (student : Student.t)
  (totalPaid newTotal : Q) (iso : Z) :
  prevalidate env payload w = inr req ->
  fst (acquireLockWithRetry env ("recordPayment_" ++ Request.studentId req) 3 w)
  = Some ScriptLock ->
  callsSucceed env ->
  passesChecks P req w sheet student totalPaid newTotal ->
  Request.paymentDate req = Some iso ->
  fst (handleRecordPayment P env payload w)
  = createSuccessResponse
      (Recorded (receiptOf req student totalPaid newTotal (newPaymentId env)
                   (generateUniqueReceiptNumber P w env (Request.paymentDate req))
                   iso)).
Proof.
  intros Hpre Hlock Hcalls Hchecks Hdate.
  unfold handleRecordPayment. rewrite Hpre.
  destruct (acquireLockWithRetry env _ 3 w) as [lock w1] eqn:Eacq.
  cbn [fst] in Hlock. subst lock.
  apply acquire_frame in Eacq. destruct Eacq as (Hp & Hs & _).
  rewrite (critical_commits P env req w1 sheet student totalPaid newTotal iso);
    [|exact Hcalls|apply (passesChecks_ext P req w w1); assumption|exact Hdate].
  rewrite (generate_ext P w w1 env _ Hp). reflexivity.
Qed.

Lemma handle_commits_sheet (P : Platform) (env : Env) (payload : Payload.t) (w : World)
  (req : Request.t) (sheet : list PaymentRow) (student : Student.t)
  (totalPaid newTotal : Q) (iso : Z) :
  prevalidate env payload w = inr req ->
  fst (acquireLockWithRetry env ("recordPayment_" ++ Request.studentId req) 3 w)
  = Some ScriptLock ->
  callsSucceed env ->
  passesChecks P req w sheet student totalPaid newTotal ->
  Request.paymentDate req = Some iso ->
  fst (handleRecordPayment P env payload w)
  = createSuccessResponse
      (Recorded (receiptOf req student totalPaid newTotal (newPaymentId env)
                   (generateUniqueReceiptNumber P w env (Request.paymentDate req))
                   iso))
  /\ Payments (snd (handleRecordPayment P env payload w))
     = Some (sheet ++ [paymentRowOf env req student (newPaymentId env)])%list.
Proof.
  intros Hpre Hlock Hcalls Hchecks Hdate.
  assert (Hfst := handle_commits P env payload w req sheet student totalPaid newTotal
                    iso Hpre Hlock Hcalls Hchecks Hdate).
  split; [exact Hfst|].
  destruct (handle_cases P env payload w) as [(_ & _ & _ & Hno)|Hyes].
  - rewrite Hfst in Hno. discriminate.
  - destruct Hyes as (req' & sheet' & student' & tp' & nt' & Hpre' & _ & _ & Hch' & Hrows & _).
    assert (req' = req) by congruence. subst req'.
    destruct Hchecks as (Hpay & Helig & _). destruct Hch' as (Hpay' & Helig' & _).
    assert (sheet' = sheet) by congruence. subst sheet'.
    assert (student' = student) by congruence. subst student'.
    exact Hrows.
Qed.

(* ================================================================== *)
(** ** Scans *)

Lemma find_weaken {A : Type} (f g : A -> bool) (l : list A) :
  (forall x, f x = true -> g x = true) -> find g l = None -> find f l = None.
Proof.
  intros Himp Hg. destruct (find f l) as [x|] eqn:E; [|reflexivity].
  apply find_some in E. destruct E as [Hin Hfx].
  pose proof (find_none g l Hg x Hin) as Hgx.
  rewrite (Himp x Hfx) in Hgx. discriminate.
Qed.

Lemma find_app_last {A : Type} (f : A -> bool) (l : list A) (x : A) :
  find f l = None -> f x = true -> find f (l ++ [x]) = Some x.
Proof.
  intros Hnone Hx. induction l as [|a l IH]; cbn in *.
  - rewrite Hx. reflexivity.
  - destruct (f a); [discriminate|]. apply IH. exact Hnone.
Qed.

Lemma find_app_none {A : Type} (f : A -> bool) (l : list A) (x : A) :
  find f l = None -> f x = false -> find f (l ++ [x]) = None.
Proof.
  intros Hnone Hx. induction l as [|a l IH]; cbn in *.
  - rewrite Hx. reflexivity.
  - destruct (f a); [discriminate|]. apply IH. exact Hnone.
Qed.

(* ================================================================== *)
(** ** The checks before the lock *)

(** What a request that reaches the lock has passed. *)
Lemma prevalidate_inr (env : Env) (payload : Payload.t) (w : World) (req : Request.t) :
  prevalidate env payload w = inr req ->
  exists s q,
    session env = Some s
    /\ Js.blank (Payload.studentId payload) = false
    /\ Js.parseFloat (Payload.amount payload) = Js.Finite q
    /\ valid (validatePaymentAmount (Js.Finite q)) = true
    /\ Js.blank (Js.trim (Payload.physicalReceiptNo payload)) = false
    /\ valid (validateIdempotencyKey w (idempotencyTime env)
                (Request.idempotencyKey req)) = true
    /\ valid (validateUniqueReceiptNumber w
                (Js.trim (Payload.physicalReceiptNo payload)) None) = true
    /\ req = requestOf env payload s q.
Proof.
  unfold prevalidate. intro H.
  destruct (session env) as [s|]; [|discriminate].
  destruct (Js.blank (Payload.studentId payload)) eqn:Esid; [discriminate|].
  destruct (Js.parseFloat (Payload.amount payload)) as [|neg|q] eqn:Eamt;
    cbn [falsyNumber orb] in H; try discriminate.
  - destruct (Js.blank (Js.trim (Payload.physicalReceiptNo payload))); discriminate.
  - destruct (Qeq_bool q 0 || Js.blank (Js.trim (Payload.physicalReceiptNo payload)))
      eqn:E1; [discriminate|].
    apply orb_false_iff in E1. destruct E1 as [_ Erec].
    destruct (valid (validatePaymentAmount (Js.Finite q))) eqn:Ev; [|discriminate].
    cbn [negb] in H.
    match type of H with
    | context [validateIdempotencyKey w ?t ?k] =>
        destruct (valid (validateIdempotencyKey w t k)) eqn:Ekey
    end.
    + cbn [negb] in H.
      destruct (valid (validateUniqueReceiptNumber w _ None)) eqn:Er; [|discriminate].
      cbn [negb] in H. injection H as <-.
      exists s, q. cbn [Request.idempotencyKey]. repeat split; assumption.
    + cbn [negb] in H.
      destruct (existingPaymentId _) as [e|]; [destruct (Js.blank e)|]; discriminate.
Qed.

Lemma validateIdempotencyKey_valid (w : World) (now : Z) (key : string) :
  valid (validateIdempotencyKey w now key) = true ->
  Js.blank key = false /\ Js.blank (Js.trim key) = false
  /\ exists sheet, Payments w = Some sheet
                   /\ find (keyInUse (cutoffTime now) key) sheet = None.
Proof.
  unfold validateIdempotencyKey. intro H.
  destruct (Js.blank key) eqn:E1; [discriminate|].
  destruct (Js.blank (Js.trim key)) eqn:E2; [discriminate|].
  cbn [orb] in H.
  destruct (Payments w) as [sheet|]; [|discriminate].
  unfold getDataRows in H.
  destruct (find _ sheet) eqn:E; [discriminate|].
  repeat split. exists sheet. split; [reflexivity|exact E].
Qed.

Lemma newPaymentId_not_blank (env : Env) : Js.blank (newPaymentId env) = false.
Proof. reflexivity. Qed.

(* ================================================================== *)
(** ** Idempotency *)

(** C1. When a request has been recorded, a second request with the same
    student, amount and idempotency key (given by the caller), made while the
    first payment is inside the retention window, is answered with the
    payment id of the first and [duplicate: true], and it writes nothing:
    the sheets are what the first request left. *)
Theorem C1_same_key_returns_first_payment
  (P : Platform) (first second : Env) (payload retry : Payload.t)
  (w w1 : World) (receipt : Receipt.t) :
  handleRecordPayment P first payload w
  = (createSuccessResponse (Recorded receipt), w1) ->
  Js.blank (Payload.idempotencyKey payload) = false ->
  Payload.studentId retry = Payload.studentId payload ->
  Payload.amount retry = Payload.amount payload ->
  Payload.idempotencyKey retry = Payload.idempotencyKey payload ->
  Js.blank (Js.trim (Payload.physicalReceiptNo retry)) = false ->
  session second <> None ->
  cutoffTime (idempotencyTime second) < commitTime first ->
  handleRecordPayment P second retry w1
  = (createSuccessResponse
       (Duplicate (Receipt.paymentId receipt) "payment already recorded"), w1).
Proof.
  intros Hfirst Hkey Hsid Hamt Hsame Hrec Hsess Hwindow.
  pose proof (handle_cases P first payload w) as Hcases.
  rewrite Hfirst in Hcases. cbn [fst snd] in Hcases.
  destruct Hcases as [(_ & _ & _ & Hno)|Hcases]; [discriminate|].
  destruct Hcases as (req & sheet & student & tp & nt & Hpre & _ & _ & Hchecks & Hrows & _ & Hresp).
  destruct Hresp as [(iso & _ & Hr & _)|(_ & Hr)]; [|discriminate].
  injection Hr as ->.
  destruct Hchecks as (_ & _ & Hfresh & _).
  apply prevalidate_inr in Hpre.
  destruct Hpre as (s & q & _ & Hsidnb & Hq & Hvalid & _ & Hkeyvalid & _ & Hreq).
  assert (Hk : Request.idempotencyKey req = Payload.idempotencyKey payload).
  { rewrite Hreq. cbn. unfold idempotencyKeyOf. rewrite Hkey. reflexivity. }
  rewrite Hk in Hkeyvalid, Hfresh.
  apply validateIdempotencyKey_valid in Hkeyvalid.
  destruct Hkeyvalid as (Hb1 & Hb2 & _).
  cbn [Receipt.paymentId receiptOf].
  unfold handleRecordPayment, prevalidate.
  destruct (session second) as [s2|]; [|congruence].
  unfold idempotencyKeyOf.
  rewrite Hsid, Hamt, Hsame, Hsidnb, Hq, Hkey, Hrec.
  cbn [falsyNumber orb].
  assert (Hq0 : Qeq_bool q 0 = false).
  { destruct (Qeq_bool q 0) eqn:E; [|reflexivity].
    unfold validatePaymentAmount in Hvalid. rewrite E in Hvalid. discriminate. }
  rewrite Hq0, Hvalid. cbn [negb orb].
  unfold validateIdempotencyKey. rewrite Hb1, Hb2, Hrows. cbn [orb].
  unfold getDataRows.
  rewrite (find_app_last _ sheet (paymentRowOf first req student (newPaymentId first))).
  - cbn. reflexivity.
  - apply (find_weaken _ (keyRecheck (Payload.idempotencyKey payload)));
      [|exact Hfresh].
    intros x Hx. unfold keyInUse in Hx. unfold keyRecheck.
    apply andb_true_iff in Hx. destruct Hx as [_ Hx]. exact Hx.
  - unfold keyInUse, paymentRowOf. cbn. rewrite Hk, String.eqb_refl.
    apply Z.ltb_lt in Hwindow. rewrite Hwindow. reflexivity.
Qed.

(* ================================================================== *)
(** ** Trimming twice *)

Lemma trimStart_headKept (s : string) : headKept (Js.trimStart s).
Proof.
  induction s as [|c s IH]; cbn; [exact I|].
  destruct (Js.isSpace c) eqn:E; [exact IH|exact E].
Qed.

Lemma trimStart_fixed (s : string) : headKept s -> Js.trimStart s = s.
Proof. destruct s as [|c s]; cbn; [reflexivity|]. intros ->. reflexivity. Qed.

Lemma trimEnd_headKept (s : string) : headKept s -> headKept (Js.trimEnd s).
Proof.
  destruct s as [|c s]; cbn; [exact id|]. intro H.
  destruct (Js.trimEnd s); [rewrite H|]; exact H.
Qed.

Lemma trimEnd_idempotent (s : string) : Js.trimEnd (Js.trimEnd s) = Js.trimEnd s.
Proof.
  induction s as [|c s IH]; [reflexivity|].
  cbn [Js.trimEnd]. destruct (Js.trimEnd s) as [|d t] eqn:E.
  - destruct (Js.isSpace c) eqn:Ec; [reflexivity|]. cbn. rewrite Ec. reflexivity.
  - cbn [Js.trimEnd] in *. rewrite IH. reflexivity.
Qed.

Lemma trim_idempotent (s : string) : Js.trim (Js.trim s) = Js.trim s.
Proof.
  unfold Js.trim.
  rewrite (trimStart_fixed (Js.trimEnd (Js.trimStart s))).
  - apply trimEnd_idempotent.
  - apply trimEnd_headKept, trimStart_headKept.
Qed.

(* ================================================================== *)
(** ** Receipt numbers *)

Lemma find_same {A : Type} (f g : A -> bool) (l : list A) :
  (forall x, f x = g x) -> find f l = find g l.
Proof.
  intro H. induction l as [|a l IH]; cbn; [reflexivity|].
  rewrite H, IH. reflexivity.
Qed.

Lemma find_found {A : Type} (f : A -> bool) (l : list A) (x : A) :
  In x l -> f x = true -> exists y, find f l = Some y /\ In y l /\ f y = true.
Proof.
  intros Hin Hx. destruct (find f l) as [y|] eqn:E.
  - exists y. split; [reflexivity|]. apply find_some in E. exact E.
  - rewrite (find_none f l E x Hin) in Hx. discriminate.
Qed.

Lemma find_all_false {A : Type} (f : A -> bool) (l : list A) :
  (forall x, In x l -> f x = false) -> find f l = None.
Proof.
  intro H. destruct (find f l) as [y|] eqn:E; [|reflexivity].
  apply find_some in E. destruct E as [Hin Hy]. rewrite (H y Hin) in Hy. discriminate.
Qed.

Lemma receiptRecheck_receiptInUse (receiptNo : string) (row : PaymentRow) :
  receiptRecheck (Js.trim receiptNo) row
  = receiptInUse (normalized (Js.trim receiptNo)) None row.
Proof.
  unfold receiptRecheck, receiptInUse, normalized, excluded.
  rewrite trim_idempotent, orb_false_r. reflexivity.
Qed.

Lemma receiptInUse_iff (receiptNo : string) (row : PaymentRow) :
  receiptInUse (normalized receiptNo) None row = true
  <-> IsVoided row = false /\ normalized (PhysicalReceiptNo row) = normalized receiptNo.
Proof.
  unfold receiptInUse, excluded, normalized. rewrite orb_false_r.
  rewrite andb_true_iff, negb_true_iff, String.eqb_eq. reflexivity.
Qed.

(** Voiding a row leaves the others as they are. *)
Lemma voidRow_cases (paymentId : string) (row : PaymentRow) :
  (PaymentID row = paymentId /\ IsVoided (voidRow paymentId row) = true)
  \/ (PaymentID row <> paymentId /\ voidRow paymentId row = row).
Proof.
  unfold voidRow. destruct (String.eqb_spec (PaymentID row) paymentId) as [E|E].
  - left. split; [exact E|reflexivity].
  - right. split; [exact E|reflexivity].
Qed.

Lemma voidRow_PhysicalReceiptNo (paymentId : string) (row : PaymentRow) :
  PhysicalReceiptNo (voidRow paymentId row) = PhysicalReceiptNo row.
Proof. unfold voidRow. destruct (String.eqb _ _); reflexivity. Qed.

Lemma receipt_free_after_void (receiptNo paymentId : string) (sheet : list PaymentRow) :
  onlyUsedBy receiptNo paymentId sheet ->
  find (receiptInUse (normalized receiptNo) None) (map (voidRow paymentId) sheet) = None.
Proof.
  intro Honly. apply find_all_false. intros x Hx.
  apply in_map_iff in Hx. destruct Hx as (row & <- & Hin).
  destruct (receiptInUse (normalized receiptNo) None (voidRow paymentId row)) eqn:E;
    [|reflexivity].
  apply receiptInUse_iff in E. destruct E as [Hv Hn].
  destruct (voidRow_cases paymentId row) as [[_ Hvoid]|[Hne Hsame]].
  - congruence.
  - rewrite Hsame in Hv, Hn. exfalso. apply Hne. apply Honly; assumption.
Qed.

Lemma key_free_after_void (cutoff : Z) (key paymentId : string) (sheet : list PaymentRow) :
  find (keyInUse cutoff key) sheet = None ->
  find (keyInUse cutoff key) (map (voidRow paymentId) sheet) = None.
Proof.
  intro Hnone. apply find_all_false. intros x Hx.
  apply in_map_iff in Hx. destruct Hx as (row & <- & Hin).
  destruct (voidRow_cases paymentId row) as [[_ Hvoid]|[_ Hsame]].
  - unfold keyInUse. rewrite Hvoid. reflexivity.
  - rewrite Hsame. apply (find_none _ _ Hnone). exact Hin.
Qed.

Lemma prevalidate_passes (env : Env) (payload : Payload.t) (w : World)
  (s : Session.t) (q : Q) :
  wellFormed env payload s q ->
  valid (validateIdempotencyKey w (idempotencyTime env) (idempotencyKeyOf env payload))
  = true ->
  valid (validateUniqueReceiptNumber w (Js.trim (Payload.physicalReceiptNo payload)) None)
  = true ->
  prevalidate env payload w = inr (requestOf env payload s q).
Proof.
  intros (Hs & Hsid & Hq & Hv & Hr) Hkey Hrec.
  unfold prevalidate. rewrite Hs, Hsid, Hq, Hr. cbn [falsyNumber orb].
  assert (Hq0 : Qeq_bool q 0 = false).
  { destruct (Qeq_bool q 0) eqn:E; [|reflexivity].
    unfold validatePaymentAmount in Hv. rewrite E in Hv. discriminate. }
  rewrite Hq0, Hv, Hkey, Hrec. reflexivity.
Qed.

Lemma prevalidate_receipt_used (env : Env) (payload : Payload.t) (w : World)
  (s : Session.t) (q : Q) (sheet : list PaymentRow) (first : PaymentRow) :
  wellFormed env payload s q ->
  valid (validateIdempotencyKey w (idempotencyTime env) (idempotencyKeyOf env payload))
  = true ->
  Payments w = Some sheet ->
  find (receiptInUse (normalized (Payload.physicalReceiptNo payload)) None) sheet
  = Some first ->
  prevalidate env payload w
  = inl (createErrorResponse
           (receiptUsedMessage (Js.trim (Payload.physicalReceiptNo payload))
              (PaymentID first))).
Proof.
  intros (Hs & Hsid & Hq & Hv & Hr) Hkey Hpay Hfind.
  unfold prevalidate. rewrite Hs, Hsid, Hq, Hr. cbn [falsyNumber orb].
  assert (Hq0 : Qeq_bool q 0 = false).
  { destruct (Qeq_bool q 0) eqn:E; [|reflexivity].
    unfold validatePaymentAmount in Hv. rewrite E in Hv. discriminate. }
  rewrite Hq0, Hv, Hkey. cbn [negb].
  unfold validateUniqueReceiptNumber.
  rewrite trim_idempotent, Hr, Hpay.
  assert (Hb : Js.blank (Js.trim (Payload.physicalReceiptNo payload)) = false)
    by exact Hr.
  unfold getDataRows. unfold normalized in Hfind. rewrite Hfind. reflexivity.
Qed.

(* ================================================================== *)
(** ** The idempotency re-check in the lock *)

(** C5 (the code departs from the claim). validateIdempotencyKey looks at
    payments that are not voided and were created inside the window: on both
    sample sheets it finds the key fresh.  The re-check in the lock compares
    the key with every row: for a key used by a voided payment only, and for
    a key used by a payment forty days old only, handleRecordPayment answers
    [duplicate: true] with the old payment id and records nothing. *)
Theorem C5_recheck_ignores_void_and_window :
  valid (validateIdempotencyKey Sample.voidedLedger
           (idempotencyTime Sample.env) "key-1") = true
  /\ handleRecordPayment utcPlatform Sample.env Sample.sameKey Sample.voidedLedger
     = (createSuccessResponse
          (Duplicate "P1" "payment already recorded (detected in lock)"),
        Sample.voidedLedger)
  /\ valid (validateIdempotencyKey Sample.oldLedger
              (idempotencyTime Sample.env) "key-1") = true
  /\ handleRecordPayment utcPlatform Sample.env Sample.sameKey Sample.oldLedger
     = (createSuccessResponse
          (Duplicate "P1" "payment already recorded (detected in lock)"),
        Sample.oldLedger).
Proof. repeat split; vm_compute; reflexivity. Qed.

(* ================================================================== *)
(** ** Receipt uniqueness *)

(** C6. Receipt numbers are ASCII texts here.  Let a payment that is not
    voided use a receipt number, compared trimmed and in upper case.  A
    request with that receipt number that passes the input and amount checks
    and brings a fresh idempotency key is rejected with the error
    'Receipt number "<number>" already used in payment <id>', where <id> is
    the id of the first payment using the number, and nothing is written.
    Once the only payment using it is voided, both receipt checks pass, and
    when the other checks of the critical section pass the request is
    recorded: the Payments sheet gets a new row, not voided, with that
    receipt number. *)
Theorem C6_receipt_number_unique_until_voided
  (P : Platform) (env : Env) (payload : Payload.t) (w : World)
  (s : Session.t) (q : Q) (sheet : list PaymentRow) (row : PaymentRow) :
  wellFormed env payload s q ->
  valid (validateIdempotencyKey w (idempotencyTime env) (idempotencyKeyOf env payload))
  = true ->
  Payments w = Some sheet ->
  asciiText (Payload.physicalReceiptNo payload) = true ->
  asciiReceipts sheet ->
  In row sheet ->
  IsVoided row = false ->
  normalized (PhysicalReceiptNo row) = normalized (Payload.physicalReceiptNo payload) ->
  (exists first,
      find (receiptInUse (normalized (Payload.physicalReceiptNo payload)) None) sheet
      = Some first
      /\ IsVoided first = false
      /\ normalized (PhysicalReceiptNo first)
         = normalized (Payload.physicalReceiptNo payload)
      /\ handleRecordPayment P env payload w
         = (createErrorResponse
              ("Receipt number " ++ Js.dquote
                 ++ Js.trim (Payload.physicalReceiptNo payload) ++ Js.dquote
                 ++ " already used in payment " ++ PaymentID first), w))
  /\ (onlyUsedBy (Payload.physicalReceiptNo payload) (PaymentID row) sheet ->
      let w' := voidPayment (PaymentID row) w in
      let sheet' := map (voidRow (PaymentID row)) sheet in
      let req := requestOf env payload s q in
      valid (validateUniqueReceiptNumber w'
               (Js.trim (Payload.physicalReceiptNo payload)) None) = true
      /\ find (receiptRecheck (Request.physicalReceiptNo req)) sheet' = None
      /\ forall student totalPaid newTotal iso,
           scriptLock w = None ->
           callsSucceed env ->
           validateStudentPaymentEligibility P w' (Request.studentId req)
             (Request.amount req) (Request.session req)
           = Eligible student totalPaid newTotal ->
           find (keyRecheck (Request.idempotencyKey req)) sheet' = None ->
           existsb (sameDay P (Request.studentId req)
                      (toDateString P (Request.paymentDate req))) sheet' = false ->
           Request.paymentDate req = Some iso ->
           fst (handleRecordPayment P env payload w')
           = createSuccessResponse
               (Recorded (receiptOf req student totalPaid newTotal (newPaymentId env)
                            (generateUniqueReceiptNumber P w' env
                               (Request.paymentDate req)) iso))
           /\ exists added,
                Payments (snd (handleRecordPayment P env payload w'))
                = Some (sheet' ++ [added])%list
                /\ PhysicalReceiptNo added = Js.trim (Payload.physicalReceiptNo payload)
                /\ StudentID added = Payload.studentId payload
                /\ IsVoided added = false).
Proof.
  intros Hwf Hkey Hpay _ _ Hin Hlive Hsame.
  split.
  - destruct (find_found (receiptInUse (normalized (Payload.physicalReceiptNo payload)) None)
                sheet row Hin) as (first & Hfind & _ & Hfirst).
    { apply receiptInUse_iff. split; assumption. }
    apply receiptInUse_iff in Hfirst. destruct Hfirst as [Hv Hn].
    exists first. repeat split; try assumption.
    unfold handleRecordPayment.
    rewrite (prevalidate_receipt_used env payload w s q sheet first Hwf Hkey Hpay Hfind).
    reflexivity.
  - intros Honly w' sheet' req.
    assert (Hpay' : Payments w' = Some sheet').
    { unfold w', voidPayment. rewrite Hpay. reflexivity. }
    assert (Hfree : find (receiptInUse (normalized (Js.trim (Payload.physicalReceiptNo payload)))
                            None) sheet' = None).
    { unfold normalized at 1. rewrite trim_idempotent.
      apply receipt_free_after_void. exact Honly. }
    assert (Hvalid : valid (validateUniqueReceiptNumber w'
                              (Js.trim (Payload.physicalReceiptNo payload)) None) = true).
    { unfold validateUniqueReceiptNumber. rewrite Hpay'.
      destruct Hwf as (_ & _ & _ & _ & Hr). rewrite trim_idempotent, Hr. cbn [orb].
      unfold getDataRows. unfold normalized in Hfree. rewrite trim_idempotent in Hfree.
      rewrite Hfree. reflexivity. }
    assert (Hre : find (receiptRecheck (Request.physicalReceiptNo req)) sheet' = None).
    { cbn [req requestOf Request.physicalReceiptNo].
      rewrite (find_same _ _ sheet' (receiptRecheck_receiptInUse _)). exact Hfree. }
    split; [exact Hvalid|]. split; [exact Hre|].
    intros student totalPaid newTotal iso Hlock Hcalls Helig Hk Hday Hdate.
    assert (Hkey' : valid (validateIdempotencyKey w' (idempotencyTime env)
                             (idempotencyKeyOf env payload)) = true).
    { apply validateIdempotencyKey_valid in Hkey.
      destruct Hkey as (Hb1 & Hb2 & sh & Hsh & Hnone).
      assert (sh = sheet) by congruence. subst sh.
      unfold validateIdempotencyKey. rewrite Hb1, Hb2, Hpay'. cbn [orb].
      unfold getDataRows, sheet'. rewrite (key_free_after_void _ _ _ _ Hnone).
      reflexivity. }
    destruct (handle_commits_sheet P env payload w' req sheet' student totalPaid
                newTotal iso) as [Hresp Hrows].
    + apply prevalidate_passes; assumption.
    + rewrite acquire_free; [reflexivity|].
      unfold w', voidPayment. rewrite Hpay. exact Hlock.
    + exact Hcalls.
    + repeat split; assumption.
    + exact Hdate.
    + split; [exact Hresp|].
      exists (paymentRowOf env req student (newPaymentId env)).
      split; [exact Hrows|]. repeat split; reflexivity.
Qed.

(* ================================================================== *)
(** ** One payment per student and day *)

Lemma sameDateString_eq (a b : option (Z * Z * Z)) :
  sameDateString a b = true <-> a = b.
Proof.
  destruct a as [[[y1 m1] d1]|], b as [[[y2 m2] d2]|]; cbn; try easy.
  rewrite !andb_true_iff, !Z.eqb_eq. split.
  - intros [[-> ->] ->]. reflexivity.
  - intro H. injection H as -> -> ->. auto.
Qed.

Lemma critical_same_day (P : Platform) (env : Env) (req : Request.t) (w : World)
  (sheet : list PaymentRow) (student : Student.t) (totalPaid newTotal : Q) :
  callsSucceed env ->
  passesRechecks P req w sheet student totalPaid newTotal ->
  existsb (sameDay P (Request.studentId req)
             (toDateString P (Request.paymentDate req))) sheet = true ->
  critical P env req w = (createErrorResponse msgSameDay, releaseLock env w).
Proof.
  intros (F1 & F2 & F3 & _) (Hpay & Helig & Hkey & Hrec) Hday.
  unfold critical, tryCatch, bind, reading, release, ret, lift.
  rewrite F1, Helig, F2, Hpay, F3. unfold getDataRows.
  rewrite Hkey, Hrec, Hday. reflexivity.
Qed.

(** C7. Let the student have a payment, not voided, dated on a calendar
    day.  A request for that student dated on the same day is never recorded
    and leaves the Payments sheet as it is, whatever its amount and receipt
    number; when it passes every other check it gets the same-day error.  A
    request dated on a day on which the student has no payment that is not
    voided, and which passes the other checks, is recorded. *)
Theorem C7_one_payment_per_student_and_day
  (P : Platform) (env : Env) (payload : Payload.t) (w : World)
  (sheet : list PaymentRow) (row : PaymentRow) (day : Z * Z * Z)
  (req : Request.t) (student : Student.t) (totalPaid newTotal : Q) :
  Payments w = Some sheet ->
  In row sheet ->
  StudentID row = Payload.studentId payload ->
  IsVoided row = false ->
  toDateString P (PaymentDate row) = Some day ->
  (toDateString P (paymentDateOf env payload) = Some day ->
   isRecorded (fst (handleRecordPayment P env payload w)) = false
   /\ Payments (snd (handleRecordPayment P env payload w)) = Payments w
   /\ (prevalidate env payload w = inr req ->
       scriptLock w = None ->
       callsSucceed env ->
       passesRechecks P req w sheet student totalPaid newTotal ->
       fst (handleRecordPayment P env payload w) = createErrorResponse msgSameDay))
  /\ (forall iso,
        paymentDateOf env payload = Some iso ->
        (forall other,
            In other sheet -> StudentID other = Payload.studentId payload ->
            IsVoided other = false ->
            toDateString P (PaymentDate other) <> toDateString P (Some iso)) ->
        prevalidate env payload w = inr req ->
        scriptLock w = None ->
        callsSucceed env ->
        passesRechecks P req w sheet student totalPaid newTotal ->
        fst (handleRecordPayment P env payload w)
        = createSuccessResponse
            (Recorded (receiptOf req student totalPaid newTotal (newPaymentId env)
                         (generateUniqueReceiptNumber P w env (Some iso)) iso))
        /\ Payments (snd (handleRecordPayment P env payload w))
           = Some (sheet ++ [paymentRowOf env req student (newPaymentId env)])%list).
Proof.
  intros Hpay Hin Hsid Hlive Hday.
  split.
  - intro Hsame.
    assert (Hblocked :
              forall r, prevalidate env payload w = inr r ->
                        existsb (sameDay P (Request.studentId r)
                                   (toDateString P (Request.paymentDate r))) sheet
                        = true).
    { intros r Hr. apply prevalidate_inr in Hr.
      destruct Hr as (s & q & _ & _ & _ & _ & _ & _ & _ & ->).
      cbn [requestOf Request.studentId Request.paymentDate].
      apply existsb_exists. exists row. split; [exact Hin|].
      unfold sameDay. rewrite Hsid, String.eqb_refl, Hlive, Hday, Hsame.
      cbn [negb andb]. apply sameDateString_eq. reflexivity. }
    destruct (handle_cases P env payload w) as [(Hp & _ & _ & Hno)|Hyes].
    + split; [exact Hno|]. split; [exact Hp|].
      intros Hpre Hlock Hcalls Hre.
      unfold handleRecordPayment. rewrite Hpre, acquire_free by exact Hlock.
      rewrite (critical_same_day P env req _ sheet student totalPaid newTotal Hcalls).
      * reflexivity.
      * destruct Hre as (H1 & H2 & H3 & H4). repeat split; assumption.
      * apply Hblocked. exact Hpre.
    + exfalso.
      destruct Hyes as (r & sheet' & st & tp & nt & Hpre & _ & _ & Hch & _).
      destruct Hch as (Hpay' & _ & _ & _ & Hnone).
      assert (sheet' = sheet) by congruence. subst sheet'.
      rewrite (Hblocked r Hpre) in Hnone. discriminate.
  - intros iso Hdate Hnone Hpre Hlock Hcalls (H1 & H2 & H3 & H4).
    pose proof (prevalidate_inr _ _ _ _ Hpre) as Hinv.
    destruct Hinv as (s & q & _ & _ & _ & _ & _ & _ & _ & Hreq).
    assert (Hd : Request.paymentDate req = Some iso).
    { rewrite Hreq. cbn. exact Hdate. }
    assert (Hs : Request.studentId req = Payload.studentId payload).
    { rewrite Hreq. reflexivity. }
    rewrite <- Hd.
    apply (handle_commits_sheet P env payload w req sheet student totalPaid newTotal iso);
      try assumption; [rewrite acquire_free by exact Hlock; reflexivity|].
    repeat split; try assumption.
    destruct (existsb _ sheet) eqn:E; [|reflexivity].
    apply existsb_exists in E. destruct E as (other & Hino & Hother).
    unfold sameDay in Hother. rewrite Hs, Hd in Hother.
    apply andb_true_iff in Hother. destruct Hother as [Hother Hdate'].
    apply andb_true_iff in Hother. destruct Hother as [Hid Hv].
    apply String.eqb_eq in Hid. apply negb_true_iff in Hv.
    apply sameDateString_eq in Hdate'.
    exfalso. exact (Hnone other Hino Hid Hv Hdate').
Qed.

(* ================================================================== *)
(** ** The ceiling of the expected amount *)

Lemma eligibility_eligible (P : Platform) (w : World) (studentId : string)
  (amount : Q) (session : Session.t) (student : Student.t) (totalPaid newTotal : Q) :
  validateStudentPaymentEligibility P w studentId amount session
  = Eligible student totalPaid newTotal ->
  exists stuSheet paySheet row,
    Students w = Some stuSheet /\ Payments w = Some paySheet
    /\ studentRowOf studentId stuSheet = Some row
    /\ student = studentOfRow row
    /\ totalPaid = totalPaidOf studentId paySheet
    /\ newTotal = (totalPaid + amount)%Q
    /\ exceedsExpected (expectedAmountRead row) newTotal = false.
Proof.
  unfold validateStudentPaymentEligibility, studentRowOf, expectedAmountRead, getDataRows.
  intro H.
  destruct (Students w) as [stuSheet|]; [|discriminate].
  destruct (Payments w) as [paySheet|]; [|discriminate].
  destruct (find _ stuSheet) as [row|] eqn:Erow; [|discriminate].
  destruct (negb (Js.truthy _)); [discriminate|].
  destruct (_ && _); [discriminate|].
  destruct (exceedsExpected _ _) eqn:E; [discriminate|].
  injection H as <- <- <-.
  exists stuSheet, paySheet, row. repeat split; assumption.
Qed.

Lemma totalPaidOf_appended (studentId : string) (sheet : list PaymentRow)
  (row : PaymentRow) :
  StudentID row = studentId -> IsVoided row = false ->
  totalPaidOf studentId (sheet ++ [row]) = (totalPaidOf studentId sheet + Amount row)%Q.
Proof.
  intros Hid Hv. unfold totalPaidOf. rewrite fold_left_app. cbn.
  unfold paidBy. rewrite Hid, String.eqb_refl, Hv. reflexivity.
Qed.

(** The rows handleCreateSection writes hold 'Active' in column 4, which is
    the column the check reads as the expected amount: it parses to no
    number. *)
Lemma expectedAmountRead_active (row : StudentRow.t) :
  StudentRow.Status row = Js.Text "Active" -> expectedAmountRead row = Js.NaN.
Proof.
  intro H. unfold expectedAmountRead, studentOfRow.
  cbn [Student.expectedAmount]. rewrite H. reflexivity.
Qed.

(** With no number in that column the check has no ceiling: whatever has
    been paid and whatever is asked, the student is eligible. *)
Lemma eligibility_without_ceiling (P : Platform) (w : World) (studentId : string)
  (amount : Q) (session : Session.t) (stuSheet : list StudentRow.t)
  (sheet : list PaymentRow) (row : StudentRow.t) :
  Students w = Some stuSheet ->
  Payments w = Some sheet ->
  studentRowOf studentId stuSheet = Some row ->
  expectedAmountRead row = Js.NaN ->
  Js.truthy (StudentRow.CreatedAt row) = true ->
  (Session.role session = "Treasurer" ->
   StudentRow.SectionID row = Session.section session) ->
  validateStudentPaymentEligibility P w studentId amount session
  = Eligible (studentOfRow row) (totalPaidOf studentId sheet)
      (totalPaidOf studentId sheet + amount)%Q.
Proof.
  intros Hstu Hpay Hrow Hread Hactive Hsection.
  unfold validateStudentPaymentEligibility, getDataRows.
  unfold studentRowOf in Hrow. rewrite Hstu, Hpay, Hrow.
  cbn [studentOfRow Student.isActive Student.sectionId Student.expectedAmount].
  rewrite Hactive. cbn [negb].
  assert (Hs : String.eqb (Session.role session) "Treasurer"
               && negb (String.eqb (StudentRow.SectionID row) (Session.section session))
               = false).
  { destruct (String.eqb (Session.role session) "Treasurer") eqn:Er; [|reflexivity].
    apply String.eqb_eq in Er. rewrite (Hsection Er), String.eqb_refl. reflexivity. }
  rewrite Hs.
  unfold expectedAmountRead, studentOfRow in Hread.
  cbn [Student.expectedAmount] in Hread. rewrite Hread.
  reflexivity.
Qed.

(** C2. The ceiling of the expected amount is not applied to the students
    the program creates.  validateStudentPaymentEligibility takes the
    expected amount from column 4 of the Students sheet, where
    handleCreateSection writes 'Active', and not from column 6, the
    ExpectedAmount column of setupDatabase that handleCreateSection fills and
    every other reader uses.  So for a student row with 'Active' in column 4
    the amount read is NaN, and a request that passes the other checks is
    recorded whatever column 6 holds: the student's payments that are not
    voided then sum to the previous total plus the amount, above every
    smaller expected amount.  With 100 expected and 80 paid, the payment of
    25 that the specification rejects is recorded, the new total being 105. *)
Theorem C2_ceiling_is_read_from_the_status_column
  (P : Platform) (env : Env) (payload : Payload.t) (w : World)
  (s : Session.t) (q : Q) (stuSheet : list StudentRow.t) (sheet : list PaymentRow)
  (row : StudentRow.t) (iso : Z) :
  wellFormed env payload s q ->
  Students w = Some stuSheet ->
  Payments w = Some sheet ->
  studentRowOf (Payload.studentId payload) stuSheet = Some row ->
  StudentRow.Status row = Js.Text "Active" ->
  Js.truthy (StudentRow.CreatedAt row) = true ->
  (Session.role s = "Treasurer" -> StudentRow.SectionID row = Session.section s) ->
  Js.blank (Js.trim (idempotencyKeyOf env payload)) = false ->
  keyUnused (idempotencyKeyOf env payload) sheet ->
  valid (validateUniqueReceiptNumber w (Js.trim (Payload.physicalReceiptNo payload)) None)
  = true ->
  existsb (sameDay P (Payload.studentId payload)
             (toDateString P (paymentDateOf env payload))) sheet = false ->
  paymentDateOf env payload = Some iso ->
  scriptLock w = None ->
  callsSucceed env ->
  expectedAmountRead row = Js.NaN
  /\ (exists receipt,
        fst (handleRecordPayment P env payload w)
        = createSuccessResponse (Recorded receipt)
        /\ Receipt.previousTotal receipt = totalPaidOf (Payload.studentId payload) sheet
        /\ Receipt.newTotal receipt
           = (totalPaidOf (Payload.studentId payload) sheet + q)%Q)
  /\ (exists added,
        Payments (snd (handleRecordPayment P env payload w))
        = Some (sheet ++ [added])%list
        /\ StudentID added = Payload.studentId payload
        /\ Amount added = q
        /\ IsVoided added = false
        /\ totalPaidOf (Payload.studentId payload) (sheet ++ [added])
           = (totalPaidOf (Payload.studentId payload) sheet + q)%Q
        /\ forall e,
             StudentRow.ExpectedAmount row = Js.Num e ->
             (e < totalPaidOf (Payload.studentId payload) sheet + q)%Q ->
             ~ (totalPaidOf (Payload.studentId payload) (sheet ++ [added]) <= e)%Q)
  /\ (StudentRow.Status Sample.juan = Js.Text "Active"
      /\ StudentRow.ExpectedAmount Sample.juan = Js.Num 100
      /\ (totalPaidOf "ST1" (rowsOf (Payments (Sample.paid80 [Sample.juan] "ST1")))
          == 80)%Q
      /\ exists receipt,
           fst (handleRecordPayment utcPlatform Sample.env (Sample.pay "ST1" 25)
                  (Sample.paid80 [Sample.juan] "ST1"))
           = createSuccessResponse (Recorded receipt)
           /\ (Receipt.amount receipt == 25)%Q
           /\ (Receipt.newTotal receipt == 105)%Q).
Proof.
  intros Hwf Hstu Hpay Hrow Hstatus Hactive Hsection Hkeynb Hunused Hrec Hday Hdate
    Hlock Hcalls.
  pose proof (expectedAmountRead_active row Hstatus) as Hread.
  split; [exact Hread|].
  assert (Hsample :
    StudentRow.Status Sample.juan = Js.Text "Active"
    /\ StudentRow.ExpectedAmount Sample.juan = Js.Num 100
    /\ (totalPaidOf "ST1" (rowsOf (Payments (Sample.paid80 [Sample.juan] "ST1")))
        == 80)%Q
    /\ exists receipt,
         fst (handleRecordPayment utcPlatform Sample.env (Sample.pay "ST1" 25)
                (Sample.paid80 [Sample.juan] "ST1"))
         = createSuccessResponse (Recorded receipt)
         /\ (Receipt.amount receipt == 25)%Q
         /\ (Receipt.newTotal receipt == 105)%Q).
  { split; [reflexivity|]. split; [reflexivity|].
    split; [vm_compute; reflexivity|].
    eexists. split; [vm_compute; reflexivity|].
    split; vm_compute; reflexivity. }
  pose proof Hwf as (Hs & _).
  set (req := requestOf env payload s q).
  set (total := totalPaidOf (Payload.studentId payload) sheet).
  assert (Helig : validateStudentPaymentEligibility P w (Request.studentId req)
                    (Request.amount req) (Request.session req)
                  = Eligible (studentOfRow row) total (total + q)%Q).
  { apply (eligibility_without_ceiling P w (Payload.studentId payload) q s stuSheet
             sheet row); assumption. }
  assert (Hfresh : find (keyRecheck (idempotencyKeyOf env payload)) sheet = None).
  { apply find_all_false. intros r Hin. unfold keyRecheck.
    apply String.eqb_neq. exact (Hunused r Hin). }
  assert (Hkey : valid (validateIdempotencyKey w (idempotencyTime env)
                          (idempotencyKeyOf env payload)) = true).
  { unfold validateIdempotencyKey. rewrite Hpay, Hkeynb.
    destruct (Js.blank (idempotencyKeyOf env payload)) eqn:Eb.
    - destruct (idempotencyKeyOf env payload); [discriminate Hkeynb|discriminate Eb].
    - cbn [orb]. unfold getDataRows.
      rewrite (find_weaken _ (keyRecheck (idempotencyKeyOf env payload)) sheet);
        [reflexivity| |exact Hfresh].
      intros x Hx. unfold keyInUse in Hx. apply andb_true_iff in Hx.
      destruct Hx as [_ Hx]. exact Hx. }
  destruct (handle_commits_sheet P env payload w req sheet (studentOfRow row)
              total (total + q)%Q iso) as [Hresp Hrows].
  - apply prevalidate_passes; assumption.
  - rewrite acquire_free by exact Hlock. reflexivity.
  - exact Hcalls.
  - split; [exact Hpay|]. split; [exact Helig|]. split; [exact Hfresh|].
    split; [|exact Hday].
    cbn [req requestOf Request.physicalReceiptNo].
    rewrite (find_same _ _ sheet (receiptRecheck_receiptInUse _)).
    unfold validateUniqueReceiptNumber in Hrec. rewrite Hpay in Hrec.
    destruct (_ || _) in Hrec; [discriminate|].
    unfold getDataRows, normalized in *.
    destruct (find _ sheet) eqn:E in Hrec; [discriminate|].
    rewrite trim_idempotent in E. rewrite trim_idempotent. exact E.
  - exact Hdate.
  - split.
    { eexists. split; [exact Hresp|]. split; reflexivity. }
    split; [|exact Hsample].
    exists (paymentRowOf env req (studentOfRow row) (newPaymentId env)).
    assert (Hsum : totalPaidOf (Payload.studentId payload)
                     (sheet ++ [paymentRowOf env req (studentOfRow row)
                                  (newPaymentId env)])
                   = (total + q)%Q).
    { rewrite totalPaidOf_appended; reflexivity. }
    split; [exact Hrows|]. split; [reflexivity|]. split; [reflexivity|].
    split; [reflexivity|]. split; [exact Hsum|].
    intros e _ Hlt. rewrite Hsum. apply Qlt_not_le. exact Hlt.
Qed.

(* ================================================================== *)
(** ** The system receipt reference *)

(** C10. When handleRecordPayment records a payment, the row appended to
    the Payments sheet carries the receipt number the caller gave (trimmed)
    and is built from the request, the student, the session and the clock
    alone: with any other draws for the system receipt reference the same
    row is appended and every sheet but the audit log is the same.  The
    reference of the draws is the receiptNo of the response and, when the
    audit sheet exists and the write to it succeeds, the systemReceiptNo of
    the entry appended to the audit log for the payment.  On the sample
    sheet two runs return two references, store them in their audit entries
    and leave the same Payments sheet, whose row has no text field equal to
    either reference. *)
Theorem C10_receipt_reference_not_in_ledger
  (P : Platform) (env : Env) (payload : Payload.t) (w : World)
  (draws : nat -> Z) (fallback : Z) :
  isRecorded (fst (handleRecordPayment P env payload w)) = true ->
  (exists req sheet student totalPaid newTotal iso,
      let env' := withReceiptDraws draws fallback env in
      let row := paymentRowOf env req student (newPaymentId env) in
      let reference := generateUniqueReceiptNumber P w env (Some iso) in
      let reference' := generateUniqueReceiptNumber P w env' (Some iso) in
      Payments w = Some sheet
      /\ Payments (snd (handleRecordPayment P env payload w)) = Some (sheet ++ [row])%list
      /\ PhysicalReceiptNo row = Js.trim (Payload.physicalReceiptNo payload)
      /\ fst (handleRecordPayment P env payload w)
         = createSuccessResponse
             (Recorded (receiptOf req student totalPaid newTotal (newPaymentId env)
                          reference iso))
      /\ AuditLog (snd (handleRecordPayment P env payload w))
         = auditAfter env
             (auditRowOf env "PAYMENT_RECORD" (Session.user (Request.session req))
                "Payments" (newPaymentId env)
                (detailsOf req student totalPaid newTotal reference iso)) w
      /\ (exists receipt,
            fst (handleRecordPayment P env payload w)
            = createSuccessResponse (Recorded receipt)
            /\ Receipt.receiptNo receipt = reference
            /\ Receipt.paymentId receipt = PaymentID row
            /\ Receipt.physicalReceiptNo receipt = PhysicalReceiptNo row)
      /\ (forall log,
            AuditLog w = Some log ->
            faults env AtAuditAppend = false ->
            exists entry,
              AuditLog (snd (handleRecordPayment P env payload w))
              = Some (log ++ [entry])%list
              /\ AuditRow.ActionType entry = "PAYMENT_RECORD"
              /\ AuditRow.RecordID entry = PaymentID row
              /\ Details.systemReceiptNo (AuditRow.Details entry) = reference
              /\ Details.physicalReceiptNo (AuditRow.Details entry)
                 = PhysicalReceiptNo row)
      /\ fst (handleRecordPayment P env' payload w)
         = createSuccessResponse
             (Recorded (receiptOf req student totalPaid newTotal (newPaymentId env)
                          reference' iso))
      /\ (exists receipt',
            fst (handleRecordPayment P env' payload w)
            = createSuccessResponse (Recorded receipt')
            /\ Receipt.receiptNo receipt' = reference')
      /\ Payments (snd (handleRecordPayment P env' payload w))
         = Payments (snd (handleRecordPayment P env payload w))
      /\ Students (snd (handleRecordPayment P env' payload w))
         = Students (snd (handleRecordPayment P env payload w)))
  /\ (let env' := withReceiptDraws Sample.otherDraws 0 Sample.env in
      let run := handleRecordPayment utcPlatform Sample.env Sample.forJuan Sample.world0 in
      let run' := handleRecordPayment utcPlatform env' Sample.forJuan Sample.world0 in
      (exists r, fst run = createSuccessResponse (Recorded r)
                 /\ Receipt.receiptNo r = "R-20240110-007")
      /\ (exists r, fst run' = createSuccessResponse (Recorded r)
                    /\ Receipt.receiptNo r = "R-20240110-008")
      /\ (exists entry, AuditLog (snd run) = Some [entry]
                        /\ Details.systemReceiptNo (AuditRow.Details entry)
                           = "R-20240110-007")
      /\ (exists entry, AuditLog (snd run') = Some [entry]
                        /\ Details.systemReceiptNo (AuditRow.Details entry)
                           = "R-20240110-008")
      /\ Payments (snd run') = Payments (snd run)
      /\ (exists row, Payments (snd run) = Some [row]
                      /\ PhysicalReceiptNo row = "OR-101"
                      /\ ~ In "R-20240110-007" (rowTexts row)
                      /\ ~ In "R-20240110-008" (rowTexts row))).
Proof.
  intro Hrec.
  split.
  2:{ cbv zeta.
      split; [eexists; split; vm_compute; reflexivity|].
      split; [eexists; split; vm_compute; reflexivity|].
      split; [eexists; split; vm_compute; reflexivity|].
      split; [eexists; split; vm_compute; reflexivity|].
      split; [vm_compute; reflexivity|].
      eexists. split; [vm_compute; reflexivity|].
      split; [vm_compute; reflexivity|].
      split; vm_compute; intro H;
        repeat (destruct H as [H|H]; [discriminate|]); exact H. }
  destruct (handle_cases P env payload w) as [(_ & _ & _ & Hno)|Hyes];
    [congruence|].
  destruct Hyes as (req & sheet & student & tp & nt & Hpre & Hlock & Hcalls & Hchecks
                    & Hrows & Hstu & Hresp).
  destruct Hresp as [(iso & Hdate & Hr & Haud)|(_ & Hr)];
    [|rewrite Hr in Hrec; discriminate].
  exists req, sheet, student, tp, nt, iso. cbv zeta.
  rewrite Hdate in Hr, Haud.
  pose proof (prevalidate_inr _ _ _ _ Hpre) as Hinv.
  destruct Hinv as (s & q & _ & _ & _ & _ & _ & _ & _ & Hreq).
  split; [exact (proj1 Hchecks)|].
  split; [exact Hrows|].
  split; [rewrite Hreq; reflexivity|].
  split; [exact Hr|]. split; [exact Haud|].
  split.
  { eexists. split; [exact Hr|]. repeat split; reflexivity. }
  split.
  { intros log Hlog Hf. rewrite Haud. unfold auditAfter. rewrite Hlog, Hf.
    eexists. split; [reflexivity|]. repeat split; reflexivity. }
  destruct (handle_commits_sheet P (withReceiptDraws draws fallback env) payload w
              req sheet student tp nt iso) as [Hfst' Hrows'];
    try assumption.
  rewrite Hdate in Hfst'.
  split; [exact Hfst'|].
  split; [eexists; split; [exact Hfst'|reflexivity]|].
  split; [rewrite Hrows'; symmetry; exact Hrows|].
  destruct (handle_cases P (withReceiptDraws draws fallback env) payload w)
    as [(_ & Hs' & _ & _)|(_ & _ & _ & _ & _ & _ & _ & _ & _ & _ & Hs' & _)];
    congruence.
Qed.

(* ================================================================== *)
(** ** The theorems at the sample data *)

Lemma C1_witness :
  let run := handleRecordPayment utcPlatform Sample.env Sample.forJuan Sample.world0 in
  handleRecordPayment utcPlatform Sample.later Sample.forJuan (snd run)
  = (createSuccessResponse (Duplicate "P1704888000417" "payment already recorded"),
     snd run).
Proof.
  cbv zeta.
  apply (C1_same_key_returns_first_payment utcPlatform Sample.env Sample.later
           Sample.forJuan Sample.forJuan Sample.world0
           (snd (handleRecordPayment utcPlatform Sample.env Sample.forJuan Sample.world0))
           (Sample.receiptIn
              (fst (handleRecordPayment utcPlatform Sample.env Sample.forJuan
                      Sample.world0)))).
  - vm_compute. reflexivity.
  - reflexivity.
  - reflexivity.
  - reflexivity.
  - reflexivity.
  - vm_compute. reflexivity.
  - discriminate.
  - vm_compute. reflexivity.
Defined.

Lemma C2_witness :
  exists added,
    Payments (snd (handleRecordPayment utcPlatform Sample.env (Sample.pay "ST1" 25)
                     (Sample.paid80 [Sample.juan] "ST1")))
    = Some [Sample.payment "P1" "ST1" 80 Sample.jan09 "OR-1" "key-1" false; added]
    /\ StudentID added = "ST1"
    /\ Amount added = 25%Q
    /\ ~ (totalPaidOf "ST1"
            [Sample.payment "P1" "ST1" 80 Sample.jan09 "OR-1" "key-1" false; added]
          <= 100)%Q.
Proof.
  destruct (C2_ceiling_is_read_from_the_status_column utcPlatform Sample.env
              (Sample.pay "ST1" 25) (Sample.paid80 [Sample.juan] "ST1")
              Sample.treasurer 25 [Sample.juan]
              [Sample.payment "P1" "ST1" 80 Sample.jan09 "OR-1" "key-1" false]
              Sample.juan Sample.jan10)
    as (_ & _ & (added & Hrows & Hid & Hamount & _ & _ & Habove) & _).
  - repeat split; vm_compute; reflexivity.
  - reflexivity.
  - reflexivity.
  - reflexivity.
  - reflexivity.
  - reflexivity.
  - intros _. reflexivity.
  - vm_compute. reflexivity.
  - intros r [<-|[]]. vm_compute. discriminate.
  - vm_compute. reflexivity.
  - vm_compute. reflexivity.
  - reflexivity.
  - reflexivity.
  - repeat split; reflexivity.
  - exists added. split; [exact Hrows|]. split; [exact Hid|]. split; [exact Hamount|].
    apply (Habove 100%Q); [reflexivity|].
    vm_compute. reflexivity.
Defined.

Lemma C3_witness :
  Concurrent.phase
    (Concurrent.afterAttempt Sample.envs 1 (Sample.checked Sample.forAna) 0
       Fixtures.juanHolds) 1
  = Concurrent.Waiting (Sample.checked Sample.forAna) 1
  /\ Concurrent.phase
       (Concurrent.afterAttempt Sample.envs 1 (Sample.checked Sample.forAna) 0
          (Concurrent.afterCritical utcPlatform Sample.envs 0
             (Sample.checked Sample.forJuan) Fixtures.juanHolds)) 1
     = Concurrent.Holding (Sample.checked Sample.forAna).
Proof.
  destruct (C3_script_lock_serializes_all utcPlatform Sample.envs Sample.arrivals
              Fixtures.juanHolds 0%nat (Sample.checked Sample.forJuan))
    as (_ & Hheld & Hfreed & _).
  - split; [reflexivity|]. intros [|[|i]] req; cbn; discriminate.
  - unfold Fixtures.juanHolds.
    eapply Concurrent.reach_step; [eapply Concurrent.reach_step;
                                     [eapply Concurrent.reach_step;
                                        [apply Concurrent.reach_here|]|]|].
    + apply (Concurrent.step_validate utcPlatform Sample.envs 0 Sample.forJuan).
      reflexivity.
    + apply (Concurrent.step_attempt utcPlatform Sample.envs 0
               (Sample.checked Sample.forJuan) 0); [vm_compute; reflexivity|].
      unfold Concurrent.maxAttempts. lia.
    + apply (Concurrent.step_validate utcPlatform Sample.envs 1 Sample.forAna).
      vm_compute. reflexivity.
  - vm_compute. reflexivity.
  - split.
    + destruct (Hheld 1%nat (Sample.checked Sample.forAna) 0%nat)
        as (_ & _ & _ & _ & _ & _ & Hagain & _).
      * vm_compute. reflexivity.
      * apply Hagain. discriminate.
    + destruct (Hfreed 1%nat (Sample.checked Sample.forAna) 0%nat) as (Hgot & _).
      * vm_compute. reflexivity.
      * exact Hgot.
Defined.

Lemma C4_witness :
  scriptLock (snd (critical utcPlatform Sample.env (Sample.checked Sample.forJuan)
                     Sample.lockedWorld)) = None
  /\ scriptLock (snd (handleRecordPayment utcPlatform Sample.env Sample.forJuan
                        Sample.world0)) = None.
Proof.
  destruct (C4_lock_released_on_every_exit utcPlatform Sample.env Sample.later
              Sample.forJuan (Sample.checked Sample.forJuan) "recordPayment_ST1"
              Sample.world0 Sample.lockedWorld)
    as (H1 & H2 & _).
  - reflexivity.
  - reflexivity.
  - split; [exact H1|exact H2].
Defined.

Lemma C6_witness :
  handleRecordPayment utcPlatform Sample.env Sample.sameReceipt Sample.receiptLedger
  = (createErrorResponse
       ("Receipt number " ++ Js.dquote ++ "or-1" ++ Js.dquote
          ++ " already used in payment P1"),
     Sample.receiptLedger)
  /\ isRecorded (fst (handleRecordPayment utcPlatform Sample.env Sample.sameReceipt
                        (voidPayment "P1" Sample.receiptLedger))) = true
  /\ exists added,
       Payments (snd (handleRecordPayment utcPlatform Sample.env Sample.sameReceipt
                        (voidPayment "P1" Sample.receiptLedger)))
       = Some [Sample.payment "P1" "ST2" 50 Sample.jan09 "OR-1" "key-1" true; added]
       /\ PhysicalReceiptNo added = "or-1"
       /\ IsVoided added = false.
Proof.
  destruct (C6_receipt_number_unique_until_voided utcPlatform Sample.env
              Sample.sameReceipt Sample.receiptLedger Sample.treasurer 50
              [Sample.payment "P1" "ST2" 50 Sample.jan09 "OR-1" "key-1" false]
              (Sample.payment "P1" "ST2" 50 Sample.jan09 "OR-1" "key-1" false))
    as [(first & Hfind & _ & _ & Hrun) Hvoided].
  - repeat split; vm_compute; reflexivity.
  - vm_compute. reflexivity.
  - reflexivity.
  - reflexivity.
  - intros other [<-|[]]. reflexivity.
  - left. reflexivity.
  - reflexivity.
  - vm_compute. reflexivity.
  - split.
    + rewrite Hrun. vm_compute in Hfind. injection Hfind as <-. reflexivity.
    + destruct Hvoided as (_ & _ & Haccepted).
      * intros other [<-|[]] _ _. reflexivity.
      * destruct (Haccepted (studentOfRow Sample.juan) 0%Q (0 + 50)%Q Sample.jan10)
          as (Hacc & added & Hrows & Hno & _ & Hlive).
        -- reflexivity.
        -- repeat split; reflexivity.
        -- vm_compute. reflexivity.
        -- vm_compute. reflexivity.
        -- vm_compute. reflexivity.
        -- reflexivity.
        -- change (PaymentID (Sample.payment "P1" "ST2" 50 Sample.jan09 "OR-1" "key-1"
                               false)) with "P1" in Hacc, Hrows.
           split; [rewrite Hacc; reflexivity|].
           exists added. split; [exact Hrows|].
           split; [exact Hno|exact Hlive].
Defined.

Lemma C7_witness :
  fst (handleRecordPayment utcPlatform Sample.env Sample.sameDate Sample.dayLedger)
  = createErrorResponse msgSameDay
  /\ isRecorded (fst (handleRecordPayment utcPlatform Sample.env Sample.nextDate
                        Sample.dayLedger)) = true.
Proof.
  pose (row := Sample.payment "P1" "ST1" 20 (Sample.jan10 + 3600000) "OR-1" "key-1" false).
  split.
  - destruct (C7_one_payment_per_student_and_day utcPlatform Sample.env Sample.sameDate
                Sample.dayLedger [row] row (2024, 0, 10)
                (Request.mk Sample.treasurer "ST1" 50 "OR-2" "key-2"
                   (Some (Sample.jan10 + Sample.noon)) EmptyString)
                (studentOfRow Sample.juan) (0 + 20)%Q (0 + 20 + 50)%Q)
      as [Hsame _].
    + reflexivity.
    + left. reflexivity.
    + reflexivity.
    + reflexivity.
    + vm_compute. reflexivity.
    + destruct Hsame as (_ & _ & Herror).
      * vm_compute. reflexivity.
      * apply Herror.
        -- vm_compute. reflexivity.
        -- reflexivity.
        -- repeat split; reflexivity.
        -- repeat split; vm_compute; reflexivity.
  - destruct (C7_one_payment_per_student_and_day utcPlatform Sample.env Sample.nextDate
                Sample.dayLedger [row] row (2024, 0, 10)
                (Request.mk Sample.treasurer "ST1" 50 "OR-2" "key-2"
                   (Some (Sample.jan11 + Sample.noon)) EmptyString)
                (studentOfRow Sample.juan) (0 + 20)%Q (0 + 20 + 50)%Q)
      as [_ Hnext].
    + reflexivity.
    + left. reflexivity.
    + reflexivity.
    + reflexivity.
    + vm_compute. reflexivity.
    + destruct (Hnext (Sample.jan11 + Sample.noon)) as [Hrecorded _].
      * reflexivity.
      * intros other [<-|[]] _ _. vm_compute. discriminate.
      * vm_compute. reflexivity.
      * reflexivity.
      * repeat split; reflexivity.
      * repeat split; vm_compute; reflexivity.
      * rewrite Hrecorded. reflexivity.
Defined.

Lemma C8_witness :
  validatePaymentAmount (Js.Finite 0) = invalid "Amount must be a valid number"
  /\ validatePaymentAmount (Js.Finite (-5)) = invalid "Amount must be greater than zero"
  /\ message (validatePaymentAmount (Js.Finite 0)) <> expectedReason (Js.Finite 0)
  /\ message (validatePaymentAmount (Js.Finite 17)) = "Amount must be a multiple of 5".
Proof.
  destruct C8_zero_gets_the_reason_of_a_non_number
    as (Hiff & Hout & _ & Hzero & Hneg & _).
  destruct (Hzero 0%Q (Qeq_refl 0)) as (_ & Hz & _ & _ & Hne).
  split; [exact Hz|].
  split; [apply Hneg; reflexivity|].
  split; [exact Hne|].
  assert (Hnot : ~ amountInBounds (Js.Finite 17)).
  { intro H. apply Hiff in H. vm_compute in H. discriminate. }
  destruct (Hout (Js.Finite 17) Hnot) as (_ & Hmsg & _).
  - cbn. intro H. vm_compute in H. discriminate.
  - rewrite Hmsg. vm_compute. reflexivity.
Defined.

Lemma C9_witness :
  handleRecordPayment utcPlatform Sample.later Sample.forAna Sample.lockedWorld
  = (createErrorResponse msgBusy, withSleeps [100; 200] Sample.lockedWorld).
Proof.
  assert (Hc : forall n, contended Sample.later Sample.lockedWorld n).
  { intro n. split.
    - exists 1%nat. split; [reflexivity|discriminate].
    - intros attempt _. reflexivity. }
  destruct (C9_lock_exhaustion_is_busy utcPlatform Sample.later "recordPayment_ST2" 3
              Sample.forAna (Sample.checked Sample.forAna) Sample.lockedWorld)
    as (_ & _ & _ & Hbusy).
  - apply Hc.
  - apply Hc.
  - vm_compute. reflexivity.
  - exact Hbusy.
Defined.

Lemma C10_witness :
  exists row entry,
    Payments (snd (handleRecordPayment utcPlatform Sample.env Sample.forJuan
                     Sample.world0)) = Some [row]
    /\ PhysicalReceiptNo row = "OR-101"
    /\ AuditLog (snd (handleRecordPayment utcPlatform Sample.env Sample.forJuan
                        Sample.world0)) = Some [entry]
    /\ Details.systemReceiptNo (AuditRow.Details entry) = "R-20240110-007"
    /\ Payments (snd (handleRecordPayment utcPlatform
                        (withReceiptDraws Sample.otherDraws 0 Sample.env)
                        Sample.forJuan Sample.world0)) = Some [row].
Proof.
  destruct (C10_receipt_reference_not_in_ledger utcPlatform Sample.env Sample.forJuan
              Sample.world0 Sample.otherDraws 0)
    as [(req & sheet & student & tp & nt & iso & Hsheet & Hrows & Hno & _ & _ & _
         & Haudit & _ & _ & Hsame & _) (_ & _ & (entry & Hentry & Href) & _)].
  - vm_compute. reflexivity.
  - assert (sheet = []) by (vm_compute in Hsheet; congruence). subst sheet.
    exists (paymentRowOf Sample.env req student (newPaymentId Sample.env)), entry.
    split; [exact Hrows|]. split; [exact Hno|].
    split; [exact Hentry|]. split; [exact Href|].
    rewrite Hsame. exact Hrows.
Defined.

(* ================================================================== *)
(** * Further properties of the code *)

(* ================================================================== *)
(** ** Every outcome of acquireLockWithRetry *)

Lemma waitLock_withSleeps (env : Env) (attempt : nat) (pauses : list Z) (w : World) :
  waitLock env attempt (withSleeps pauses w) = waitLock env attempt w.
Proof. reflexivity. Qed.

Lemma backoff_cons (first count : nat) :
  backoff first (S count) = 100 * (Z.of_nat first + 1) :: backoff (S first) count.
Proof. reflexivity. Qed.

Lemma totalSleep_backoff (first count : nat) :
  totalSleep (backoff first count)
  = 100 * Z.of_nat count * Z.of_nat first
    + 50 * Z.of_nat count * (Z.of_nat count + 1).
Proof.
  revert first. induction count as [|count IH]; intro first.
  - cbn. lia.
  - rewrite backoff_cons. cbn [totalSleep fold_right].
    fold (totalSleep (backoff (S first) count)). rewrite IH. lia.
Qed.

Lemma lockAttempts_outcome (env : Env) (n : nat) :
  forall remaining attempt w,
    (attempt + remaining = n)%nat ->
    (exists k,
        (attempt <= k < n)%nat
        /\ (forall a, (attempt <= a < k)%nat -> waitLock env a w = false)
        /\ waitLock env k w = true
        /\ lockAttempts env n attempt remaining w
           = (Some ScriptLock,
              setScriptLock (Some (executionId env))
                (withSleeps (backoff attempt (k - attempt)) w)))
    \/ ((forall a, (attempt <= a < n)%nat -> waitLock env a w = false)
        /\ lockAttempts env n attempt remaining w
           = (None, withSleeps (backoff attempt (remaining - 1)) w)).
Proof.
  induction remaining as [|remaining IH]; intros attempt w Hsum.
  - right. split; [intros a Ha; lia|]. cbn. rewrite withSleeps_nil. reflexivity.
  - cbn [lockAttempts]. destruct (waitLock env attempt w) eqn:Ewait.
    + left. exists attempt. split; [lia|]. split; [intros a Ha; lia|].
      split; [exact Ewait|]. rewrite Nat.sub_diag. cbn [backoff seq map].
      rewrite withSleeps_nil. reflexivity.
    + destruct (attempt =? n - 1)%nat eqn:Elast.
      * apply Nat.eqb_eq in Elast. right. split.
        -- intros a Ha. assert (a = attempt) by lia. subst a. exact Ewait.
        -- replace (S remaining - 1)%nat with 0%nat by lia.
           cbn. rewrite withSleeps_nil. reflexivity.
      * apply Nat.eqb_neq in Elast.
        destruct (IH (S attempt) (addSleep (100 * (Z.of_nat attempt + 1)) w))
          as [(k & Hk & Hbefore & Hat & Hrun)|(Hall & Hrun)]; [lia| |].
        -- left. exists k. split; [lia|]. split.
           ++ intros a Ha. destruct (Nat.eq_dec a attempt) as [->|Hne];
                [exact Ewait|]. apply (Hbefore a). lia.
           ++ split; [exact Hat|]. rewrite Hrun, withSleeps_cons.
              replace (k - attempt)%nat with (S (k - S attempt)) by lia.
              reflexivity.
        -- right. split.
           ++ intros a Ha. destruct (Nat.eq_dec a attempt) as [->|Hne];
                [exact Ewait|]. apply (Hall a). lia.
           ++ rewrite Hrun, withSleeps_cons.
              replace (S remaining - 1)%nat with (S (remaining - 1)) by lia.
              reflexivity.
Qed.

(** X1. acquireLockWithRetry(lockKey, n), with n = 3 when none is given,
    either obtains the script lock at the first attempt k whose wait
    succeeds, having slept 100, 200, ..., 100k ms before it, or finds all n
    waits failing and returns no lock after n - 1 pauses, the lock left as it
    was.  In both cases it touches nothing but the lock and the clock, and it
    sleeps at most 50 n (n - 1) ms in total. *)
Theorem X1_acquireLockWithRetry_outcomes
  (env : Env) (lockKey : string) (maxAttempts : nat) (w : World) :
  let n := effectiveAttempts maxAttempts in
  ((exists k,
       (k < n)%nat
       /\ (forall a, (a < k)%nat -> waitLock env a w = false)
       /\ waitLock env k w = true
       /\ acquireLockWithRetry env lockKey maxAttempts w
          = (Some ScriptLock,
             setScriptLock (Some (executionId env)) (withSleeps (backoff 0 k) w)))
   \/ ((forall a, (a < n)%nat -> waitLock env a w = false)
       /\ acquireLockWithRetry env lockKey maxAttempts w
          = (None, withSleeps (backoff 0 (n - 1)) w)))
  /\ (exists pauses,
         slept (snd (acquireLockWithRetry env lockKey maxAttempts w))
         = (slept w ++ pauses)%list
         /\ 0 <= totalSleep pauses <= 50 * Z.of_nat n * (Z.of_nat n - 1)).
Proof.
  cbv zeta. unfold acquireLockWithRetry. fold (effectiveAttempts maxAttempts).
  set (n := effectiveAttempts maxAttempts).
  assert (Hn : (1 <= n)%nat).
  { unfold n, effectiveAttempts. destruct maxAttempts; cbn; lia. }
  destruct (lockAttempts_outcome env n n 0 w eq_refl)
    as [(k & Hk & Hbefore & Hat & Hrun)|(Hall & Hrun)].
  - split.
    + left. exists k. split; [lia|]. split; [intros a Ha; apply Hbefore; lia|].
      split; [exact Hat|]. rewrite Hrun, Nat.sub_0_r. reflexivity.
    + exists (backoff 0 k). rewrite Hrun, Nat.sub_0_r. split; [reflexivity|].
      rewrite totalSleep_backoff. nia.
  - split.
    + right. split; [intros a Ha; apply Hall; lia|]. exact Hrun.
    + exists (backoff 0 (n - 1)). rewrite Hrun. split; [reflexivity|].
      rewrite totalSleep_backoff. nia.
Qed.

(* ================================================================== *)
(** ** The audit log never decides a payment *)

Lemma sameButAudit_withAuditLog (log : option (list AuditRow.t)) (w : World) :
  sameButAudit (withAuditLog log w) w.
Proof. repeat split. Qed.

Lemma sameButAudit_releaseLock (env : Env) (fails : bool) (w1 w2 : World) :
  sameButAudit w1 w2 ->
  sameButAudit (releaseLock (withAuditFault fails env) w1) (releaseLock env w2).
Proof.
  intros (Hp & Hs & Hl & Hz). unfold releaseLock. cbn [executionId withAuditFault].
  rewrite Hl. unfold sameButAudit.
  destruct (scriptLock w2) as [h|] eqn:E2; [|repeat split; congruence].
  destruct (h =? executionId env)%nat; repeat split; cbn; congruence.
Qed.

Lemma lockAttempts_audit (env : Env) (fails : bool) (n : nat) :
  forall remaining attempt w1 w2,
    sameButAudit w1 w2 ->
    fst (lockAttempts (withAuditFault fails env) n attempt remaining w1)
    = fst (lockAttempts env n attempt remaining w2)
    /\ sameButAudit
         (snd (lockAttempts (withAuditFault fails env) n attempt remaining w1))
         (snd (lockAttempts env n attempt remaining w2)).
Proof.
  induction remaining as [|remaining IH]; intros attempt w1 w2 Hsame.
  - cbn. split; [reflexivity|exact Hsame].
  - cbn [lockAttempts]. destruct Hsame as (Hp & Hs & Hl & Hz).
    assert (Hwait : waitLock (withAuditFault fails env) attempt w1
                    = waitLock env attempt w2).
    { unfold waitLock. cbn [executionId lockFreed withAuditFault]. rewrite Hl.
      reflexivity. }
    rewrite Hwait. destruct (waitLock env attempt w2).
    + cbn. repeat split; assumption.
    + destruct (attempt =? n - 1)%nat.
      * cbn. repeat split; assumption.
      * apply IH. repeat split; cbn; congruence.
Qed.

Lemma generate_audit (P : Platform) (env : Env) (fails : bool) (w1 w2 : World)
  (d : Js.Date) :
  Payments w1 = Payments w2 ->
  generateUniqueReceiptNumber P w1 (withAuditFault fails env) d
  = generateUniqueReceiptNumber P w2 env d.
Proof.
  intro Hp. rewrite (generate_ext P w2 w1 _ d Hp).
  unfold generateUniqueReceiptNumber. cbn [fallbackTime withAuditFault].
  assert (H : forall remaining attempt,
             receiptAttempts w2 (withAuditFault fails env)
               (formatDate P d "YYYYMMDD") attempt remaining
             = receiptAttempts w2 env (formatDate P d "YYYYMMDD") attempt remaining).
  { induction remaining as [|remaining IH]; intro attempt; cbn; [reflexivity|].
    rewrite IH. reflexivity. }
  rewrite H. reflexivity.
Qed.

Lemma critical_audit (P : Platform) (env : Env) (fails : bool) (req : Request.t)
  (w1 w2 : World) :
  sameButAudit w1 w2 ->
  fst (critical P (withAuditFault fails env) req w1) = fst (critical P env req w2)
  /\ sameButAudit (snd (critical P (withAuditFault fails env) req w1))
       (snd (critical P env req w2)).
Proof.
  intros Hsame.
  pose proof (sameButAudit_releaseLock env fails w1 w2 Hsame) as Hrel.
  destruct Hsame as (Hp & Hs & Hl & Hz).
  unfold critical, tryCatch, bind, reading, release, ret, lift.
  cbn [faults withAuditFault].
  rewrite (eligibility_ext P w2 w1 _ _ _ Hp Hs).
  destruct (faults env AtEligibility); [split; [reflexivity|exact Hrel]|].
  destruct (validateStudentPaymentEligibility P w2 (Request.studentId req)
              (Request.amount req) (Request.session req))
    as [msg|student totalPaid newTotal]; [split; [reflexivity|exact Hrel]|].
  destruct (faults env AtOpenPayments); [split; [reflexivity|exact Hrel]|].
  rewrite Hp.
  destruct (Payments w2) as [sheet|] eqn:Epay; [|split; [reflexivity|exact Hrel]].
  destruct (faults env AtReadPayments); [split; [reflexivity|exact Hrel]|].
  unfold getDataRows.
  destruct (find (keyRecheck _) sheet); [split; [reflexivity|exact Hrel]|].
  destruct (find (receiptRecheck _) sheet); [split; [reflexivity|exact Hrel]|].
  destruct (existsb _ sheet); [split; [reflexivity|exact Hrel]|].
  destruct (faults env AtGenerateReceipt); [split; [reflexivity|exact Hrel]|].
  rewrite (generate_audit P env fails w1 w2 _ (eq_trans Hp (eq_sym Epay))).
  unfold commit, tryCatch, bind, appendRow, toISOString, logAction, release, ret.
  cbn [faults withAuditFault].
  destruct (faults env AtAppendRow); [split; [reflexivity|exact Hrel]|].
  rewrite Hp, Epay.
  set (row := paymentRowOf _ req student _).
  assert (Hrow : row = paymentRowOf env req student (newPaymentId env)) by reflexivity.
  rewrite Hrow. clear Hrow row.
  set (w1' := setPayments _ w1). set (w2' := setPayments _ w2).
  assert (Hsame' : sameButAudit w1' w2') by (repeat split; assumption).
  destruct (Request.paymentDate req) as [iso|].
  - unfold w1', w2'. cbn [AuditLog setPayments].
    destruct (AuditLog w1) as [rows1|]; [destruct fails|];
      (destruct (AuditLog w2) as [rows2|]; [destruct (faults env AtAuditAppend)|]);
      cbn [fst snd]; (split; [reflexivity|]);
      apply sameButAudit_releaseLock; repeat split; assumption.
  - cbn [fst snd]. split; [reflexivity|].
    apply sameButAudit_releaseLock. exact Hsame'.
Qed.

(** X2. Whether the audit entry can be written does not decide a
    payment: with the AuditLog sheet missing or replaced, and with the write
    to it failing or not, handleRecordPayment gives the same response and
    leaves the same Payments and Students sheets and the same lock. *)
Theorem X2_audit_log_never_decides
  (P : Platform) (env : Env) (payload : Payload.t) (w : World)
  (fails : bool) (log : option (list AuditRow.t)) :
  let run := handleRecordPayment P env payload w in
  let run' := handleRecordPayment P (withAuditFault fails env) payload
                (withAuditLog log w) in
  fst run' = fst run
  /\ Payments (snd run') = Payments (snd run)
  /\ Students (snd run') = Students (snd run)
  /\ scriptLock (snd run') = scriptLock (snd run).
Proof.
  cbv zeta. unfold handleRecordPayment.
  change (prevalidate (withAuditFault fails env) payload (withAuditLog log w))
    with (prevalidate env payload w).
  destruct (prevalidate env payload w) as [response|req]; [repeat split|].
  unfold acquireLockWithRetry. cbn [Nat.eqb].
  destruct (lockAttempts_audit env fails 3 3 0 (withAuditLog log w) w
              (sameButAudit_withAuditLog log w)) as [Hfst Hsnd].
  destruct (lockAttempts (withAuditFault fails env) 3 0 3 (withAuditLog log w))
    as [r1 w1].
  destruct (lockAttempts env 3 0 3 w) as [r2 w2].
  cbn [fst snd] in Hfst, Hsnd. subst r2.
  destruct r1 as [lock|].
  - destruct (critical_audit P env fails req w1 w2 Hsnd) as [Hr (Hp & Hs & Hl & _)].
    repeat split; assumption.
  - destruct Hsnd as (Hp & Hs & Hl & _). repeat split; assumption.
Qed.

(* ================================================================== *)
(** ** What a request can change *)

(** X3. A request whose payment date is a valid date and whose response is
    not the receipt of a recorded payment has written nothing: the Payments,
    Students and AuditLog sheets are as before, whatever failed (a check, the
    lock, a platform call). *)
Theorem X3_failed_request_writes_nothing
  (P : Platform) (env : Env) (payload : Payload.t) (w : World) (iso : Z) :
  paymentDateOf env payload = Some iso ->
  isRecorded (fst (handleRecordPayment P env payload w)) = false ->
  Payments (snd (handleRecordPayment P env payload w)) = Payments w
  /\ Students (snd (handleRecordPayment P env payload w)) = Students w
  /\ AuditLog (snd (handleRecordPayment P env payload w)) = AuditLog w.
Proof.
  intros Hdate Hno.
  destruct (handle_cases P env payload w) as [(Hp & Hs & Ha & _)|Hyes];
    [repeat split; assumption|].
  exfalso.
  destruct Hyes as (req & sheet & student & tp & nt & Hpre & _ & _ & _ & _ & _ & Hresp).
  destruct Hresp as [(i & _ & Hr & _)|(Hinvalid & _)].
  - rewrite Hr in Hno. discriminate.
  - apply prevalidate_inr in Hpre.
    destruct Hpre as (s & q & _ & _ & _ & _ & _ & _ & _ & ->).
    cbn in Hinvalid. congruence.
Qed.

(** X4. handleRecordPayment never changes or removes a row: the Students
    sheet is left as it is, and the Payments sheet is either left as it is or
    extended by one row at its end, a payment of the requested student that
    is not voided, carries the idempotency key of the request and the id the
    response would return. *)
Theorem X4_ledger_is_append_only
  (P : Platform) (env : Env) (payload : Payload.t) (w : World) :
  Students (snd (handleRecordPayment P env payload w)) = Students w
  /\ (Payments (snd (handleRecordPayment P env payload w)) = Payments w
      \/ exists sheet row,
           Payments w = Some sheet
           /\ Payments (snd (handleRecordPayment P env payload w))
              = Some (sheet ++ [row])%list
           /\ StudentID row = Payload.studentId payload
           /\ IsVoided row = false
           /\ IdempotencyKey row = idempotencyKeyOf env payload
           /\ PaymentID row = newPaymentId env).
Proof.
  destruct (handle_cases P env payload w) as [(Hp & Hs & _ & _)|Hyes].
  - split; [exact Hs|]. left. exact Hp.
  - destruct Hyes as (req & sheet & student & tp & nt & Hpre & _ & _ & Hchecks & Hrows
                      & Hs & _).
    split; [exact Hs|]. right.
    exists sheet, (paymentRowOf env req student (newPaymentId env)).
    apply prevalidate_inr in Hpre.
    destruct Hpre as (s & q & _ & _ & _ & _ & _ & _ & _ & Hreq).
    split; [exact (proj1 Hchecks)|]. split; [exact Hrows|].
    rewrite Hreq. repeat split.
Qed.

(* ================================================================== *)
(** ** Invariants of the Payments sheet *)

Lemma NoDup_snoc {A : Type} (l : list A) (x : A) :
  NoDup l -> ~ In x l -> NoDup (l ++ [x]).
Proof.
  intros Hl Hx. induction l as [|a l IH]; cbn.
  - constructor; [intros []|constructor].
  - inversion Hl as [|a' l' Ha Hl']; subst. constructor.
    + intro Hin. apply in_app_or in Hin. destruct Hin as [Hin|[->|[]]].
      * exact (Ha Hin).
      * apply Hx. left. reflexivity.
    + apply IH; [exact Hl'|]. intro Hin. apply Hx. right. exact Hin.
Qed.

Lemma filter_live_snoc (sheet : list PaymentRow) (row : PaymentRow) :
  IsVoided row = false -> filter live (sheet ++ [row]) = (filter live sheet ++ [row])%list.
Proof.
  intro Hv. rewrite filter_app. cbn. unfold live at 2. rewrite Hv. reflexivity.
Qed.

(** The sheets before and after a request: equal, or one row more, with
    the checks of the critical section passed. *)
Lemma handle_sheet_cases (P : Platform) (env : Env) (payload : Payload.t) (w : World)
  (sheet sheet' : list PaymentRow) :
  Payments w = Some sheet ->
  Payments (snd (handleRecordPayment P env payload w)) = Some sheet' ->
  sheet' = sheet
  \/ exists s q student totalPaid newTotal,
       let req := requestOf env payload s q in
       wellFormed env payload s q
       /\ passesChecks P req w sheet student totalPaid newTotal
       /\ sheet' = (sheet ++ [paymentRowOf env req student (newPaymentId env)])%list.
Proof.
  intros Hpay Hpay'.
  destruct (handle_cases P env payload w) as [(Hp & _)|Hyes].
  - left. congruence.
  - right.
    destruct Hyes as (req & sh & student & tp & nt & Hpre & _ & _ & Hchecks & Hrows & _).
    apply prevalidate_inr in Hpre.
    destruct Hpre as (s & q & H1 & H2 & H3 & H4 & H5 & _ & _ & ->).
    exists s, q, student, tp, nt. cbv zeta.
    assert (sh = sheet) by (destruct Hchecks as (Hsh & _); congruence). subst sh.
    split; [repeat split; assumption|]. split; [exact Hchecks|]. congruence.
Qed.

(** X5. If the idempotency keys of the Payments sheet are pairwise
    different, voided and old rows included, they still are after any
    request: the re-check in the lock refuses a key that any row carries. *)
Theorem X5_idempotency_keys_stay_distinct
  (P : Platform) (env : Env) (payload : Payload.t) (w : World)
  (sheet sheet' : list PaymentRow) :
  Payments w = Some sheet ->
  Payments (snd (handleRecordPayment P env payload w)) = Some sheet' ->
  NoDup (map IdempotencyKey sheet) ->
  NoDup (map IdempotencyKey sheet').
Proof.
  intros Hpay Hpay' Hnd.
  destruct (handle_sheet_cases P env payload w sheet sheet' Hpay Hpay')
    as [->|(s & q & student & tp & nt & _ & Hchecks & ->)]; [exact Hnd|].
  destruct Hchecks as (_ & _ & Hkey & _).
  rewrite map_app. cbn [map]. apply NoDup_snoc; [exact Hnd|].
  intro Hin. apply in_map_iff in Hin. destruct Hin as (row & Hrow & Hin).
  pose proof (find_none _ _ Hkey row Hin) as Hno.
  unfold keyRecheck in Hno. cbn in Hrow, Hno. rewrite Hrow, String.eqb_refl in Hno.
  discriminate.
Qed.

(** X6. If the receipt numbers of the payments that are not voided are
    pairwise different once trimmed and upper-cased, they still are after
    any request. *)
Theorem X6_receipt_numbers_stay_distinct
  (P : Platform) (env : Env) (payload : Payload.t) (w : World)
  (sheet sheet' : list PaymentRow) :
  Payments w = Some sheet ->
  Payments (snd (handleRecordPayment P env payload w)) = Some sheet' ->
  NoDup (liveReceipts sheet) ->
  NoDup (liveReceipts sheet').
Proof.
  intros Hpay Hpay' Hnd.
  destruct (handle_sheet_cases P env payload w sheet sheet' Hpay Hpay')
    as [->|(s & q & student & tp & nt & _ & Hchecks & ->)]; [exact Hnd|].
  destruct Hchecks as (_ & _ & _ & Hrec & _).
  unfold liveReceipts. rewrite filter_live_snoc by reflexivity.
  rewrite map_app. cbn [map]. apply NoDup_snoc; [exact Hnd|].
  intro Hin. apply in_map_iff in Hin. destruct Hin as (row & Hrow & Hin).
  apply filter_In in Hin. destruct Hin as [Hin Hlive].
  pose proof (find_none _ _ Hrec row Hin) as Hno.
  unfold receiptRecheck in Hno. unfold live in Hlive. rewrite Hlive in Hno.
  cbn [negb andb] in Hno.
  cbn [paymentRowOf PhysicalReceiptNo requestOf Request.physicalReceiptNo] in Hrow, Hno.
  unfold normalized in Hrow. rewrite trim_idempotent in Hrow.
  rewrite Hrow, String.eqb_refl in Hno. discriminate.
Qed.

(** X7. If no student has two payments that are not voided on one calendar
    day, this still holds after any request. *)
Theorem X7_one_live_payment_per_day_is_kept
  (P : Platform) (env : Env) (payload : Payload.t) (w : World)
  (sheet sheet' : list PaymentRow) :
  Payments w = Some sheet ->
  Payments (snd (handleRecordPayment P env payload w)) = Some sheet' ->
  NoDup (liveDays P sheet) ->
  NoDup (liveDays P sheet').
Proof.
  intros Hpay Hpay' Hnd.
  destruct (handle_sheet_cases P env payload w sheet sheet' Hpay Hpay')
    as [->|(s & q & student & tp & nt & _ & Hchecks & ->)]; [exact Hnd|].
  destruct Hchecks as (_ & _ & _ & _ & Hday).
  unfold liveDays. rewrite filter_live_snoc by reflexivity.
  rewrite map_app. cbn [map]. apply NoDup_snoc; [exact Hnd|].
  intro Hin. apply in_map_iff in Hin. destruct Hin as (row & Hrow & Hin).
  apply filter_In in Hin. destruct Hin as [Hin Hlive].
  assert (Hex : existsb (sameDay P (Request.studentId (requestOf env payload s q))
                           (toDateString P
                              (Request.paymentDate (requestOf env payload s q))))
                  sheet = true).
  { apply existsb_exists. exists row. split; [exact Hin|].
    cbn in Hrow. injection Hrow as Hsid Hdate.
    unfold sameDay. cbn [requestOf Request.studentId Request.paymentDate].
    rewrite Hsid, String.eqb_refl. unfold live in Hlive. rewrite Hlive.
    cbn [andb]. apply sameDateString_eq. exact Hdate. }
  rewrite Hex in Hday. discriminate.
Qed.

(* ================================================================== *)
(** ** What a recorded row holds *)

Lemma eligibility_section (P : Platform) (w : World) (studentId : string)
  (amount : Q) (session : Session.t) (student : Student.t) (totalPaid newTotal : Q) :
  validateStudentPaymentEligibility P w studentId amount session
  = Eligible student totalPaid newTotal ->
  Js.truthy (Student.isActive student) = true
  /\ (Session.role session = "Treasurer" ->
      Student.sectionId student = Session.section session).
Proof.
  unfold validateStudentPaymentEligibility, getDataRows. intro H.
  destruct (Students w) as [stuSheet|]; [|discriminate].
  destruct (Payments w) as [paySheet|]; [|discriminate].
  destruct (find _ stuSheet) as [row|]; [|discriminate].
  destruct (Js.truthy (Student.isActive (studentOfRow row))) eqn:Eact;
    [|discriminate].
  cbn [negb] in H.
  destruct (String.eqb (Session.role session) "Treasurer") eqn:Erole.
  - destruct (String.eqb (Student.sectionId (studentOfRow row))
                (Session.section session)) eqn:Esec; [|discriminate].
    cbn [negb andb] in H. destruct (exceedsExpected _ _); [discriminate|].
    injection H as <- _ _. split; [exact Eact|]. intros _.
    apply String.eqb_eq. exact Esec.
  - cbn [andb] in H. destruct (exceedsExpected _ _); [discriminate|].
    injection H as <- _ _. split; [exact Eact|]. intro Hrole.
    apply String.eqb_neq in Erole. contradiction.
Qed.

(** X8. The row of a recorded payment: it names the requested student and
    the section of that student's row, a treasurer's payment lies in the
    treasurer's own section, the amount is the parsed amount of the request
    and is within the bounds of validatePaymentAmount, the row is entered by
    the user of the session at the commit time and is not voided. *)
Theorem X8_recorded_row
  (P : Platform) (env : Env) (payload : Payload.t) (w : World) :
  isRecorded (fst (handleRecordPayment P env payload w)) = true ->
  exists s sheet row stuSheet studentRow,
    session env = Some s
    /\ Payments w = Some sheet
    /\ Payments (snd (handleRecordPayment P env payload w)) = Some (sheet ++ [row])%list
    /\ Students w = Some stuSheet
    /\ studentRowOf (Payload.studentId payload) stuSheet = Some studentRow
    /\ StudentID row = Payload.studentId payload
    /\ SectionID row = StudentRow.SectionID studentRow
    /\ (Session.role s = "Treasurer" -> SectionID row = Session.section s)
    /\ Js.parseFloat (Payload.amount payload) = Js.Finite (Amount row)
    /\ amountInBounds (Js.Finite (Amount row))
    /\ EnteredBy row = Session.user s
    /\ CreatedAt row = Some (commitTime env)
    /\ PaymentDate row = paymentDateOf env payload
    /\ IsVoided row = false.
Proof.
  intro Hrec.
  destruct (handle_cases P env payload w) as [(_ & _ & _ & Hno)|Hyes]; [congruence|].
  destruct Hyes as (req & sheet & student & tp & nt & Hpre & _ & _ & Hchecks & Hrows & _).
  apply prevalidate_inr in Hpre.
  destruct Hpre as (s & q & Hs & _ & Hq & Hvalid & _ & _ & _ & ->).
  destruct Hchecks as (Hpay & Helig & _).
  cbn [requestOf Request.studentId Request.amount Request.session] in Helig.
  pose proof (eligibility_section _ _ _ _ _ _ _ _ Helig) as [_ Hsec].
  apply eligibility_eligible in Helig.
  destruct Helig as (ss & ps & srow & Hss & _ & Hsrow & Hstudent & _).
  exists s, sheet, (paymentRowOf env (requestOf env payload s q) student (newPaymentId env)),
    ss, srow.
  split; [exact Hs|]. split; [exact Hpay|]. split; [exact Hrows|].
  split; [exact Hss|]. split; [exact Hsrow|]. split; [reflexivity|].
  split; [cbn; rewrite Hstudent; reflexivity|].
  split; [exact Hsec|]. split; [exact Hq|].
  split; [apply validatePaymentAmount_valid_iff; exact Hvalid|].
  repeat split.
Qed.

(* ================================================================== *)
(** ** The validators *)

Lemma blank_trim (s : string) : Js.blank s = true -> Js.blank (Js.trim s) = true.
Proof. destruct s; [reflexivity|discriminate]. Qed.

Lemma keyInUse_iff (now : Z) (key : string) (row : PaymentRow) :
  keyInUse (cutoffTime now) key row = true
  <-> IsVoided row = false /\ IdempotencyKey row = key
      /\ exists ms, CreatedAt row = Some ms /\ now - retentionMs < ms.
Proof.
  unfold keyInUse, dateAfter, cutoffTime, retentionMs,
    CONFIG.IDEMPOTENCY_RETENTION_HOURS.
  rewrite !andb_true_iff, negb_true_iff, String.eqb_eq.
  destruct (CreatedAt row) as [ms|].
  - rewrite Z.ltb_lt. split.
    + intros [[Hv Hlt] Hk]. split; [exact Hv|]. split; [exact Hk|].
      exists ms. split; [reflexivity|lia].
    + intros (Hv & Hk & ms' & Hms & Hlt). injection Hms as <-.
      split; [split; [exact Hv|lia]|exact Hk].
  - split.
    + intros [[_ H] _]. discriminate.
    + intros (_ & _ & ms & Hms & _). discriminate.
Qed.

(** X9. validateIdempotencyKey on an existing Payments sheet: a key is
    accepted exactly when it is not blank after trimming and no payment that
    is not voided and was created less than 24 hours before now carries it (a
    payment created exactly 24 hours before, or with an invalid creation date,
    does not count); when it reports an existing payment, that is such a
    payment, the first of the sheet. *)
Theorem X9_validateIdempotencyKey_verdict
  (w : World) (now : Z) (key : string) (sheet : list PaymentRow) :
  Payments w = Some sheet ->
  (valid (validateIdempotencyKey w now key) = true
   <-> Js.blank (Js.trim key) = false
       /\ forall row ms,
            In row sheet -> IsVoided row = false -> IdempotencyKey row = key ->
            CreatedAt row = Some ms -> ms <= now - retentionMs)
  /\ (forall id,
        existingPaymentId (validateIdempotencyKey w now key) = Some id ->
        exists before row after ms,
          sheet = (before ++ row :: after)%list
          /\ PaymentID row = id /\ IsVoided row = false /\ IdempotencyKey row = key
          /\ CreatedAt row = Some ms /\ now - retentionMs < ms
          /\ forall r, In r before -> keyInUse (cutoffTime now) key r = false).
Proof.
  intro Hpay. unfold validateIdempotencyKey. rewrite Hpay. unfold getDataRows.
  split.
  - destruct (Js.blank key) eqn:Eb.
    { cbn. rewrite (blank_trim key Eb). split; [discriminate|]. intros [H _]. discriminate. }
    destruct (Js.blank (Js.trim key)) eqn:Et.
    { cbn. split; [discriminate|]. intros [H _]. discriminate. }
    cbn [orb].
    destruct (find (keyInUse (cutoffTime now) key) sheet) as [row|] eqn:Efind; cbn.
    + split; [discriminate|]. intros [_ Hall]. exfalso.
      apply find_some in Efind. destruct Efind as [Hin Huse].
      apply keyInUse_iff in Huse. destruct Huse as (Hv & Hk & ms & Hms & Hlt).
      pose proof (Hall row ms Hin Hv Hk Hms). unfold retentionMs in *. lia.
    + split; [intros _|reflexivity]. split; [reflexivity|].
      intros row ms Hin Hv Hk Hms.
      pose proof (find_none _ _ Efind row Hin) as Hno.
      destruct (Z_lt_le_dec (now - retentionMs) ms) as [Hlt|Hle];
        [|unfold retentionMs in *; lia].
      exfalso. assert (Huse : keyInUse (cutoffTime now) key row = true).
      { apply keyInUse_iff. repeat split; try assumption. exists ms. split; assumption. }
      congruence.
  - intros id Hid.
    destruct (Js.blank key || Js.blank (Js.trim key)); [discriminate|].
    destruct (find (keyInUse (cutoffTime now) key) sheet) as [row|] eqn:Efind;
      [|discriminate].
    cbn in Hid. injection Hid as <-.
    assert (Hsplit : exists before after,
               sheet = (before ++ row :: after)%list
               /\ forall r, In r before -> keyInUse (cutoffTime now) key r = false).
    { clear Hpay. induction sheet as [|a sheet IH]; [discriminate|].
      cbn in Efind. destruct (keyInUse (cutoffTime now) key a) eqn:Ea.
      - injection Efind as ->. exists [], sheet. split; [reflexivity|intros r []].
      - destruct (IH Efind) as (before & after & -> & Hbefore).
        exists (a :: before), after. split; [reflexivity|].
        intros r [<-|Hr]; [exact Ea|exact (Hbefore r Hr)]. }
    destruct Hsplit as (before & after & Hsheet & Hbefore).
    apply find_some in Efind. destruct Efind as [_ Huse].
    apply keyInUse_iff in Huse. destruct Huse as (Hv & Hk & ms & Hms & Hlt).
    exists before, row, after, ms. repeat split; assumption.
Qed.

Lemma receiptInUse_excluding_iff (receiptNo : string) (exclude : option string)
  (row : PaymentRow) :
  receiptInUse (normalized receiptNo) exclude row = true
  <-> IsVoided row = false
      /\ excluded exclude (PaymentID row) = false
      /\ normalized (PhysicalReceiptNo row) = normalized receiptNo.
Proof.
  unfold receiptInUse, normalized.
  rewrite andb_true_iff, negb_true_iff, orb_false_iff, String.eqb_eq. tauto.
Qed.

(** X10. validateUniqueReceiptNumber on an existing Payments sheet, for
    receipt numbers that are ASCII texts and not blank: a number is accepted
    exactly when every payment that is not voided and has the same number,
    compared trimmed and upper-cased, is the excluded payment; so two
    spellings of a number that agree up to case and outer white space get the
    same verdict; and a rejection carries the message
    'Receipt number "<number>" already used in payment <id>' with the id of a
    payment that is not voided, not excluded and has that number. *)
Theorem X10_validateUniqueReceiptNumber_verdict
  (w : World) (receiptNo other : string) (exclude : option string)
  (sheet : list PaymentRow) :
  Payments w = Some sheet ->
  asciiReceipts sheet ->
  asciiText receiptNo = true ->
  Js.blank (Js.trim receiptNo) = false ->
  (valid (validateUniqueReceiptNumber w receiptNo exclude) = true
   <-> forall row,
         In row sheet -> IsVoided row = false ->
         normalized (PhysicalReceiptNo row) = normalized receiptNo ->
         excluded exclude (PaymentID row) = true)
  /\ (asciiText other = true ->
      Js.blank (Js.trim other) = false ->
      normalized other = normalized receiptNo ->
      valid (validateUniqueReceiptNumber w other exclude)
      = valid (validateUniqueReceiptNumber w receiptNo exclude))
  /\ (valid (validateUniqueReceiptNumber w receiptNo exclude) = false ->
      exists row,
        In row sheet /\ IsVoided row = false
        /\ excluded exclude (PaymentID row) = false
        /\ normalized (PhysicalReceiptNo row) = normalized receiptNo
        /\ message (validateUniqueReceiptNumber w receiptNo exclude)
           = "Receipt number " ++ Js.dquote ++ receiptNo ++ Js.dquote
               ++ " already used in payment " ++ PaymentID row).
Proof.
  intros Hpay _ _ Hnb.
  assert (Hshape : forall r,
             Js.blank (Js.trim r) = false ->
             validateUniqueReceiptNumber w r exclude
             = match find (receiptInUse (normalized r) exclude) sheet with
               | Some row => invalid (receiptUsedMessage r (PaymentID row))
               | None => ok "Receipt number is unique"
               end).
  { intros r Hr. unfold validateUniqueReceiptNumber, getDataRows, normalized.
    rewrite Hpay, Hr. destruct (Js.blank r) eqn:Eb; [|reflexivity].
    rewrite (blank_trim r Eb) in Hr. discriminate. }
  split; [|split].
  - rewrite (Hshape receiptNo Hnb).
    destruct (find _ sheet) as [row|] eqn:Efind; cbn.
    + split; [discriminate|]. intro Hall. exfalso.
      apply find_some in Efind. destruct Efind as [Hin Huse].
      apply receiptInUse_excluding_iff in Huse. destruct Huse as (Hv & Hex & Hn).
      rewrite (Hall row Hin Hv Hn) in Hex. discriminate.
    + split; [intros _|reflexivity]. intros row Hin Hv Hn.
      pose proof (find_none _ _ Efind row Hin) as Hno.
      destruct (excluded exclude (PaymentID row)) eqn:Eex; [reflexivity|].
      exfalso. assert (Huse : receiptInUse (normalized receiptNo) exclude row = true)
        by (apply receiptInUse_excluding_iff; repeat split; assumption).
      congruence.
  - intros _ Hob Hsame. rewrite (Hshape receiptNo Hnb), (Hshape other Hob), Hsame.
    destruct (find _ sheet); reflexivity.
  - rewrite (Hshape receiptNo Hnb).
    destruct (find _ sheet) as [row|] eqn:Efind; cbn [valid message invalid ok];
      [intros _|discriminate].
    apply find_some in Efind. destruct Efind as [Hin Huse].
    apply receiptInUse_excluding_iff in Huse. destruct Huse as (Hv & Hex & Hn).
    exists row. repeat split; assumption || reflexivity.
Qed.

(* ================================================================== *)
(** ** The system receipt reference is checked, the fallback is not *)

Lemma receiptAttempts_outcome (w : World) (env : Env) (dateStr : string) :
  forall remaining attempt,
    (exists k,
        (attempt <= k < attempt + remaining)%nat
        /\ receiptAttempts w env dateStr attempt remaining
           = Some (candidateReceipt env dateStr k)
        /\ valid (validateUniqueReceiptNumber w (candidateReceipt env dateStr k) None)
           = true
        /\ forall a, (attempt <= a < k)%nat ->
             valid (validateUniqueReceiptNumber w (candidateReceipt env dateStr a) None)
             = false)
    \/ (receiptAttempts w env dateStr attempt remaining = None
        /\ forall a, (attempt <= a < attempt + remaining)%nat ->
             valid (validateUniqueReceiptNumber w (candidateReceipt env dateStr a) None)
             = false).
Proof.
  induction remaining as [|remaining IH]; intro attempt.
  - right. split; [reflexivity|]. intros a Ha. lia.
  - cbn [receiptAttempts]. fold (candidateReceipt env dateStr attempt).
    destruct (valid (validateUniqueReceiptNumber w (candidateReceipt env dateStr attempt)
                       None)) eqn:Ev.
    + left. exists attempt. split; [lia|]. split; [reflexivity|].
      split; [exact Ev|]. intros a Ha. lia.
    + destruct (IH (S attempt)) as [(k & Hk & Hrun & Hv & Hbefore)|(Hrun & Hall)].
      * left. exists k. split; [lia|]. split; [exact Hrun|]. split; [exact Hv|].
        intros a Ha. destruct (Nat.eq_dec a attempt) as [->|Hne]; [exact Ev|].
        apply Hbefore. lia.
      * right. split; [exact Hrun|]. intros a Ha.
        destruct (Nat.eq_dec a attempt) as [->|Hne]; [exact Ev|]. apply Hall. lia.
Qed.

(** X11. generateUniqueReceiptNumber returns the first of its at most 100
    candidates 'R-' + date + '-' + three-digit draw that
    validateUniqueReceiptNumber accepts, so that no payment that is not voided
    has it as receipt number; when all 100 are refused (as they all are when
    the Payments sheet is missing) it returns 'R-' + date + '-' + the seconds
    of the clock, which it does not check. *)
Theorem X11_generateUniqueReceiptNumber_outcomes
  (P : Platform) (w : World) (env : Env) (paymentDate : Js.Date) :
  let dateStr := formatDate P paymentDate "YYYYMMDD" in
  let reference := generateUniqueReceiptNumber P w env paymentDate in
  ((exists k,
       (k < 100)%nat
       /\ reference = candidateReceipt env dateStr k
       /\ valid (validateUniqueReceiptNumber w reference None) = true
       /\ forall a, (a < k)%nat ->
            valid (validateUniqueReceiptNumber w (candidateReceipt env dateStr a) None)
            = false)
   \/ (reference = fallbackReceipt env dateStr
       /\ forall a, (a < 100)%nat ->
            valid (validateUniqueReceiptNumber w (candidateReceipt env dateStr a) None)
            = false))
  /\ (Payments w = None -> reference = fallbackReceipt env dateStr).
Proof.
  cbv zeta. unfold generateUniqueReceiptNumber.
  destruct (receiptAttempts_outcome w env (formatDate P paymentDate "YYYYMMDD") 100 0)
    as [(k & Hk & Hrun & Hv & Hbefore)|(Hrun & Hall)]; rewrite Hrun.
  - split.
    + left. exists k. split; [lia|]. split; [reflexivity|]. split; [exact Hv|].
      intros a Ha. apply Hbefore. lia.
    + intro Hnone. exfalso. unfold validateUniqueReceiptNumber in Hv.
      rewrite Hnone in Hv. destruct (_ || _) in Hv; discriminate.
  - split.
    + right. split; [reflexivity|]. intros a Ha. apply Hall. lia.
    + intros _. reflexivity.
Qed.

(* ================================================================== *)
(** ** What the eligibility of a student depends on *)

Lemma fold_paid_filter (studentId : string) (sheet : list PaymentRow) :
  forall acc : Q,
    fold_left
      (fun totalPaid row =>
         if paidBy studentId row then (totalPaid + Amount row)%Q else totalPaid)
      sheet acc
    = fold_left
        (fun totalPaid row =>
           if paidBy studentId row then (totalPaid + Amount row)%Q else totalPaid)
        (filter (paidBy studentId) sheet) acc.
Proof.
  induction sheet as [|row sheet IH]; intro acc; cbn; [reflexivity|].
  destruct (paidBy studentId row) eqn:E; cbn; rewrite ?E; apply IH.
Qed.

Lemma totalPaidOf_filter (studentId : string) (sheet : list PaymentRow) :
  totalPaidOf studentId sheet = totalPaidOf studentId (filter (paidBy studentId) sheet).
Proof. unfold totalPaidOf. apply fold_paid_filter. Qed.

(** X12. The eligibility of a student depends on the Payments sheet only
    through that student's payments that are not voided, in their order:
    payments of other students and voided payments never change the result,
    the running totals included. *)
Theorem X12_eligibility_reads_own_live_payments
  (P : Platform) (w1 w2 : World) (studentId : string) (amount : Q)
  (session : Session.t) (sheet1 sheet2 : list PaymentRow) :
  Students w1 = Students w2 ->
  Payments w1 = Some sheet1 ->
  Payments w2 = Some sheet2 ->
  filter (paidBy studentId) sheet1 = filter (paidBy studentId) sheet2 ->
  validateStudentPaymentEligibility P w1 studentId amount session
  = validateStudentPaymentEligibility P w2 studentId amount session.
Proof.
  intros Hs H1 H2 Hsame. unfold validateStudentPaymentEligibility, getDataRows.
  rewrite Hs, H1, H2.
  rewrite (totalPaidOf_filter studentId sheet1), (totalPaidOf_filter studentId sheet2),
    Hsame.
  reflexivity.
Qed.

Lemma find_map_same {A : Type} (p : A -> bool) (g : A -> A) (l : list A) :
  (forall x, p (g x) = p x) -> find p (map g l) = option_map g (find p l).
Proof.
  intro H. induction l as [|a l IH]; cbn; [reflexivity|].
  rewrite H. destruct (p a); [reflexivity|exact IH].
Qed.

(** X13. validateStudentPaymentEligibility never reads the ExpectedAmount
    column of the Students sheet: whatever cells that column holds, the result
    is the same.  The ceiling it applies is the number parsed from the Status
    column, and a student counts as active when the CreatedAt cell is not
    empty. *)
Theorem X13_eligibility_ignores_ExpectedAmount_column
  (P : Platform) (w : World) (studentId : string) (amount : Q)
  (session : Session.t) (stuSheet : list StudentRow.t)
  (cell : StudentRow.t -> Js.Value) :
  Students w = Some stuSheet ->
  validateStudentPaymentEligibility P
    (withStudents (Some (map (fun row => setExpectedAmount (cell row) row) stuSheet)) w)
    studentId amount session
  = validateStudentPaymentEligibility P w studentId amount session.
Proof.
  intro Hs. unfold validateStudentPaymentEligibility, getDataRows.
  rewrite Hs. cbn [Students Payments withStudents].
  destruct (Payments w) as [paySheet|]; [|reflexivity].
  rewrite (find_map_same
             (fun r => String.eqb (StudentRow.StudentID r) studentId)
             (fun row => setExpectedAmount (cell row) row) stuSheet)
    by reflexivity.
  destruct (find _ stuSheet) as [row|]; reflexivity.
Qed.

(** X14. The section rule of validateStudentPaymentEligibility: a session
    whose role is 'Treasurer' is refused, for every amount, a student that is
    found and active in a section other than the session's; for sessions of
    any other role the result does not depend on the session. *)
Theorem X14_treasurers_are_bound_to_their_section
  (P : Platform) (w : World) (studentId : string) (amount : Q)
  (session other : Session.t) (stuSheet : list StudentRow.t)
  (paySheet : list PaymentRow) (row : StudentRow.t) :
  Students w = Some stuSheet ->
  Payments w = Some paySheet ->
  studentRowOf studentId stuSheet = Some row ->
  Js.truthy (StudentRow.CreatedAt row) = true ->
  (Session.role session = "Treasurer" ->
   StudentRow.SectionID row <> Session.section session ->
   validateStudentPaymentEligibility P w studentId amount session
   = Ineligible "Student not in your section")
  /\ (Session.role session <> "Treasurer" ->
      Session.role other <> "Treasurer" ->
      validateStudentPaymentEligibility P w studentId amount session
      = validateStudentPaymentEligibility P w studentId amount other).
Proof.
  intros Hs Hp Hrow Hact. unfold studentRowOf in Hrow.
  unfold validateStudentPaymentEligibility, getDataRows.
  rewrite Hs, Hp, Hrow. cbn [studentOfRow Student.isActive Student.sectionId].
  rewrite Hact. cbn [negb]. split.
  - intros Hrole Hsec. rewrite Hrole, String.eqb_refl.
    apply String.eqb_neq in Hsec. rewrite Hsec. reflexivity.
  - intros Hrole Hother. apply String.eqb_neq in Hrole, Hother.
    rewrite Hrole, Hother. reflexivity.
Qed.

(* ================================================================== *)
(** ** Client and server agree on the amount *)

(** X15. The validator of the client (API.validatePaymentAmount) and the
    validator of the server accept the same amounts: whatever the form holds,
    the client accepts it exactly when the server accepts its parsed value,
    that is when it parses to a multiple of 5 between 5 and 10000.  They
    differ in one text: zero is 'not greater than zero' for the client and
    'not a valid number' for the server. *)
Theorem X15_client_and_server_accept_the_same_amounts (amount : Js.Value) :
  valid (API.validatePaymentAmount amount)
  = valid (validatePaymentAmount (Js.parseFloat amount))
  /\ (valid (API.validatePaymentAmount amount) = true
      <-> amountInBounds (Js.parseFloat amount))
  /\ message (API.validatePaymentAmount (Js.Num 0)) = "Amount must be greater than zero"
  /\ message (validatePaymentAmount (Js.parseFloat (Js.Num 0)))
     = "Amount must be a valid number".
Proof.
  assert (Hsame : valid (API.validatePaymentAmount amount)
                  = valid (validatePaymentAmount (Js.parseFloat amount))).
  { unfold API.validatePaymentAmount, validatePaymentAmount.
    destruct (Js.parseFloat amount) as [|[|]|q]; try reflexivity.
    change (inject_Z CONFIG.PAYMENT_AMOUNT_MIN) with (5 : Q).
    change (inject_Z CONFIG.MAX_PAYMENT_AMOUNT) with (10000 : Q).
    change (inject_Z CONFIG.PAYMENT_AMOUNT_MULTIPLE) with (5 : Q).
    destruct (Qeq_bool q 0) eqn:E0.
    - apply Qeq_bool_iff in E0.
      assert (Hle : Qle_bool q 0 = true) by (apply Qle_bool_iff; rewrite E0; apply Qle_refl).
      rewrite Hle. reflexivity.
    - destruct (Qle_bool q 0); [reflexivity|].
      destruct (Js.Qlt_bool q 5); [reflexivity|].
      destruct (Js.Qlt_bool 10000 q); [reflexivity|].
      destruct (negb _); reflexivity. }
  split; [exact Hsame|]. split.
  - rewrite Hsame. apply validatePaymentAmount_valid_iff.
  - split; reflexivity.
Qed.

(* ================================================================== *)
(** ** The dry run of the form *)

Lemma noteFailure_valid (partValid : bool) (partMessage : string) (overall : Validation) :
  valid (noteFailure partValid partMessage overall) = partValid && valid overall.
Proof.
  unfold noteFailure. destruct partValid, (valid overall) eqn:E; cbn; try rewrite E;
    reflexivity.
Qed.

(** X16. The verdict of handleValidatePaymentData: canProceed is the
    validity of the overall entry, it holds exactly when the amount, the
    receipt number, the student and the same-day entries are all valid, and
    otherwise the overall message is the message of the first of them, in
    this order, that is not. *)
Theorem X16_dry_run_verdict
  (P : Platform) (env : Env) (payload : Payload.t) (w : World)
  (results : Results.t) (canProceed : bool) :
  handleValidatePaymentData P env payload w = validationResponse results canProceed ->
  canProceed = valid (Results.overall results)
  /\ (canProceed = true
      <-> valid (Results.amount results) = true
          /\ valid (Results.receiptNumber results) = true
          /\ studentEntryValid (Results.student results) = true
          /\ valid (Results.duplicate results) = true)
  /\ (canProceed = true ->
      message (Results.overall results) = "All validations passed")
  /\ (canProceed = false ->
      message (Results.overall results) = firstFailure results).
Proof.
  unfold handleValidatePaymentData. destruct (session env) as [s|]; [|discriminate].
  cbv zeta.
  set (amountResult := if falsyNumber _ then _ else _).
  set (receiptResult := if Js.blank (Js.trim _) then _ else _).
  set (studentResult := if negb (Js.blank _) && _ then _ else _).
  set (duplicateResult := if negb (Js.blank _) then _ else _).
  intro H. injection H as <- <-.
  cbn [Results.overall Results.amount Results.receiptNumber Results.student
         Results.duplicate].
  unfold firstFailure.
  cbn [Results.overall Results.amount Results.receiptNumber Results.student
         Results.duplicate].
  split; [reflexivity|].
  unfold noteFailure.
  destruct (valid amountResult), (valid receiptResult),
    (studentEntryValid studentResult), (valid duplicateResult); cbn;
    (split; [split; [discriminate || tauto | tauto || (intros (? & ? & ? & ?); discriminate)]|]);
    (split; [reflexivity || discriminate | reflexivity || discriminate]).
Qed.

Lemma eligibilityAt_finite (P : Platform) (w : World) (studentId : string) (q : Q)
  (session : Session.t) :
  validateStudentPaymentEligibilityAt P w studentId (Js.Finite q) session
  = match validateStudentPaymentEligibility P w studentId q session with
    | Ineligible msg => IneligibleAt msg
    | Eligible student totalPaid newTotal =>
        EligibleAt student totalPaid (Js.Finite newTotal)
    end.
Proof.
  unfold validateStudentPaymentEligibilityAt, validateStudentPaymentEligibility.
  destruct (Students w) as [stuSheet|]; [|reflexivity].
  destruct (Payments w) as [paySheet|]; [|reflexivity].
  destruct (find _ (getDataRows stuSheet)) as [row|]; [|reflexivity].
  destruct (negb _); [reflexivity|].
  destruct (_ && _); [reflexivity|].
  cbn [addNumber exceedsExpectedAt].
  destruct (exceedsExpected _ _); reflexivity.
Qed.

Lemma validatePaymentAmount_valid_finite (amount : Js.Number) :
  valid (validatePaymentAmount amount) = true ->
  exists q, amount = Js.Finite q /\ Qeq_bool q 0 = false.
Proof.
  destruct amount as [|[|]|q]; cbn; try discriminate.
  intro H. exists q. split; [reflexivity|].
  destruct (Qeq_bool q 0); [discriminate|reflexivity].
Qed.

(** What a dry run that lets the form proceed has checked. *)
Lemma dry_run_proceeds (P : Platform) (env : Env) (payload : Payload.t) (w : World)
  (results : Results.t) :
  handleValidatePaymentData P env payload w = validationResponse results true ->
  exists s q sheet student totalPaid newTotal,
    wellFormed env payload s q
    /\ Payments w = Some sheet
    /\ valid (validateUniqueReceiptNumber w (Js.trim (Payload.physicalReceiptNo payload))
                None) = true
    /\ validateStudentPaymentEligibility P w (Payload.studentId payload) q s
       = Eligible student totalPaid newTotal
    /\ existsb (sameDay P (Payload.studentId payload)
                  (toDateString P (paymentDateOf env payload))) sheet = false.
Proof.
  unfold handleValidatePaymentData.
  destruct (session env) as [s|] eqn:Hsession; [|discriminate].
  cbv zeta. intro H. injection H as _ Hcan.
  rewrite !noteFailure_valid in Hcan.
  apply andb_true_iff in Hcan. destruct Hcan as [Hd Hcan].
  apply andb_true_iff in Hcan. destruct Hcan as [Hs Hcan].
  apply andb_true_iff in Hcan. destruct Hcan as [Hr Hcan].
  apply andb_true_iff in Hcan. destruct Hcan as [Ha _].
  destruct (falsyNumber (Js.parseFloat (Payload.amount payload))) eqn:Efalsy;
    [discriminate|].
  destruct (validatePaymentAmount_valid_finite _ Ha) as (q & Hq & Hq0).
  destruct (Js.blank (Js.trim (Payload.physicalReceiptNo payload))) eqn:Erec;
    [discriminate|].
  destruct (Js.blank (Payload.studentId payload)) eqn:Esid; [discriminate|].
  cbn [negb andb] in Hs, Hd.
  rewrite Hq, eligibilityAt_finite in Hs.
  destruct (validateStudentPaymentEligibility P w (Payload.studentId payload) q s)
    as [msg|student tp nt] eqn:Eelig; [discriminate|].
  destruct (Payments w) as [sheet|] eqn:Epay.
  - unfold getDataRows in Hd. destruct (existsb _ sheet) eqn:Eday; [discriminate|].
    exists s, q, sheet, student, tp, nt.
    split; [|repeat split; assumption].
    rewrite Hq in Ha. repeat split; assumption.
  - exfalso. unfold validateUniqueReceiptNumber in Hr. rewrite Epay in Hr.
    destruct (_ || _) in Hr; discriminate.
Qed.

Lemma dry_run_of_checks (P : Platform) (env : Env) (payload : Payload.t) (w : World)
  (s : Session.t) (q : Q) (sheet : list PaymentRow) (student : Student.t)
  (totalPaid newTotal : Q) :
  wellFormed env payload s q ->
  Payments w = Some sheet ->
  valid (validateUniqueReceiptNumber w (Js.trim (Payload.physicalReceiptNo payload)) None)
  = true ->
  validateStudentPaymentEligibility P w (Payload.studentId payload) q s
  = Eligible student totalPaid newTotal ->
  existsb (sameDay P (Payload.studentId payload)
             (toDateString P (paymentDateOf env payload))) sheet = false ->
  exists results,
    handleValidatePaymentData P env payload w = validationResponse results true.
Proof.
  intros (Hs & Hsid & Hq & Hv & Hr) Hpay Hrec Helig Hday.
  unfold handleValidatePaymentData. rewrite Hs. cbv zeta.
  assert (Hq0 : Qeq_bool q 0 = false).
  { destruct (Qeq_bool q 0) eqn:E; [|reflexivity].
    unfold validatePaymentAmount in Hv. rewrite E in Hv. discriminate. }
  eexists. f_equal.
  rewrite !noteFailure_valid, Hq, Hsid, Hr, Hpay.
  cbn [falsyNumber negb andb]. rewrite Hq0, Hrec, Hv. cbn [negb andb].
  rewrite eligibilityAt_finite, Helig. unfold getDataRows. rewrite Hday. reflexivity.
Qed.

(** X17. The dry run and the recorder agree.  Whenever handleRecordPayment
    records a request, handleValidatePaymentData on the same request and
    sheets says it can proceed.  Conversely a request the dry run lets
    proceed is recorded, provided its idempotency key is not blank and is
    carried by no row, its payment date is a valid date, the lock is free and
    no platform call fails: the dry run checks neither the key nor the
    lock. *)
Theorem X17_dry_run_agrees_with_recorder
  (P : Platform) (env : Env) (payload : Payload.t) (w : World)
  (sheet : list PaymentRow) (iso : Z) :
  (isRecorded (fst (handleRecordPayment P env payload w)) = true ->
   exists results,
     handleValidatePaymentData P env payload w = validationResponse results true)
  /\ (scriptLock w = None ->
      callsSucceed env ->
      Payments w = Some sheet ->
      Js.blank (Js.trim (idempotencyKeyOf env payload)) = false ->
      keyUnused (idempotencyKeyOf env payload) sheet ->
      paymentDateOf env payload = Some iso ->
      forall results,
        handleValidatePaymentData P env payload w = validationResponse results true ->
        isRecorded (fst (handleRecordPayment P env payload w)) = true).
Proof.
  split.
  - intro Hrec.
    destruct (handle_cases P env payload w) as [(_ & _ & _ & Hno)|Hyes]; [congruence|].
    destruct Hyes as (req & sh & student & tp & nt & Hpre & _ & _ & Hchecks & _).
    apply prevalidate_inr in Hpre.
    destruct Hpre as (s & q & H1 & H2 & H3 & H4 & H5 & _ & Hr & ->).
    destruct Hchecks as (Hpay & Helig & _ & _ & Hday).
    apply (dry_run_of_checks P env payload w s q sh student tp nt);
      try assumption. repeat split; assumption.
  - intros Hlock Hcalls Hpay Hkeynb Hunused Hdate results Hdry.
    apply dry_run_proceeds in Hdry.
    destruct Hdry as (s & q & sh & student & tp & nt & Hwf & Hpay' & Hrec & Helig & Hday).
    assert (sh = sheet) by congruence. subst sh.
    assert (Hfresh : find (keyRecheck (idempotencyKeyOf env payload)) sheet = None).
    { apply find_all_false. intros row Hin. unfold keyRecheck.
      apply String.eqb_neq. exact (Hunused row Hin). }
    assert (Hkey : valid (validateIdempotencyKey w (idempotencyTime env)
                            (idempotencyKeyOf env payload)) = true).
    { unfold validateIdempotencyKey. rewrite Hpay, Hkeynb.
      destruct (Js.blank (idempotencyKeyOf env payload)) eqn:Eb.
      - rewrite (blank_trim _ Eb) in Hkeynb. discriminate.
      - cbn [orb]. unfold getDataRows.
        rewrite (find_weaken _ (keyRecheck (idempotencyKeyOf env payload)) sheet);
          [reflexivity| |exact Hfresh].
        intros x Hx. unfold keyInUse in Hx. apply andb_true_iff in Hx.
        destruct Hx as [_ Hx]. exact Hx. }
    rewrite (handle_commits P env payload w (requestOf env payload s q) sheet student
               tp nt iso).
    + reflexivity.
    + apply prevalidate_passes; assumption.
    + rewrite acquire_free by exact Hlock. reflexivity.
    + exact Hcalls.
    + split; [exact Hpay|]. split; [exact Helig|]. split; [exact Hfresh|].
      split; [|exact Hday].
      cbn [requestOf Request.physicalReceiptNo].
      rewrite (find_same _ _ sheet (receiptRecheck_receiptInUse _)).
      unfold validateUniqueReceiptNumber in Hrec. rewrite Hpay in Hrec.
      destruct (_ || _) in Hrec; [discriminate|].
      unfold getDataRows, normalized in *.
      destruct (find _ sheet) eqn:E in Hrec; [discriminate|].
      rewrite trim_idempotent in E. rewrite trim_idempotent. exact E.
    + exact Hdate.
Qed.

(* ------------------------------------------------------------------ *)
(** ** Sessions *)

Lemma sessionMatches_deactivate (token : string) (row : SessionRow.t) :
  sessionMatches token (deactivate row) = false.
Proof. unfold sessionMatches, deactivate; cbn. apply andb_false_r. Qed.

Lemma sessionMatches_touch (now : Z) (token : string) (row : SessionRow.t) :
  sessionMatches token (touch now row) = sessionMatches token row.
Proof. reflexivity. Qed.

Lemma scanSessions_verdict (now : Z) (token : string) (rows : list SessionRow.t) :
  fst (scanSessions now token rows) =
  match find (sessionMatches token) rows with
  | None => None
  | Some row =>
      if dateBefore (SessionRow.ExpiresAt row) now
         || dateBefore (SessionRow.LastActivity row) (now - inactivityMs)
      then None
      else Some (sessionOfRow token row)
  end.
Proof.
  induction rows as [|row rest IH]; [reflexivity|].
  cbn [scanSessions find].
  destruct (sessionMatches token row).
  - change (now - INACTIVITY_TIMEOUT_MINUTES * 60 * 1000) with (now - inactivityMs).
    destruct (dateBefore (SessionRow.ExpiresAt row) now); [reflexivity|].
    cbn [orb].
    destruct (dateBefore (SessionRow.LastActivity row) (now - inactivityMs));
      reflexivity.
  - destruct (scanSessions now token rest) as [result rest'].
    exact IH.
Qed.

Lemma scanSessions_no_match (now : Z) (token : string) (rows : list SessionRow.t) :
  filter (sessionMatches token) rows = [] ->
  scanSessions now token rows = (None, rows).
Proof.
  induction rows as [|row rest IH]; [reflexivity|].
  cbn [filter scanSessions].
  destruct (sessionMatches token row); [discriminate|].
  intros H. rewrite (IH H). reflexivity.
Qed.

Lemma scanSessions_rejected (now : Z) (token : string) (rows : list SessionRow.t) :
  tokenUnique token rows ->
  fst (scanSessions now token rows) = None ->
  filter (sessionMatches token) (snd (scanSessions now token rows)) = [].
Proof.
  unfold tokenUnique.
  induction rows as [|row rest IH]; [reflexivity|].
  cbn [filter scanSessions].
  destruct (sessionMatches token row) eqn:Em.
  - cbn [List.length]. intros Hu.
    assert (Hrest : filter (sessionMatches token) rest = []).
    { destruct (filter (sessionMatches token) rest); [reflexivity|].
      cbn in Hu. lia. }
    destruct (dateBefore (SessionRow.ExpiresAt row) now).
    + intros _. cbn [snd filter].
      rewrite sessionMatches_deactivate. exact Hrest.
    + destruct (dateBefore (SessionRow.LastActivity row)
                  (now - INACTIVITY_TIMEOUT_MINUTES * 60 * 1000)).
      * intros _. cbn [snd filter].
        rewrite sessionMatches_deactivate. exact Hrest.
      * cbn [fst]. discriminate.
  - intros Hu. specialize (IH Hu).
    destruct (scanSessions now token rest) as [result rest'].
    cbn [fst snd] in *. intros Hr.
    cbn [filter]. rewrite Em. exact (IH Hr).
Qed.

Lemma scanSessions_accepted (now : Z) (token : string) (rows : list SessionRow.t)
  (s : Session.t) :
  fst (scanSessions now token rows) = Some s ->
  exists row,
    find (sessionMatches token) rows = Some row
    /\ find (sessionMatches token) (snd (scanSessions now token rows))
       = Some (touch now row)
    /\ s = sessionOfRow token row.
Proof.
  induction rows as [|row rest IH]; [discriminate|].
  cbn [scanSessions find].
  destruct (sessionMatches token row) eqn:Em.
  - destruct (dateBefore (SessionRow.ExpiresAt row) now); [discriminate|].
    destruct (dateBefore (SessionRow.LastActivity row)
                (now - INACTIVITY_TIMEOUT_MINUTES * 60 * 1000)); [discriminate|].
    cbn [fst snd find]. intros [= <-].
    exists row. rewrite sessionMatches_touch, Em. auto.
  - destruct (scanSessions now token rest) as [result rest'].
    cbn [fst snd find] in *. rewrite Em. exact IH.
Qed.

Lemma scanSessions_rows (now : Z) (token : string) (rows : list SessionRow.t) :
  Forall2
    (fun before after =>
       sameSession before after
       /\ (SessionRow.IsActive after = true -> SessionRow.IsActive before = true))
    rows (snd (scanSessions now token rows)).
Proof.
  assert (Hrefl : forall l : list SessionRow.t,
    Forall2
      (fun before after =>
         sameSession before after
         /\ (SessionRow.IsActive after = true
             -> SessionRow.IsActive before = true)) l l).
  { induction l; constructor; auto. unfold sameSession. tauto. }
  induction rows as [|row rest IH]; [constructor|].
  cbn [scanSessions].
  destruct (sessionMatches token row).
  - destruct (dateBefore (SessionRow.ExpiresAt row) now);
      [|destruct (dateBefore (SessionRow.LastActivity row)
                   (now - INACTIVITY_TIMEOUT_MINUTES * 60 * 1000))];
      cbn [snd]; constructor; auto;
      unfold sameSession, deactivate, touch; cbn; try tauto.
    all: repeat split; auto; discriminate.
  - destruct (scanSessions now token rest) as [result rest'].
    cbn [snd] in *. constructor; auto. unfold sameSession. tauto.
Qed.

(** X18. A token that is in at most one active row and that validateSession
    has rejected once is rejected at every later call, whatever the time,
    and these calls write nothing. *)
Theorem X18_rejected_session_stays_rejected
  (now : Z) (token : string) (rows rows' : list SessionRow.t) :
  tokenUnique token rows ->
  validateSession now token (Some rows) = (None, Some rows') ->
  forall later : Z,
    validateSession later token (Some rows') = (None, Some rows').
Proof.
  unfold validateSession, getDataRows. intros Hu H later.
  destruct (Js.blank token); [congruence|].
  pose proof (scanSessions_rejected now token rows Hu) as Hrej.
  destruct (scanSessions now token rows) as [result after].
  cbn [fst snd] in Hrej.
  injection H as Hres Hrows. subst result after.
  rewrite (scanSessions_no_match later token rows' (Hrej eq_refl)).
  reflexivity.
Qed.

(** X19. The inactivity window slides: once validateSession has accepted a
    token at time t, the next call at time t' accepts it, with the same
    user, role, department and section, exactly when the row is not past
    its expiry at t' and t' is at most ten minutes after t. *)
Theorem X19_session_window_slides
  (t : Z) (token : string) (rows rows' : list SessionRow.t) (s : Session.t) :
  validateSession t token (Some rows) = (Some s, Some rows') ->
  exists row,
    find (sessionMatches token) rows = Some row
    /\ s = sessionOfRow token row
    /\ forall t' : Z,
         fst (validateSession t' token (Some rows')) =
         if dateBefore (SessionRow.ExpiresAt row) t' || (t + inactivityMs <? t')
         then None
         else Some s.
Proof.
  unfold validateSession, getDataRows. intros H.
  destruct (Js.blank token); [discriminate|].
  pose proof (scanSessions_accepted t token rows s) as Hacc.
  destruct (scanSessions t token rows) as [result after].
  cbn [fst snd] in Hacc.
  injection H as Hres Hrows. subst result after.
  destruct (Hacc eq_refl) as (row & Hfind & Hfind' & Hs).
  exists row. repeat split; auto.
  intros t'.
  pose proof (scanSessions_verdict t' token rows') as Hv.
  destruct (scanSessions t' token rows') as [result' after'].
  cbn [fst] in *. rewrite Hv, Hfind'.
  cbn [touch SessionRow.ExpiresAt SessionRow.LastActivity dateBefore].
  replace (t <? t' - inactivityMs) with (t + inactivityMs <? t').
  2:{ destruct (Z.ltb_spec (t + inactivityMs) t'),
               (Z.ltb_spec t (t' - inactivityMs)); auto; lia. }
  subst s. reflexivity.
Qed.

(** X20. validateSession never turns an inactive row active, never changes
    the number of rows, and leaves the token, user, role, department,
    section, creation time and expiry of every row as they were. *)
Theorem X20_validateSession_never_activates
  (now : Z) (token : string) (rows : list SessionRow.t) :
  exists rows',
    snd (validateSession now token (Some rows)) = Some rows'
    /\ Forall2
         (fun before after =>
            sameSession before after
            /\ (SessionRow.IsActive after = true
                -> SessionRow.IsActive before = true))
         rows rows'.
Proof.
  unfold validateSession, getDataRows.
  destruct (Js.blank token).
  - exists rows. split; [reflexivity|].
    induction rows; constructor; auto. unfold sameSession. tauto.
  - pose proof (scanSessions_rows now token rows) as H.
    destruct (scanSessions now token rows) as [result after].
    exists after. split; [reflexivity | exact H].
Qed.

(* ------------------------------------------------------------------ *)
(** ** The ceiling the code applies *)

(** X21. The ceiling validateStudentPaymentEligibility applies is the number
    in column 4 (Status) of the student row.  When that cell parses to a
    positive number and handleRecordPayment records a payment, the student's
    payments that are not voided, the new one included, sum to the new total
    of the response and do not exceed that number.  The boundary is
    inclusive, and a number that is not positive caps nothing: on a row with
    100 in column 4 and 80 paid, 20 is recorded with new total 100 and 25 is
    refused; on a row with 0 in column 4, 5 is recorded. *)
Theorem X21_ceiling_applies_to_the_status_cell
  (P : Platform) (env : Env) (payload : Payload.t) (w w' : World)
  (receipt : Receipt.t) (stuSheet : list StudentRow.t) (row : StudentRow.t) (e : Q) :
  handleRecordPayment P env payload w
  = (createSuccessResponse (Recorded receipt), w') ->
  Students w = Some stuSheet ->
  studentRowOf (Payload.studentId payload) stuSheet = Some row ->
  Js.parseFloat (Js.orZero (StudentRow.Status row)) = Js.Finite e ->
  (0 < e)%Q ->
  (exists rows,
      Payments w' = Some rows
      /\ totalPaidOf (Payload.studentId payload) rows = Receipt.newTotal receipt
      /\ (totalPaidOf (Payload.studentId payload) rows <= e)%Q)
  /\ (exists accepted,
        fst (handleRecordPayment utcPlatform Sample.env (Sample.pay "ST3" 20)
               (Sample.paid80 [Fixtures.capped 100] "ST3"))
        = createSuccessResponse (Recorded accepted)
        /\ Receipt.previousTotal accepted = 80%Q
        /\ Receipt.newTotal accepted = (80 + 20)%Q)
  /\ handleRecordPayment utcPlatform Sample.env (Sample.pay "ST3" 25)
       (Sample.paid80 [Fixtures.capped 100] "ST3")
     = (createErrorResponse
          "Payment would exceed expected amount. Expected: 100, Already paid: 80, New total: 105",
        Sample.paid80 [Fixtures.capped 100] "ST3")
  /\ isRecorded (fst (handleRecordPayment utcPlatform Sample.env (Sample.pay "ST3" 5)
                        (Sample.sheets [] [Fixtures.capped 0]))) = true.
Proof.
  intros Hrun Hstu Hrow Hread Hpos.
  split; [|split; [eexists; repeat split; vm_compute; reflexivity
                  |split; vm_compute; reflexivity]].
  pose proof (handle_cases P env payload w) as Hcases.
  rewrite Hrun in Hcases. cbn [fst snd] in Hcases.
  destruct Hcases as [(_ & _ & _ & Hno)|Hcases]; [discriminate|].
  destruct Hcases as (req & sheet & student & tp & nt & Hpre & _ & _ & Hchecks & Hrows
                      & _ & Hresp).
  destruct Hresp as [(iso & _ & Hr & _)|(_ & Hr)]; [|discriminate].
  injection Hr as ->.
  apply prevalidate_inr in Hpre.
  destruct Hpre as (s & q & _ & _ & _ & _ & _ & _ & _ & Hreq).
  assert (Hsid : Request.studentId req = Payload.studentId payload)
    by (rewrite Hreq; reflexivity).
  destruct Hchecks as (Hpay & Helig & _).
  apply eligibility_eligible in Helig.
  destruct Helig as (ss & ps & row' & Hss & Hps & Hrow' & _ & Htp & Hnt & Hex).
  rewrite Hsid in *.
  assert (ss = stuSheet) by congruence. subst ss.
  assert (ps = sheet) by congruence. subst ps.
  assert (row' = row) by congruence. subst row'.
  exists (sheet ++ [paymentRowOf env req student (newPaymentId env)])%list.
  split; [exact Hrows|].
  assert (Hsum : totalPaidOf (Payload.studentId payload)
                   (sheet ++ [paymentRowOf env req student (newPaymentId env)])
                 = nt).
  { rewrite totalPaidOf_appended; [|cbn; exact Hsid|reflexivity].
    cbn [Amount paymentRowOf]. rewrite Hnt, Htp. reflexivity. }
  split; [rewrite Hsum; reflexivity|].
  rewrite Hsum. unfold expectedAmountRead, studentOfRow in Hex.
  cbn [Student.expectedAmount] in Hex. rewrite Hread in Hex. cbn in Hex.
  apply Qlt_bool_iff in Hpos. rewrite Hpos in Hex. cbn in Hex.
  apply Qlt_bool_false_iff in Hex. exact Hex.
Qed.

(* ------------------------------------------------------------------ *)
(** ** The further properties on the sample data *)

Lemma X3_witness :
  Payments (snd (handleRecordPayment utcPlatform Sample.env Sample.sameDate
                   Sample.dayLedger)) = Payments Sample.dayLedger
  /\ Students (snd (handleRecordPayment utcPlatform Sample.env Sample.sameDate
                      Sample.dayLedger)) = Students Sample.dayLedger
  /\ AuditLog (snd (handleRecordPayment utcPlatform Sample.env Sample.sameDate
                      Sample.dayLedger)) = AuditLog Sample.dayLedger.
Proof.
  apply (X3_failed_request_writes_nothing utcPlatform Sample.env Sample.sameDate
           Sample.dayLedger (Sample.jan10 + Sample.noon)).
  - reflexivity.
  - vm_compute. reflexivity.
Defined.

Lemma X5_witness :
  NoDup (map IdempotencyKey
           (rowsOf (Payments (snd (handleRecordPayment utcPlatform Sample.env
                                     Sample.nextDate Sample.dayLedger))))).
Proof.
  apply (X5_idempotency_keys_stay_distinct utcPlatform Sample.env Sample.nextDate
           Sample.dayLedger
           [Sample.payment "P1" "ST1" 20 (Sample.jan10 + 3600000) "OR-1" "key-1" false]).
  - reflexivity.
  - vm_compute. reflexivity.
  - constructor; [intros [] | constructor].
Defined.

Lemma X6_witness :
  NoDup (liveReceipts
           (rowsOf (Payments (snd (handleRecordPayment utcPlatform Sample.env
                                     Sample.nextDate Sample.dayLedger))))).
Proof.
  apply (X6_receipt_numbers_stay_distinct utcPlatform Sample.env Sample.nextDate
           Sample.dayLedger
           [Sample.payment "P1" "ST1" 20 (Sample.jan10 + 3600000) "OR-1" "key-1" false]).
  - reflexivity.
  - vm_compute. reflexivity.
  - constructor; [intros [] | constructor].
Defined.

Lemma X7_witness :
  NoDup (liveDays utcPlatform
           (rowsOf (Payments (snd (handleRecordPayment utcPlatform Sample.env
                                     Sample.nextDate Sample.dayLedger))))).
Proof.
  apply (X7_one_live_payment_per_day_is_kept utcPlatform Sample.env Sample.nextDate
           Sample.dayLedger
           [Sample.payment "P1" "ST1" 20 (Sample.jan10 + 3600000) "OR-1" "key-1" false]).
  - reflexivity.
  - vm_compute. reflexivity.
  - constructor; [intros [] | constructor].
Defined.

Lemma X8_witness :
  exists s sheet row stuSheet studentRow,
    session Sample.env = Some s
    /\ Payments Sample.dayLedger = Some sheet
    /\ Payments (snd (handleRecordPayment utcPlatform Sample.env Sample.nextDate
                        Sample.dayLedger)) = Some (sheet ++ [row])%list
    /\ Students Sample.dayLedger = Some stuSheet
    /\ studentRowOf (Payload.studentId Sample.nextDate) stuSheet = Some studentRow
    /\ StudentID row = Payload.studentId Sample.nextDate
    /\ SectionID row = StudentRow.SectionID studentRow
    /\ (Session.role s = "Treasurer" -> SectionID row = Session.section s)
    /\ Js.parseFloat (Payload.amount Sample.nextDate) = Js.Finite (Amount row)
    /\ amountInBounds (Js.Finite (Amount row))
    /\ EnteredBy row = Session.user s
    /\ CreatedAt row = Some (commitTime Sample.env)
    /\ PaymentDate row = paymentDateOf Sample.env Sample.nextDate
    /\ IsVoided row = false.
Proof.
  apply (X8_recorded_row utcPlatform Sample.env Sample.nextDate Sample.dayLedger).
  vm_compute. reflexivity.
Defined.

Lemma X9_witness :
  valid (validateIdempotencyKey Sample.receiptLedger (Sample.jan10 + Sample.noon) "key-1")
  = true
  <-> Js.blank (Js.trim "key-1") = false
      /\ forall row ms,
           In row [Sample.payment "P1" "ST2" 50 Sample.jan09 "OR-1" "key-1" false] ->
           IsVoided row = false -> IdempotencyKey row = "key-1" ->
           CreatedAt row = Some ms -> ms <= Sample.jan10 + Sample.noon - retentionMs.
Proof.
  apply (X9_validateIdempotencyKey_verdict Sample.receiptLedger
           (Sample.jan10 + Sample.noon) "key-1"
           [Sample.payment "P1" "ST2" 50 Sample.jan09 "OR-1" "key-1" false]).
  reflexivity.
Defined.

Lemma X10_witness :
  valid (validateUniqueReceiptNumber Sample.receiptLedger "OR-1" None)
  = valid (validateUniqueReceiptNumber Sample.receiptLedger " or-1 " None)
  /\ message (validateUniqueReceiptNumber Sample.receiptLedger " or-1 " None)
     = "Receipt number " ++ Js.dquote ++ " or-1 " ++ Js.dquote
         ++ " already used in payment P1".
Proof.
  destruct (X10_validateUniqueReceiptNumber_verdict Sample.receiptLedger " or-1 " "OR-1"
              None [Sample.payment "P1" "ST2" 50 Sample.jan09 "OR-1" "key-1" false])
    as (_ & Hsame & Hnames).
  - reflexivity.
  - intros other [<-|[]]. reflexivity.
  - reflexivity.
  - vm_compute. reflexivity.
  - split.
    + apply Hsame; vm_compute; reflexivity.
    + destruct Hnames as (row & [<-|[]] & _ & _ & _ & Hmsg).
      * vm_compute. reflexivity.
      * exact Hmsg.
Defined.

Lemma X12_witness :
  validateStudentPaymentEligibility utcPlatform Fixtures.twoStudents "ST1" 50
    Sample.treasurer
  = validateStudentPaymentEligibility utcPlatform Fixtures.oneStudent "ST1" 50
      Sample.treasurer.
Proof.
  apply (X12_eligibility_reads_own_live_payments utcPlatform Fixtures.twoStudents
           Fixtures.oneStudent "ST1" 50 Sample.treasurer
           [Sample.payment "P1" "ST1" 20 Sample.jan09 "OR-1" "key-1" false;
            Sample.payment "P2" "ST2" 30 Sample.jan09 "OR-2" "key-2" false]
           [Sample.payment "P1" "ST1" 20 Sample.jan09 "OR-1" "key-1" false]).
  - reflexivity.
  - reflexivity.
  - reflexivity.
  - vm_compute. reflexivity.
Defined.

Lemma X13_witness :
  validateStudentPaymentEligibility utcPlatform
    (withStudents
       (Some (map (fun row => setExpectedAmount (Js.Num 5) row) [Sample.juan]))
       (Sample.paid80 [Sample.juan] "ST1"))
    "ST1" 25 Sample.treasurer
  = validateStudentPaymentEligibility utcPlatform (Sample.paid80 [Sample.juan] "ST1")
      "ST1" 25 Sample.treasurer.
Proof.
  apply (X13_eligibility_ignores_ExpectedAmount_column utcPlatform
           (Sample.paid80 [Sample.juan] "ST1") "ST1" 25 Sample.treasurer
           [Sample.juan] (fun _ => Js.Num 5)).
  reflexivity.
Defined.

Lemma X14_witness :
  validateStudentPaymentEligibility utcPlatform Sample.world0 "ST1" 50 Fixtures.pedro
  = Ineligible "Student not in your section".
Proof.
  apply (X14_treasurers_are_bound_to_their_section utcPlatform Sample.world0 "ST1" 50
           Fixtures.pedro Fixtures.admin [Sample.juan; Sample.ana] [] Sample.juan).
  - reflexivity.
  - reflexivity.
  - vm_compute. reflexivity.
  - reflexivity.
  - reflexivity.
  - vm_compute. discriminate.
Defined.

Lemma X16_witness :
  message (Results.overall
             (validationIn (handleValidatePaymentData utcPlatform Sample.env
                              Sample.sameDate Sample.dayLedger)))
  = firstFailure
      (validationIn (handleValidatePaymentData utcPlatform Sample.env
                       Sample.sameDate Sample.dayLedger)).
Proof.
  apply (X16_dry_run_verdict utcPlatform Sample.env Sample.sameDate Sample.dayLedger
           (validationIn (handleValidatePaymentData utcPlatform Sample.env
                            Sample.sameDate Sample.dayLedger))
           false).
  - vm_compute. reflexivity.
  - reflexivity.
Defined.

Lemma X17_witness :
  (exists results,
     handleValidatePaymentData utcPlatform Sample.env Sample.nextDate Sample.dayLedger
     = validationResponse results true)
  /\ isRecorded (fst (handleRecordPayment utcPlatform Sample.env Sample.nextDate
                        Sample.dayLedger)) = true.
Proof.
  destruct (X17_dry_run_agrees_with_recorder utcPlatform Sample.env Sample.nextDate
              Sample.dayLedger
              [Sample.payment "P1" "ST1" 20 (Sample.jan10 + 3600000) "OR-1" "key-1" false]
              (Sample.jan11 + Sample.noon)) as [Hdry Hrec].
  split.
  - apply Hdry. vm_compute. reflexivity.
  - apply (Hrec eq_refl) with
      (results := validationIn (handleValidatePaymentData utcPlatform Sample.env
                                  Sample.nextDate Sample.dayLedger)).
    + repeat split; reflexivity.
    + reflexivity.
    + vm_compute. reflexivity.
    + intros row [<-|[]]. vm_compute. discriminate.
    + reflexivity.
    + vm_compute. reflexivity.
Defined.

Lemma X18_witness :
  validateSession (Sample.jan10 + 12 * Fixtures.minute) "token-1"
    (Some [deactivate Fixtures.maria])
  = (None, Some [deactivate Fixtures.maria]).
Proof.
  apply (X18_rejected_session_stays_rejected
           (Sample.jan10 + 11 * Fixtures.minute) "token-1" [Fixtures.maria]
           [deactivate Fixtures.maria]).
  - unfold tokenUnique. cbn. lia.
  - vm_compute. reflexivity.
Defined.

Lemma X19_witness :
  exists row,
    find (sessionMatches "token-1") [Fixtures.maria] = Some row
    /\ sessionOfRow "token-1" Fixtures.maria = sessionOfRow "token-1" row
    /\ forall t' : Z,
         fst (validateSession t' "token-1"
                (Some [touch (Sample.jan10 + 5 * Fixtures.minute) Fixtures.maria])) =
         if dateBefore (SessionRow.ExpiresAt row) t'
            || (Sample.jan10 + 5 * Fixtures.minute + inactivityMs <? t')
         then None
         else Some (sessionOfRow "token-1" Fixtures.maria).
Proof.
  apply (X19_session_window_slides (Sample.jan10 + 5 * Fixtures.minute) "token-1"
           [Fixtures.maria]
           [touch (Sample.jan10 + 5 * Fixtures.minute) Fixtures.maria]
           (sessionOfRow "token-1" Fixtures.maria)).
  vm_compute. reflexivity.
Defined.

Lemma X21_witness :
  exists rows,
    Payments (snd (handleRecordPayment utcPlatform Sample.env (Sample.pay "ST3" 20)
                     (Sample.paid80 [Fixtures.capped 100] "ST3"))) = Some rows
    /\ (totalPaidOf "ST3" rows <= 100)%Q.
Proof.
  destruct (X21_ceiling_applies_to_the_status_cell utcPlatform Sample.env
              (Sample.pay "ST3" 20) (Sample.paid80 [Fixtures.capped 100] "ST3")
              (snd (handleRecordPayment utcPlatform Sample.env (Sample.pay "ST3" 20)
                      (Sample.paid80 [Fixtures.capped 100] "ST3")))
              (Sample.receiptIn
                 (fst (handleRecordPayment utcPlatform Sample.env (Sample.pay "ST3" 20)
                         (Sample.paid80 [Fixtures.capped 100] "ST3"))))
              [Fixtures.capped 100] (Fixtures.capped 100) 100)
    as [(rows & Hrows & _ & Hle) _].
  - vm_compute. reflexivity.
  - reflexivity.
  - reflexivity.
  - reflexivity.
  - reflexivity.
  - exists rows. split; [exact Hrows|exact Hle].
Defined.
